(** * dev-day-zoom-out: the MLB and elevation pipelines

    A shallow embedding of
    [track_2_operationalize_workflows/session_1_zoom_in]:
    - [get_mlb_data.py]: [get_recent_games], [fetch_game_score],
      [fetch_game_location], [get_game_scores],
      [get_game_locations_flow], [mlb_simple_flow];
    - [snowflake_helper.py]: [setup_tables], [insert_game_scores],
      [insert_game_locations];
    - [get_elevation_data.py]: [get_city_data], [get_elevation],
      [setup_table], [main_elevation].

    Python values decoded from JSON are an inductive type; exceptions are
    an error result; the external collaborators (statsapi, the elevation
    API, the Snowflake connector, lineage emission, the task engine's
    retry loop) act on an explicit world through oracles. *)

From Stdlib Require Import ZArith List Bool Lia Ascii String.
From Stdlib Require Import Floats.SpecFloat.
From stdpp Require Import base list strings gmap pretty.

Local Open Scope string_scope.
Local Open Scope list_scope.
Set Warnings "-register-all".

(** ** Python values and exceptions *)

(** A JSON-decoded Python value.  A dict is kept as its list of items;
    lookup takes the first item with the key. *)
Inductive pyval : Type :=
| PyNone
| PyBool (b : bool)
| PyInt (z : Z)
| PyFloat (f : spec_float)
| PyStr (s : string)
| PyList (l : list pyval)
| PyDict (items : list (string * pyval)).

Inductive exn : Type :=
| AttributeError
| KeyError
| TypeError
| ValueError
| OverflowError
| ExternalError (what : string).

Inductive result (A : Type) : Type :=
| Ok (a : A)
| Raise (e : exn).
Arguments Ok {A} a.
Arguments Raise {A} e.

Definition rbind {A B} (r : result A) (k : A -> result B) : result B :=
  match r with
  | Ok a => k a
  | Raise e => Raise e
  end.

Declare Scope result_scope.
Delimit Scope result_scope with res.
Notation "'do' x <- r ; k" := (rbind r (fun x => k))
  (at level 10, x name, r at level 100, k at level 200) : result_scope.

Definition is_Ok {A} (r : result A) : bool :=
  match r with Ok _ => true | Raise _ => false end.

(** [bool(v)]: Python truthiness. *)
Definition truthy (v : pyval) : bool :=
  match v with
  | PyNone => false
  | PyBool b => b
  | PyInt z => negb (z =? 0)%Z
  | PyFloat (S754_zero _) => false
  | PyFloat _ => true
  | PyStr s => negb (String.eqb s "")
  | PyList l => match l with [] => false | _ => true end
  | PyDict d => match d with [] => false | _ => true end
  end.

Fixpoint dict_lookup (k : string) (d : list (string * pyval)) : option pyval :=
  match d with
  | [] => None
  | (k', v) :: d' => if String.eqb k k' then Some v else dict_lookup k d'
  end.

(** [v.get(k, default)]: only a dict has the method. *)
Definition py_get (v : pyval) (k : string) (default : pyval) : result pyval :=
  match v with
  | PyDict d => Ok (match dict_lookup k d with Some x => x | None => default end)
  | _ => Raise AttributeError
  end.

(** [v[k]] with a string key. *)
Definition py_subscript (v : pyval) (k : string) : result pyval :=
  match v with
  | PyDict d => match dict_lookup k d with Some x => Ok x | None => Raise KeyError end
  | _ => Raise TypeError
  end.

Fixpoint chars (s : string) : list pyval :=
  match s with
  | EmptyString => []
  | String c s' => PyStr (String c EmptyString) :: chars s'
  end.

(** [iter(v)] run to the end: a list gives its elements, a dict its keys, a
    string its characters; nothing else is iterable. *)
Definition py_iter (v : pyval) : result (list pyval) :=
  match v with
  | PyList l => Ok l
  | PyDict d => Ok (map (fun kv => PyStr (fst kv)) d)
  | PyStr s => Ok (chars s)
  | _ => Raise TypeError
  end.

(** [v == "T"]-style comparison with a string literal. *)
Definition py_eq_str (v : pyval) (s : string) : bool :=
  match v with
  | PyStr s' => String.eqb s' s
  | _ => false
  end.

Definition float_zero : spec_float := S754_zero false.

(** The float nearest to an integer (binary64, ties to even). *)
Definition float_of_Z (z : Z) : spec_float := binary_normalize 53 1024 z 0 false.

(** ** Coercions, over Python's own string conversions *)

Section Pipeline.

(** [int(s)] and [float(s)] on a string are CPython's parsers, and
    [str(v)] its printer: they are parameters, [None] standing for
    [ValueError]. *)
Variable int_of_str : string -> option Z.
Variable float_of_str : string -> option spec_float.
Variable str_of : pyval -> string.

(** [int(v)] *)
Definition py_int (v : pyval) : result Z :=
  match v with
  | PyInt z => Ok z
  | PyBool b => Ok (if b then 1 else 0)%Z
  | PyFloat (S754_zero _) => Ok 0%Z
  | PyFloat (S754_infinity _) => Raise OverflowError
  | PyFloat S754_nan => Raise ValueError
  | PyFloat (S754_finite s m e) => Ok (cond_Zopp s (Z.shiftl (Zpos m) e))
  | PyStr s => match int_of_str s with Some z => Ok z | None => Raise ValueError end
  | PyNone | PyList _ | PyDict _ => Raise TypeError
  end.

(** [float(v)] *)
Definition py_float (v : pyval) : result spec_float :=
  match v with
  | PyFloat f => Ok f
  | PyInt z =>
      match float_of_Z z with
      | S754_infinity _ => Raise OverflowError
      | f => Ok f
      end
  | PyBool b => Ok (if b then float_of_Z 1 else float_zero)
  | PyStr s => match float_of_str s with Some f => Ok f | None => Raise ValueError end
  | PyNone | PyList _ | PyDict _ => Raise TypeError
  end.

(** [int(game_id)] on the identifier string. *)
Definition int_of_id (game_id : string) : result Z :=
  match int_of_str game_id with Some z => Ok z | None => Raise ValueError end.

(** ** Records *)

Record score_record : Type := {
  sr_game_id : Z;
  sr_home_team_id : Z;
  sr_home_team : pyval;
  sr_away_team_id : Z;
  sr_away_team : pyval;
  sr_home_score : Z;
  sr_away_score : Z;
  sr_score_differential : Z;
  sr_game_time : pyval
}.

Record location_record : Type := {
  lr_game_id : Z;
  lr_venue_id : Z;
  lr_venue_name : pyval;
  lr_venue_city : pyval;
  lr_venue_state : pyval;
  lr_venue_postal_code : pyval;
  lr_venue_country : pyval;
  lr_venue_latitude : spec_float;
  lr_venue_longitude : spec_float;
  lr_venue_elevation : spec_float
}.

(** ** The transformer half of [fetch_game_score] (lines 40-69) *)

Local Open Scope result_scope.

Definition empty_dict : pyval := PyDict [].
Definition Unknown : pyval := PyStr "Unknown".

(** [next((item.get("value", "Unknown") for item in items
           if item.get("label") == "T"), "Unknown")] *)
Fixpoint time_value_of (items : list pyval) : result pyval :=
  match items with
  | [] => Ok Unknown
  | item :: rest =>
      do label <- py_get item "label" PyNone;
      if py_eq_str label "T" then py_get item "value" Unknown
      else time_value_of rest
  end.

Definition score_data_of (game_id : string) (boxscore : pyval) : result score_record :=
  do h1 <- py_get boxscore "home" empty_dict;
  do h2 <- py_get h1 "teamStats" empty_dict;
  do h3 <- py_get h2 "batting" empty_dict;
  do home_score <- py_get h3 "runs" (PyInt 0);
  do a1 <- py_get boxscore "away" empty_dict;
  do a2 <- py_get a1 "teamStats" empty_dict;
  do a3 <- py_get a2 "batting" empty_dict;
  do away_score <- py_get a3 "runs" (PyInt 0);
  do t1 <- py_get boxscore "teamInfo" empty_dict;
  do t2 <- py_get t1 "home" empty_dict;
  do home_team <- py_get t2 "teamName" Unknown;
  do t3 <- py_get boxscore "teamInfo" empty_dict;
  do t4 <- py_get t3 "away" empty_dict;
  do away_team <- py_get t4 "teamName" Unknown;
  do t5 <- py_get boxscore "teamInfo" empty_dict;
  do t6 <- py_get t5 "home" empty_dict;
  do home_team_id <- py_get t6 "id" (PyInt 0);
  do t7 <- py_get boxscore "teamInfo" empty_dict;
  do t8 <- py_get t7 "away" empty_dict;
  do away_team_id <- py_get t8 "id" (PyInt 0);
  do info <- py_get boxscore "gameBoxInfo" (PyList []);
  do items <- py_iter info;
  do time_value <- time_value_of items;
  do gid <- int_of_id game_id;
  do hid <- py_int home_team_id;
  do aid <- py_int away_team_id;
  do hs <- py_int home_score;
  do as_ <- py_int away_score;
  do hs' <- py_int home_score;
  do as' <- py_int away_score;
  Ok {| sr_game_id := gid;
        sr_home_team_id := hid;
        sr_home_team := home_team;
        sr_away_team_id := aid;
        sr_away_team := away_team;
        sr_home_score := hs;
        sr_away_score := as_;
        sr_score_differential := Z.abs (hs' - as');
        sr_game_time := time_value |}.

(** ** The transformer half of [fetch_game_location] (lines 81-100) *)

Definition location_data_of (game_id : string) (game : pyval) : result location_record :=
  do game_data <- py_get game "gameData" empty_dict;
  do venue <- py_get game_data "venue" empty_dict;
  do location <- py_get venue "location" empty_dict;
  do default_coordinates <- py_get location "defaultCoordinates" empty_dict;
  do gid <- int_of_id game_id;
  do id_test <- py_get venue "id" PyNone;
  do venue_id <- (if truthy id_test
               then (do v <- py_get venue "id" (PyInt 0); py_int v)
               else Ok 0%Z);
  do venue_name <- py_get venue "name" Unknown;
  do venue_city <- py_get location "city" Unknown;
  do venue_state <- py_get location "state" Unknown;
  do venue_postal_code <- py_get location "postalCode" Unknown;
  do venue_country <- py_get location "country" Unknown;
  do lat <- py_get default_coordinates "latitude" (PyFloat float_zero);
  do venue_latitude <- py_float lat;
  do lon <- py_get default_coordinates "longitude" (PyFloat float_zero);
  do venue_longitude <- py_float lon;
  do elev <- py_get location "elevation" (PyFloat float_zero);
  do venue_elevation <- py_float elev;
  Ok {| lr_game_id := gid;
        lr_venue_id := venue_id;
        lr_venue_name := venue_name;
        lr_venue_city := venue_city;
        lr_venue_state := venue_state;
        lr_venue_postal_code := venue_postal_code;
        lr_venue_country := venue_country;
        lr_venue_latitude := venue_latitude;
        lr_venue_longitude := venue_longitude;
        lr_venue_elevation := venue_elevation |}.

Local Close Scope result_scope.

(** ** The world: what the external collaborators see and keep *)

Inductive statement : Type :=
| CreateGameScores
| CreateGameLocations
| CreateElevationData
| InsertGameScores
| InsertGameLocations
| InsertElevationData
| SelectDistinctLocations.

Inductive event : Type :=
| EvSchedule (team_id : Z) (start_date end_date : string)
| EvBoxscore (game_id : string)
| EvGame (game_id : string)
| EvElevation (latitude longitude : pyval)
| EvSleep (seconds : Z)
| EvPrint (msg : string)
| EvLogInfo (msg : string)
| EvLogError (msg : string) (e : exn)
| EvLoad (block_name : string)
| EvSql (s : statement) (rows : nat)
| EvEmit (event_name : string).

(** A row of [SELECT DISTINCT venue_city, venue_latitude, venue_longitude]. *)
Definition city_row : Type := pyval * pyval * pyval.

(** One parameter dict of the [elevation_data] insert. *)
Record elevation_row : Type := {
  er_city : pyval;
  er_lat : pyval;
  er_lon : pyval;
  er_elevation : pyval
}.

(** The calls made so far, in order, and the three tables ([None]: the
    table does not exist yet). *)
Record world : Type := {
  trace : list event;
  GAME_SCORES : option (list score_record);
  GAME_LOCATIONS : option (list location_record);
  elevation_data : option (list elevation_row)
}.

(** What the collaborators answer.  The statsapi calls are indexed by the
    number of earlier calls for the same game, so that an answer may
    change from one attempt to the next. *)
Record env : Type := {
  statsapi_schedule : Z -> string -> string -> result (list pyval);
  statsapi_boxscore_data : string -> nat -> result pyval;
  statsapi_get_game : string -> nat -> result pyval;
  connector_load : string -> result unit;
  sql_fault : statement -> option exn;
  fetch_many_locations : result (list city_row);
  requests_get : pyval -> pyval -> result (result pyval);
  emit_lineage_event : string -> result unit
}.

Variable E : env.

Definition M (A : Type) : Type := world -> result A * world.

Definition ret {A} (a : A) : M A := fun w => (Ok a, w).
Definition raise {A} (e : exn) : M A := fun w => (Raise e, w).
Definition lift {A} (r : result A) : M A := fun w => (r, w).
Definition bind {A B} (m : M A) (k : A -> M B) : M B :=
  fun w => match m w with
           | (Ok a, w') => k a w'
           | (Raise e, w') => (Raise e, w')
           end.

(** [try: m except Exception as e: h e] *)
Definition try_except {A} (m : M A) (h : exn -> M A) : M A :=
  fun w => match m w with
           | (Ok a, w') => (Ok a, w')
           | (Raise e, w') => h e w'
           end.

Declare Scope world_scope.
Delimit Scope world_scope with M.
Notation "'do' x <- m ; k" := (bind m (fun x => k))
  (at level 10, x name, m at level 100, k at level 200) : world_scope.
Notation "m ;; k" := (bind m (fun _ => k))
  (at level 100, k at level 200, right associativity) : world_scope.
Local Open Scope world_scope.

Definition record_event (e : event) (w : world) : world :=
  {| trace := trace w ++ [e];
     GAME_SCORES := GAME_SCORES w;
     GAME_LOCATIONS := GAME_LOCATIONS w;
     elevation_data := elevation_data w |}.

Definition tell (e : event) : M unit := fun w => (Ok tt, record_event e w).

Definition print (msg : string) : M unit := tell (EvPrint msg).
Definition logger_info (msg : string) : M unit := tell (EvLogInfo msg).
Definition logger_error (msg : string) (e : exn) : M unit := tell (EvLogError msg e).

Definition is_boxscore_call (game_id : string) (e : event) : bool :=
  match e with EvBoxscore g => String.eqb g game_id | _ => false end.
Definition is_game_call (game_id : string) (e : event) : bool :=
  match e with EvGame g => String.eqb g game_id | _ => false end.

(** How many times the boxscore (resp. game) endpoint was called for an id. *)
Definition score_attempts (game_id : string) (w : world) : nat :=
  length (filter (fun e => is_boxscore_call game_id e = true) (trace w)).
Definition location_attempts (game_id : string) (w : world) : nat :=
  length (filter (fun e => is_game_call game_id e = true) (trace w)).

(** [statsapi.boxscore_data(game_id)] *)
Definition boxscore_data (game_id : string) : M pyval :=
  fun w => (statsapi_boxscore_data E game_id (score_attempts game_id w),
            record_event (EvBoxscore game_id) w).

(** [statsapi.get("game", params={"gamePk": game_id})] *)
Definition get_game (game_id : string) : M pyval :=
  fun w => (statsapi_get_game E game_id (location_attempts game_id w),
            record_event (EvGame game_id) w).

(** [statsapi.schedule(team=team_id, start_date=..., end_date=...)] *)
Definition schedule (team_id : Z) (start_date end_date : string) : M (list pyval) :=
  tell (EvSchedule team_id start_date end_date) ;;
  lift (statsapi_schedule E team_id start_date end_date).

(** ** The task engine's retry loop

    A task decorated with [retries=n] is run once and, each time its body
    raises, run again until [n] retries are spent; then the exception
    reaches the caller.  Before the i-th retry the engine sleeps the i-th
    configured delay.  A body that returns is never run again. *)

(** [exponential_backoff(backoff_factor)] as the engine calls it with the
    number of retries. *)
Definition exponential_backoff (backoff_factor : Z) (retries : nat) : list Z :=
  map (fun r => backoff_factor * Z.max 0 (2 ^ Z.of_nat r))%Z
      (seq 0 (Nat.min retries 50)).

Fixpoint task_engine {A} (body : M A) (delays : list Z) (retries_left : nat) : M A :=
  fun w =>
    match body w with
    | (Ok a, w') => (Ok a, w')
    | (Raise e, w') =>
        match retries_left with
        | O => (Raise e, w')
        | S n => task_engine body (tl delays) n
                   (record_event (EvSleep (hd 0%Z delays)) w')
        end
    end.

Definition task {A} (retries : nat) (retry_delay_seconds : nat -> list Z)
    (body : M A) : M A :=
  task_engine body (retry_delay_seconds retries) retries.

(** A bare [@task]: no retries. *)
Definition task0 {A} (body : M A) : M A := task 0 (fun _ => []) body.

(** ** get_mlb_data.py *)

(** [[str(game["game_id"]) for game in schedule]] *)
Fixpoint game_ids_of (games : list pyval) : result (list string) :=
  match games with
  | [] => Ok []
  | game :: rest =>
      rbind (py_subscript game "game_id") (fun g =>
      rbind (game_ids_of rest) (fun gs => Ok (str_of g :: gs)))
  end.

Fixpoint get_recent_games_loop (team_ids : list Z) (start_date end_date : string)
    (all_game_ids : list string) : M (list string) :=
  match team_ids with
  | [] => ret all_game_ids
  | team_id :: rest =>
      do sched <- schedule team_id start_date end_date;
      do game_ids <- lift (game_ids_of sched);
      print ("Retrieved " +:+ pretty (length game_ids) +:+ " games for team ID "
             +:+ pretty team_id +:+ ".") ;;
      get_recent_games_loop rest start_date end_date (all_game_ids ++ game_ids)
  end.

(** [list(set(all_game_ids))]: the elements of the set, in the order the
    set enumerates them (Python leaves that order unspecified). *)
Definition list_set (l : list string) : list string :=
  elements (list_to_set l : gset string).

Definition get_recent_games (team_ids : list Z) (start_date end_date : string)
    : M (list string) :=
  task0 (do all_game_ids <- get_recent_games_loop team_ids start_date end_date [];
         ret (list_set all_game_ids)).

(** The returned dict: [None] is the empty dict [{}]. *)
Definition fetch_game_score_body (game_id : string) : M (option score_record) :=
  do boxscore <- boxscore_data game_id;
  if negb (truthy boxscore) then
    print ("No boxscore data found for game ID " +:+ game_id +:+ ".") ;;
    ret None
  else
    do score_data <- lift (score_data_of game_id boxscore);
    ret (Some score_data).

Definition fetch_game_score (game_id : string) : M (option score_record) :=
  task 5 (exponential_backoff 10) (fetch_game_score_body game_id).

Definition fetch_game_location_body (game_id : string) : M (option location_record) :=
  do game <- get_game game_id;
  if negb (truthy game) then
    print ("No location data found for game ID " +:+ game_id +:+ ".") ;;
    ret None
  else
    do location_data <- lift (location_data_of game_id game);
    ret (Some location_data).

Definition fetch_game_location (game_id : string) : M (option location_record) :=
  task 5 (exponential_backoff 10) (fetch_game_location_body game_id).

(** The loop of both orchestrators: fetch, and append what is not empty. *)
Fixpoint fetch_each {R} (fetch : string -> M (option R)) (what : string)
    (game_ids : list string) (acc : list R) : M (list R) :=
  match game_ids with
  | [] => ret acc
  | game_id :: rest =>
      do data <- fetch game_id;
      match data with
      | Some r =>
          print ("Processed " +:+ what +:+ " for game ID " +:+ game_id +:+ ".") ;;
          fetch_each fetch what rest (acc ++ [r])
      | None => fetch_each fetch what rest acc
      end
  end.

Definition get_game_scores (game_ids : list string) : M (list score_record) :=
  fetch_each fetch_game_score "scores" game_ids [].

Definition get_game_locations_flow (game_ids : list string) : M (list location_record) :=
  fetch_each fetch_game_location "location data" game_ids [].

(** ** The Snowflake connector *)

Definition set_tables (s : option (list score_record))
    (l : option (list location_record)) (d : option (list elevation_row))
    (w : world) : world :=
  {| trace := trace w; GAME_SCORES := s; GAME_LOCATIONS := l; elevation_data := d |}.

Definition or_empty {A} (t : option (list A)) : option (list A) :=
  match t with None => Some [] | Some _ => t end.

(** [CREATE TABLE IF NOT EXISTS]: an existing table is left as it is. *)
Definition create_table (s : statement) (w : world) : world :=
  match s with
  | CreateGameScores =>
      set_tables (or_empty (GAME_SCORES w)) (GAME_LOCATIONS w) (elevation_data w) w
  | CreateGameLocations =>
      set_tables (GAME_SCORES w) (or_empty (GAME_LOCATIONS w)) (elevation_data w) w
  | CreateElevationData =>
      set_tables (GAME_SCORES w) (GAME_LOCATIONS w) (or_empty (elevation_data w)) w
  | _ => w
  end.

Definition no_such_table : exn := ExternalError "table does not exist".

(** [SnowflakeConnector.load(block_name)] *)
Definition load (block_name : string) : M unit :=
  tell (EvLoad block_name) ;; lift (connector_load E block_name).

(** The statement reaches the warehouse, which may refuse it. *)
Definition submit (s : statement) (rows : nat) : M unit :=
  tell (EvSql s rows) ;;
  match sql_fault E s with Some e => raise e | None => ret tt end.

(** [connector.execute("CREATE TABLE IF NOT EXISTS ...")] *)
Definition execute (s : statement) : M unit :=
  submit s 0 ;; (fun w => (Ok tt, create_table s w)).

(** [connector.execute_many("INSERT INTO ...", rows)]: all rows or none. *)
Definition execute_many_scores (rows : list score_record) : M unit :=
  submit InsertGameScores (length rows) ;;
  fun w => match GAME_SCORES w with
           | None => (Raise no_such_table, w)
           | Some t => (Ok tt, set_tables (Some (t ++ rows)) (GAME_LOCATIONS w)
                                 (elevation_data w) w)
           end.

Definition execute_many_locations (rows : list location_record) : M unit :=
  submit InsertGameLocations (length rows) ;;
  fun w => match GAME_LOCATIONS w with
           | None => (Raise no_such_table, w)
           | Some t => (Ok tt, set_tables (GAME_SCORES w) (Some (t ++ rows))
                                 (elevation_data w) w)
           end.

Definition execute_many_elevation (rows : list elevation_row) : M unit :=
  submit InsertElevationData (length rows) ;;
  fun w => match elevation_data w with
           | None => (Raise no_such_table, w)
           | Some t => (Ok tt, set_tables (GAME_SCORES w) (GAME_LOCATIONS w)
                                 (Some (t ++ rows)) w)
           end.

(** [connector.fetch_many("SELECT DISTINCT ...", size=100)] *)
Definition fetch_many : M (list city_row) :=
  submit SelectDistinctLocations 0 ;; lift (fetch_many_locations E).

(** [await emit_lineage_event(event_name=...)]: awaited as it is, with no
    handler around it. *)
Definition emit (event_name : string) : M unit :=
  tell (EvEmit event_name) ;; lift (emit_lineage_event E event_name).

(** ** snowflake_helper.py *)

Definition setup_tables (block_name : string) : M unit :=
  task0 (try_except
    (load block_name ;;
     execute CreateGameScores ;;
     logger_info "Created table: GAME_SCORES" ;;
     execute CreateGameLocations ;;
     logger_info "Created table: GAME_LOCATIONS")
    (fun e => logger_error "Error setting up tables: " e ;; raise e)).

Definition insert_game_scores (game_scores : list score_record) (block_name : string)
    : M unit :=
  task0 (
    match game_scores with
    | [] => logger_info "No game scores to insert."
    | _ =>
        try_except
          (load block_name ;;
           execute_many_scores game_scores ;;
           logger_info ("Inserted " +:+ pretty (length game_scores)
                        +:+ " game scores into Snowflake."))
          (fun e => logger_error "Failed to insert game scores: " e ;; raise e)
    end).

Definition insert_game_locations (game_locations : list location_record)
    (block_name : string) : M unit :=
  task0 (
    match game_locations with
    | [] => logger_info "No game locations to insert."
    | _ =>
        try_except
          (load block_name ;;
           execute_many_locations game_locations ;;
           logger_info ("Inserted " +:+ pretty (length game_locations)
                        +:+ " game locations into Snowflake."))
          (fun e => logger_error "Failed to insert game locations: " e ;; raise e)
    end).

Definition mlb_simple_flow (team_ids : list Z) (start_date end_date : string)
    (snowflake_block : string) : M unit :=
  setup_tables snowflake_block ;;
  do game_ids <- get_recent_games team_ids start_date end_date;
  do scores <- get_game_scores game_ids;
  do locations <- get_game_locations_flow game_ids;
  insert_game_scores scores snowflake_block ;;
  insert_game_locations locations snowflake_block ;;
  print "MLB Simple Flow Completed Successfully.".

(** ** get_elevation_data.py *)

Definition get_city_data : M (list city_row) :=
  task0 (
    load "dev-day-connector" ;;
    do locations <- fetch_many;
    emit "Get Game Locations to Snowflake" ;;
    ret locations).

(** [requests.get(url)]; the answer holds what [response.json()] will
    give, or raise. *)
Definition http_get_elevation (latitude longitude : pyval) : M (result pyval) :=
  tell (EvElevation latitude longitude) ;; lift (requests_get E latitude longitude).

Definition get_elevation (latitude longitude : pyval) : M pyval :=
  task0 (
    do response <- http_get_elevation latitude longitude;
    emit "get_elevation_data" ;;
    do body <- lift response;
    lift (py_subscript body "elevation")).

(** The parameter dicts built from [zip(locations, elevation)]. *)
Definition seq_of_parameters (locations : list city_row) (elevation : list pyval)
    : list elevation_row :=
  map (fun le : city_row * pyval =>
         let (location, elev) := le in
         {| er_city := fst (fst location);
            er_lat := snd (fst location);
            er_lon := snd location;
            er_elevation := elev |})
      (zip locations elevation).

Definition setup_table (block_name : string) (locations : list city_row)
    (elevation : list pyval) : M unit :=
  task0 (
    load block_name ;;
    execute CreateElevationData ;;
    execute_many_elevation (seq_of_parameters locations elevation) ;;
    emit "Upload Elevation Data to Snowflake").

Fixpoint main_elevation_loop (locations : list city_row) (elevations : list pyval)
    : M (list pyval) :=
  match locations with
  | [] => ret elevations
  | (_, lat, long) :: rest =>
      do elevation <- get_elevation lat long;
      print (str_of elevation) ;;
      main_elevation_loop rest (elevations ++ [elevation])
  end.

Definition main_elevation : M unit :=
  do locations <- get_city_data;
  do elevations <- main_elevation_loop locations [];
  setup_table "dev-day-connector" locations elevations.

(** ** Reading a payload by path

    What the chained [.get(k, {})] calls of the transformers compute,
    said once: a field is missing when some key on its path is absent,
    found when every key is there, and unreadable when a value on the
    way is not a dict. *)

Inductive field : Type :=
| Missing
| Found (v : pyval)
| NotADict.

Fixpoint field_at (path : list string) (v : pyval) : field :=
  match path with
  | [] => Found v
  | k :: rest =>
      match v with
      | PyDict d =>
          match dict_lookup k d with
          | Some x => field_at rest x
          | None => Missing
          end
      | _ => NotADict
      end
  end.

(** [v.get(k1, {}).get(k2, {})....get(kn, default)] *)
Fixpoint get_path (v : pyval) (path : list string) (default : pyval) : result pyval :=
  match path with
  | [] => Ok v
  | [k] => py_get v k default
  | k :: rest => rbind (py_get v k empty_dict) (fun x => get_path x rest default)
  end.

Definition is_dict (v : pyval) : bool :=
  match v with PyDict _ => true | _ => false end.

Definition readable (path : list string) (p : pyval) : bool :=
  match field_at path p with NotADict => false | _ => true end.

(** A present value is one that [int()] (resp. [float()]) accepts. *)
Definition int_readable (path : list string) (p : pyval) : bool :=
  match field_at path p with
  | Missing => true
  | Found v => is_Ok (py_int v)
  | NotADict => false
  end.

Definition float_readable (path : list string) (p : pyval) : bool :=
  match field_at path p with
  | Missing => true
  | Found v => is_Ok (py_float v)
  | NotADict => false
  end.

(** The items the lazy [next(...)] looks at are dicts: every item up to and
    including the first one labelled ["T"]. *)
Fixpoint time_items_ok (items : list pyval) : bool :=
  match items with
  | [] => true
  | PyDict d :: rest =>
      if py_eq_str (match dict_lookup "label" d with Some v => v | None => PyNone end) "T"
      then true
      else time_items_ok rest
  | _ :: _ => false
  end.

(** The shape [score_data_of] reads of what is present in a boxscore: a
    dict wherever it descends, a value [int()] accepts wherever it coerces,
    and for [gameBoxInfo] an iterable whose items are dicts as far as the
    first one labelled ["T"]. *)
Definition boxscore_shape_ok (p : pyval) : bool :=
  int_readable ["home"; "teamStats"; "batting"; "runs"] p
  && int_readable ["away"; "teamStats"; "batting"; "runs"] p
  && readable ["teamInfo"; "home"; "teamName"] p
  && readable ["teamInfo"; "away"; "teamName"] p
  && int_readable ["teamInfo"; "home"; "id"] p
  && int_readable ["teamInfo"; "away"; "id"] p
  && match field_at ["gameBoxInfo"] p with
     | Missing => true
     | Found info =>
         match py_iter info with
         | Ok items => time_items_ok items
         | Raise _ => false
         end
     | NotADict => false
     end.

(** The shape [location_data_of] reads of what is present in a game: a
    dict wherever it descends, a venue id that is falsy or that [int()]
    accepts, values [float()] accepts for the coordinates and elevation. *)
Definition game_shape_ok (p : pyval) : bool :=
  match field_at ["gameData"; "venue"; "id"] p with
  | Missing => true
  | Found v => negb (truthy v) || is_Ok (py_int v)
  | NotADict => false
  end
  && readable ["gameData"; "venue"; "name"] p
  && readable ["gameData"; "venue"; "location"; "city"] p
  && readable ["gameData"; "venue"; "location"; "state"] p
  && readable ["gameData"; "venue"; "location"; "postalCode"] p
  && readable ["gameData"; "venue"; "location"; "country"] p
  && float_readable ["gameData"; "venue"; "location"; "defaultCoordinates"; "latitude"] p
  && float_readable ["gameData"; "venue"; "location"; "defaultCoordinates"; "longitude"] p
  && float_readable ["gameData"; "venue"; "location"; "elevation"] p.

(** Rows of a table, none when it does not exist. *)
Definition table_rows {A} (t : option (list A)) : list A :=
  match t with Some rows => rows | None => [] end.

(** An environment with another lineage emitter. *)
Definition with_emitter (f : string -> result unit) (E0 : env) : env :=
  {| statsapi_schedule := statsapi_schedule E0;
     statsapi_boxscore_data := statsapi_boxscore_data E0;
     statsapi_get_game := statsapi_get_game E0;
     connector_load := connector_load E0;
     sql_fault := sql_fault E0;
     fetch_many_locations := fetch_many_locations E0;
     requests_get := requests_get E0;
     emit_lineage_event := f |}.

(** ** Sample inputs *)

(** Plain ASCII decimal literals, on which CPython's [int()] agrees; the
    samples below reject every other string. *)
Definition digit_value (c : ascii) : option Z :=
  let n := Z.of_N (Ascii.N_of_ascii c) in
  if ((48 <=? n) && (n <=? 57))%Z then Some (n - 48)%Z else None.

Fixpoint digits_value (s : string) (acc : Z) : option Z :=
  match s with
  | EmptyString => Some acc
  | String c s' =>
      match digit_value c with
      | Some d => digits_value s' (10 * acc + d)%Z
      | None => None
      end
  end.

Definition decimal_of_str (s : string) : option Z :=
  match s with
  | EmptyString => None
  | String "-"%char (String c s') => option_map Z.opp (digits_value (String c s') 0)
  | _ => digits_value s 0
  end.

Definition decimal_float_of_str (s : string) : option spec_float :=
  option_map float_of_Z (decimal_of_str s).

Definition sample_str (v : pyval) : string :=
  match v with
  | PyInt z => pretty z
  | PyStr s => s
  | PyNone => "None"
  | PyBool true => "True"
  | PyBool false => "False"
  | _ => "<value>"
  end.

Definition world0 : world :=
  {| trace := []; GAME_SCORES := None; GAME_LOCATIONS := None; elevation_data := None |}.

Definition timeout : exn := ExternalError "timeout".

Definition runs (n : Z) : pyval :=
  PyDict [("teamStats", PyDict [("batting", PyDict [("runs", PyInt n)])])].

Definition boxscore_of (home away : Z) : pyval :=
  PyDict [("home", runs home); ("away", runs away)].

Definition game_at (city : string) : pyval :=
  PyDict [("gameData",
           PyDict [("venue",
                    PyDict [("location", PyDict [("city", PyStr city)])])])].

(** The float [m * 2^e], as a literal of the samples. *)
Definition float_lit (m e : Z) : spec_float := binary_normalize 53 1024 m e false.

Definition game_listing (game_id : Z) : pyval := PyDict [("game_id", PyInt game_id)].

(** Team 133 played games 1 and 2, team 134 games 2 and 3. *)
Definition sample_schedule (team_id : Z) (start_date end_date : string)
    : result (list pyval) :=
  if (team_id =? 133)%Z then Ok [game_listing 1; game_listing 2]
  else if (team_id =? 134)%Z then Ok [game_listing 2; game_listing 3]
  else Ok [].

(** [("NYC", 40.7, -74.0)] and [("LA", 34.0, -118.2)] *)
Definition sample_cities : list city_row :=
  [(PyStr "NYC", PyFloat (float_lit 2864007888030925 (-46)), PyFloat (float_lit (-74) 0));
   (PyStr "LA", PyFloat (float_lit 34 0), PyFloat (float_lit (-8317585561799885) (-46)))].

(** [[10.0, 89.0]] *)
Definition sample_elevations : list pyval :=
  [PyFloat (float_lit 10 0); PyFloat (float_lit 89 0)].

(** The elevation API: 10.0 at latitude 40.7, 89.0 elsewhere. *)
Definition sample_elevation_api (latitude longitude : pyval) : result (result pyval) :=
  match latitude with
  | PyFloat f =>
      if SFeqb f (float_lit 2864007888030925 (-46))
      then Ok (Ok (PyDict [("elevation", PyFloat (float_lit 10 0))]))
      else Ok (Ok (PyDict [("elevation", PyFloat (float_lit 89 0))]))
  | _ => Raise (ExternalError "bad request")
  end.

(** A run in which only the given answers vary. *)
Definition sample_env (boxscore game : string -> nat -> result pyval)
    (emitter : string -> result unit) : env :=
  {| statsapi_schedule := sample_schedule;
     statsapi_boxscore_data := boxscore;
     statsapi_get_game := game;
     connector_load := fun _ => Ok tt;
     sql_fault := fun _ => None;
     fetch_many_locations := Ok sample_cities;
     requests_get := sample_elevation_api;
     emit_lineage_event := emitter |}.

Definition always (r : result pyval) : string -> nat -> result pyval := fun _ _ => r.

(** The endpoint is down for the first [k] calls of each game. *)
Definition down_for (k : nat) (p : pyval) : string -> nat -> result pyval :=
  fun _ n => if Nat.ltb n k then Raise timeout else Ok p.

(** The endpoint is down for one game only. *)
Definition down_for_game (bad : string) (p : pyval) : string -> nat -> result pyval :=
  fun g _ => if String.eqb g bad then Raise timeout else Ok p.

(** The endpoint has nothing for one game only. *)
Definition empty_for_game (g0 : string) (p : pyval) : string -> nat -> result pyval :=
  fun g _ => if String.eqb g g0 then Ok (PyDict []) else Ok p.

Definition emitter_ok : string -> result unit := fun _ => Ok tt.
Definition emitter_down : string -> result unit :=
  fun _ => Raise (ExternalError "lineage").

Definition env_up : env :=
  sample_env (always (Ok (boxscore_of 5 3))) (always (Ok (game_at "Boston"))) emitter_ok.
Definition env_down : env :=
  sample_env (always (Raise timeout)) (always (Raise timeout)) emitter_ok.
Definition env_flaky : env :=
  sample_env (down_for 2 (boxscore_of 5 3)) (down_for 2 (game_at "Boston")) emitter_ok.
Definition env_five_failures : env :=
  sample_env (down_for 5 (boxscore_of 5 3)) (down_for 5 (game_at "Boston")) emitter_ok.
Definition env_one_down : env :=
  sample_env (down_for_game "2" (boxscore_of 5 3)) (down_for_game "2" (game_at "Boston"))
    emitter_ok.
Definition env_one_empty : env :=
  sample_env (empty_for_game "2" (boxscore_of 5 3))
    (empty_for_game "2" (game_at "Boston")) emitter_ok.
Definition env_lineage_down : env :=
  sample_env (always (Ok (boxscore_of 5 3))) (always (Ok (game_at "Boston")))
    emitter_down.

(** The record of a game that ended 5 to 3, nothing else being known. *)
Definition score_5_3 (game_id : Z) : score_record :=
  {| sr_game_id := game_id;
     sr_home_team_id := 0;
     sr_home_team := PyStr "Unknown";
     sr_away_team_id := 0;
     sr_away_team := PyStr "Unknown";
     sr_home_score := 5;
     sr_away_score := 3;
     sr_score_differential := 2;
     sr_game_time := PyStr "Unknown" |}.

Definition in_boston (game_id : Z) : location_record :=
  {| lr_game_id := game_id;
     lr_venue_id := 0;
     lr_venue_name := PyStr "Unknown";
     lr_venue_city := PyStr "Boston";
     lr_venue_state := PyStr "Unknown";
     lr_venue_postal_code := PyStr "Unknown";
     lr_venue_country := PyStr "Unknown";
     lr_venue_latitude := S754_zero false;
     lr_venue_longitude := S754_zero false;
     lr_venue_elevation := S754_zero false |}.

(** An environment with another connector, schedule or elevation API. *)
Definition with_connector (loader : string -> result unit)
    (fault : statement -> option exn) (E0 : env) : env :=
  {| statsapi_schedule := statsapi_schedule E0;
     statsapi_boxscore_data := statsapi_boxscore_data E0;
     statsapi_get_game := statsapi_get_game E0;
     connector_load := loader;
     sql_fault := fault;
     fetch_many_locations := fetch_many_locations E0;
     requests_get := requests_get E0;
     emit_lineage_event := emit_lineage_event E0 |}.

Definition with_schedule (f : Z -> string -> string -> result (list pyval))
    (E0 : env) : env :=
  {| statsapi_schedule := f;
     statsapi_boxscore_data := statsapi_boxscore_data E0;
     statsapi_get_game := statsapi_get_game E0;
     connector_load := connector_load E0;
     sql_fault := sql_fault E0;
     fetch_many_locations := fetch_many_locations E0;
     requests_get := requests_get E0;
     emit_lineage_event := emit_lineage_event E0 |}.

Definition with_requests (f : pyval -> pyval -> result (result pyval)) (E0 : env) : env :=
  {| statsapi_schedule := statsapi_schedule E0;
     statsapi_boxscore_data := statsapi_boxscore_data E0;
     statsapi_get_game := statsapi_get_game E0;
     connector_load := connector_load E0;
     sql_fault := sql_fault E0;
     fetch_many_locations := fetch_many_locations E0;
     requests_get := f;
     emit_lineage_event := emit_lineage_event E0 |}.

Definition refused : exn := ExternalError "statement refused".
Definition no_block : exn := ExternalError "block not found".

Definition is_statement (a b : statement) : bool :=
  match a, b with
  | CreateGameScores, CreateGameScores
  | CreateGameLocations, CreateGameLocations
  | CreateElevationData, CreateElevationData
  | InsertGameScores, InsertGameScores
  | InsertGameLocations, InsertGameLocations
  | InsertElevationData, InsertElevationData
  | SelectDistinctLocations, SelectDistinctLocations => true
  | _, _ => false
  end.

(** The warehouse refuses one statement and accepts the others. *)
Definition refusing (st : statement) : statement -> option exn :=
  fun s => if is_statement s st then Some refused else None.

Definition env_no_connector : env :=
  with_connector (fun _ => Raise no_block) (fun _ => None) env_up.
Definition env_refusing (st : statement) : env :=
  with_connector (fun _ => Ok tt) (refusing st) env_up.

(** Payloads the transformers reject: a null where a dict is read. *)
Definition env_malformed : env :=
  sample_env (always (Ok (PyDict [("home", PyNone)])))
    (always (Ok (PyDict [("gameData", PyNone)]))) emitter_ok.

(** The schedule call for team 134 times out. *)
Definition env_schedule_down : env :=
  with_schedule (fun t s e => if (t =? 134)%Z then Raise timeout else sample_schedule t s e)
    env_up.

(** The listing of team 134 holds a game with no id. *)
Definition env_listing_without_id : env :=
  with_schedule (fun t s e => if (t =? 134)%Z then Ok [game_listing 2; PyDict []]
                              else sample_schedule t s e)
    env_up.

(** The elevation API answers for latitude 40.7 only. *)
Definition env_elevation_down : env :=
  with_requests
    (fun lat lon =>
       match lat with
       | PyFloat f =>
           if SFeqb f (float_lit 2864007888030925 (-46))
           then Ok (Ok (PyDict [("elevation", PyFloat (float_lit 10 0))]))
           else Raise timeout
       | _ => Raise timeout
       end)
    env_up.

(** Both MLB tables exist; one score is already there. *)
Definition world_with_tables : world :=
  {| trace := [];
     GAME_SCORES := Some [score_5_3 9];
     GAME_LOCATIONS := Some [];
     elevation_data := None |}.

(** A box score whose time is the second of three items; the third is not
    even a dict. *)
Definition boxscore_with_time : pyval :=
  PyDict [("home", runs 5); ("away", runs 3);
          ("gameBoxInfo",
           PyList [PyDict [("label", PyStr "Att"); ("value", PyStr "30,000")];
                   PyDict [("label", PyStr "T"); ("value", PyStr "3:05")];
                   PyInt 7])].

(** A venue whose id is null and whose latitude is a whole number. *)
Definition game_with_null_id : pyval :=
  PyDict [("gameData",
           PyDict [("venue",
                    PyDict [("id", PyNone);
                            ("name", PyStr "Fenway Park");
                            ("location",
                             PyDict [("defaultCoordinates",
                                      PyDict [("latitude", PyInt 42)])])])])].

(** ** Notions used by the statements *)

(** The body raises when it is run as attempt number [i] (from 0), and
    that run counts as one attempt. *)
Definition raises_at {A} (body : M A) (cnt : world -> nat) (i : nat) (e : exn) : Prop :=
  forall w, cnt w = i -> exists w', body w = (Raise e, w') /\ cnt w' = S i.

Definition returns_at {A} (body : M A) (cnt : world -> nat) (i : nat) (a : A) : Prop :=
  forall w, cnt w = i -> exists w', body w = (Ok a, w') /\ cnt w' = S i.

(** A fetch of [g] that returns, and counts as one call for [g] only. *)
Definition fetched_once {R} (fetch : string -> M (option R))
    (cnt : string -> world -> nat) (g : string) : Prop :=
  forall w, exists x w',
    fetch g w = (Ok x, w')
    /\ forall g', cnt g' w' = cnt g' w + (if string_dec g g' then 1 else 0).

(** The endpoint answers every call for [g] with a payload that is empty or
    that the transformer accepts. *)
Definition boxscore_answers (g : string) : Prop :=
  forall n, exists p,
    statsapi_boxscore_data E g n = Ok p
    /\ (truthy p = false \/ exists r, score_data_of g p = Ok r).

(** The three tables are what they were. *)
Definition same_tables (w w' : world) : Prop :=
  GAME_SCORES w' = GAME_SCORES w
  /\ GAME_LOCATIONS w' = GAME_LOCATIONS w
  /\ elevation_data w' = elevation_data w.

(** A computation that writes to no table, however it ends. *)
Definition keeps_tables {A} (m : M A) : Prop :=
  forall w, same_tables w (snd (m w)).

(** A [gameBoxInfo] item that is a dict whose ["label"] is not ["T"]. *)
Definition other_label (item : pyval) : bool :=
  match item with
  | PyDict d =>
      match dict_lookup "label" d with
      | Some v => negb (py_eq_str v "T")
      | None => true
      end
  | _ => false
  end.

(** The same for the game endpoint and the location transformer. *)
Definition game_answers (g : string) : Prop :=
  forall n, exists p,
    statsapi_get_game E g n = Ok p
    /\ (truthy p = false \/ exists r, location_data_of g p = Ok r).

Definition row_of (location : city_row) (elev : pyval) : elevation_row :=
  {| er_city := fst (fst location);
     er_lat := snd (fst location);
     er_lon := snd location;
     er_elevation := elev |}.

(** The elevation looked up for a row: what the API answered for its
    latitude and longitude, read at ["elevation"]. *)
Definition elevation_of (location : city_row) (elev : pyval) : Prop :=
  exists body,
    requests_get E (snd (fst location)) (snd location) = Ok (Ok body)
    /\ py_subscript body "elevation" = Ok elev.

(** ** Monad and trace lemmas *)

Lemma task0_run {A} (body : M A) (w : world) : task0 body w = body w.
Proof.
  unfold task0, task. simpl. destruct (body w) as [[a | e] w']; reflexivity.
Qed.

Lemma rbind_Ok_inv {A B} (r : result A) (k : A -> result B) (b : B) :
  rbind r k = Ok b -> exists a, r = Ok a /\ k a = Ok b.
Proof.
  destruct r as [a | e]; simpl; intros H; [eauto | discriminate].
Qed.

Lemma bind_Ok {A B} (m : M A) (k : A -> M B) (w w' : world) (a : A) :
  m w = (Ok a, w') -> bind m k w = k a w'.
Proof. intros H. unfold bind. rewrite H. reflexivity. Qed.

Lemma bind_Raise {A B} (m : M A) (k : A -> M B) (w w' : world) (e : exn) :
  m w = (Raise e, w') -> bind m k w = (Raise e, w').
Proof. intros H. unfold bind. rewrite H. reflexivity. Qed.

Lemma bind_Ok_inv {A B} (m : M A) (k : A -> M B) (w w' : world) (b : B) :
  bind m k w = (Ok b, w') -> exists a w1, m w = (Ok a, w1) /\ k a w1 = (Ok b, w').
Proof.
  unfold bind. destruct (m w) as [[a | e] w1]; intros H; [eauto | discriminate].
Qed.

Lemma bind_assoc {A B C} (m : M A) (k : A -> M B) (k' : B -> M C) (w : world) :
  bind (bind m k) k' w = bind m (fun a => bind (k a) k') w.
Proof.
  unfold bind. destruct (m w) as [[a | e] w1]; reflexivity.
Qed.

Lemma bind_ext {A B} (m : M A) (k1 k2 : A -> M B) (w : world) :
  (forall a w', k1 a w' = k2 a w') -> bind m k1 w = bind m k2 w.
Proof.
  intros H. unfold bind. destruct (m w) as [[a | e] w1]; [apply H | reflexivity].
Qed.

Lemma score_attempts_event (g : string) (e : event) (w : world) :
  score_attempts g (record_event e w)
  = score_attempts g w + (if is_boxscore_call g e then 1 else 0).
Proof.
  unfold score_attempts, record_event. simpl.
  rewrite filter_app, length_app. simpl.
  destruct (is_boxscore_call g e) eqn:Hc.
  - rewrite filter_cons_True by (simpl; congruence). reflexivity.
  - rewrite filter_cons_False by (simpl; congruence). reflexivity.
Qed.

Lemma location_attempts_event (g : string) (e : event) (w : world) :
  location_attempts g (record_event e w)
  = location_attempts g w + (if is_game_call g e then 1 else 0).
Proof.
  unfold location_attempts, record_event. simpl.
  rewrite filter_app, length_app. simpl.
  destruct (is_game_call g e) eqn:Hc.
  - rewrite filter_cons_True by (simpl; congruence). reflexivity.
  - rewrite filter_cons_False by (simpl; congruence). reflexivity.
Qed.

(** ** The empty batch *)

(** C8: [insert_game_scores] and [insert_game_locations] called with an
    empty record list return without raising, and the only thing they do is
    write one log line: the connector is not loaded, no statement is
    submitted and the three tables are what they were. *)
Theorem insert_empty_batch_is_noop (block_name : string) (w : world) :
  insert_game_scores [] block_name w
    = (Ok tt, record_event (EvLogInfo "No game scores to insert.") w)
  /\ insert_game_locations [] block_name w
    = (Ok tt, record_event (EvLogInfo "No game locations to insert.") w)
  /\ (forall msg,
        let w' := record_event (EvLogInfo msg) w in
        trace w' = trace w ++ [EvLogInfo msg]
        /\ GAME_SCORES w' = GAME_SCORES w
        /\ GAME_LOCATIONS w' = GAME_LOCATIONS w
        /\ elevation_data w' = elevation_data w).
Proof.
  split; [| split].
  - unfold insert_game_scores. rewrite task0_run. reflexivity.
  - unfold insert_game_locations. rewrite task0_run. reflexivity.
  - intros msg. simpl. auto.
Qed.

Ltac rbind_inv H :=
  repeat match type of H with
         | rbind _ _ = Ok _ =>
             let a := fresh "v" in
             let Ha := fresh "Hv" in
             apply rbind_Ok_inv in H; destruct H as (a & Ha & H)
         end.


(** ** The retry loop *)

Section Engine.

Context {A : Type} (body : M A) (cnt : world -> nat).

(** Sleeping is not an attempt. *)
Hypothesis cnt_sleep : forall d w, cnt (record_event (EvSleep d) w) = cnt w.

Lemma task_engine_returns (a : A) :
  forall k (err : nat -> exn) n delays w,
    k <= n ->
    (forall i, i < k -> raises_at body cnt (cnt w + i) (err i)) ->
    returns_at body cnt (cnt w + k) a ->
    exists w', task_engine body delays n w = (Ok a, w') /\ cnt w' = cnt w + S k.
Proof.
  induction k as [| k IH]; intros err n delays w Hk Hfail Hret.
  - destruct (Hret w) as (w' & Hb & Hc); [lia |].
    exists w'. split; [| lia].
    destruct n; simpl; rewrite Hb; reflexivity.
  - destruct n as [| n]; [lia |].
    destruct (Hfail 0 ltac:(lia) w) as (w' & Hb & Hc); [lia |].
    simpl. rewrite Hb.
    set (w1 := record_event (EvSleep (hd 0%Z delays)) w').
    assert (Hw1 : cnt w1 = S (cnt w)) by (unfold w1; rewrite cnt_sleep; lia).
    destruct (IH (fun i => err (S i)) n (tl delays) w1) as (w2 & Hrun & Hc2).
    + lia.
    + intros i Hi. rewrite Hw1.
      replace (S (cnt w) + i) with (cnt w + S i) by lia.
      exact (Hfail (S i) ltac:(lia)).
    + rewrite Hw1. replace (S (cnt w) + k) with (cnt w + S k) by lia. exact Hret.
    + exists w2. split; [exact Hrun | lia].
Qed.

Lemma task_engine_raises :
  forall n (err : nat -> exn) delays w,
    (forall i, i <= n -> raises_at body cnt (cnt w + i) (err i)) ->
    exists w', task_engine body delays n w = (Raise (err n), w')
               /\ cnt w' = cnt w + S n.
Proof.
  induction n as [| n IH]; intros err delays w Hfail.
  - destruct (Hfail 0 ltac:(lia) w) as (w' & Hb & Hc); [lia |].
    exists w'. simpl. rewrite Hb. split; [reflexivity | lia].
  - destruct (Hfail 0 ltac:(lia) w) as (w' & Hb & Hc); [lia |].
    simpl. rewrite Hb.
    set (w1 := record_event (EvSleep (hd 0%Z delays)) w').
    assert (Hw1 : cnt w1 = S (cnt w)) by (unfold w1; rewrite cnt_sleep; lia).
    destruct (IH (fun i => err (S i)) (tl delays) w1) as (w2 & Hrun & Hc2).
    + intros i Hi. rewrite Hw1.
      replace (S (cnt w) + i) with (cnt w + S i) by lia.
      exact (Hfail (S i) ltac:(lia)).
    + exists w2. split; [exact Hrun | lia].
Qed.

End Engine.

Lemma score_attempts_sleep (g : string) (d : Z) (w : world) :
  score_attempts g (record_event (EvSleep d) w) = score_attempts g w.
Proof. rewrite score_attempts_event. simpl. lia. Qed.

Lemma location_attempts_sleep (g : string) (d : Z) (w : world) :
  location_attempts g (record_event (EvSleep d) w) = location_attempts g w.
Proof. rewrite location_attempts_event. simpl. lia. Qed.

Lemma score_attempts_call (g : string) (w : world) :
  score_attempts g (record_event (EvBoxscore g) w) = S (score_attempts g w).
Proof. rewrite score_attempts_event. simpl. rewrite String.eqb_refl. lia. Qed.

Lemma location_attempts_call (g : string) (w : world) :
  location_attempts g (record_event (EvGame g) w) = S (location_attempts g w).
Proof. rewrite location_attempts_event. simpl. rewrite String.eqb_refl. lia. Qed.

Lemma score_body_raises (g : string) (i : nat) (e : exn) :
  statsapi_boxscore_data E g i = Raise e ->
  raises_at (fetch_game_score_body g) (score_attempts g) i e.
Proof.
  intros Ho w Hw. exists (record_event (EvBoxscore g) w). split.
  - unfold fetch_game_score_body, bind, boxscore_data. rewrite Hw, Ho. reflexivity.
  - rewrite score_attempts_call. lia.
Qed.

Lemma score_body_returns (g : string) (i : nat) (p : pyval) (r : score_record) :
  statsapi_boxscore_data E g i = Ok p ->
  truthy p = true ->
  score_data_of g p = Ok r ->
  returns_at (fetch_game_score_body g) (score_attempts g) i (Some r).
Proof.
  intros Ho Ht Hr w Hw. exists (record_event (EvBoxscore g) w). split.
  - unfold fetch_game_score_body, bind, boxscore_data, lift, ret.
    rewrite Hw, Ho, Ht. simpl. rewrite Hr. reflexivity.
  - rewrite score_attempts_call. lia.
Qed.

Lemma location_body_raises (g : string) (i : nat) (e : exn) :
  statsapi_get_game E g i = Raise e ->
  raises_at (fetch_game_location_body g) (location_attempts g) i e.
Proof.
  intros Ho w Hw. exists (record_event (EvGame g) w). split.
  - unfold fetch_game_location_body, bind, get_game. rewrite Hw, Ho. reflexivity.
  - rewrite location_attempts_call. lia.
Qed.

Lemma location_body_returns (g : string) (i : nat) (p : pyval) (r : location_record) :
  statsapi_get_game E g i = Ok p ->
  truthy p = true ->
  location_data_of g p = Ok r ->
  returns_at (fetch_game_location_body g) (location_attempts g) i (Some r).
Proof.
  intros Ho Ht Hr w Hw. exists (record_event (EvGame g) w). split.
  - unfold fetch_game_location_body, bind, get_game, lift, ret.
    rewrite Hw, Ho, Ht. simpl. rewrite Hr. reflexivity.
  - rewrite location_attempts_call. lia.
Qed.

(** C1, as the code has it: [retries=5] is five retries after the first
    run.  A fetch whose every attempt raises is attempted exactly 6 times
    and then raises the last attempt's exception; a fetch that raises on
    its first [k <= 5] attempts and then returns a payload the transformer
    accepts gives the record after exactly [k + 1] attempts.  Attempts are
    the calls to the statsapi endpoint for that game id; both
    [fetch_game_score] and [fetch_game_location]. *)
Theorem retries_are_five_after_the_first_run (game_id : string) (w : world)
    (err : nat -> exn) :
  ((forall n, statsapi_boxscore_data E game_id n = Raise (err n)) ->
   exists w',
     fetch_game_score game_id w = (Raise (err (score_attempts game_id w + 5)), w')
     /\ score_attempts game_id w' = score_attempts game_id w + 6)
  /\ (forall k p r,
        k <= 5 ->
        (forall i, i < k ->
           statsapi_boxscore_data E game_id (score_attempts game_id w + i) = Raise (err i)) ->
        statsapi_boxscore_data E game_id (score_attempts game_id w + k) = Ok p ->
        truthy p = true ->
        score_data_of game_id p = Ok r ->
        exists w',
          fetch_game_score game_id w = (Ok (Some r), w')
          /\ score_attempts game_id w' = score_attempts game_id w + S k)
  /\ ((forall n, statsapi_get_game E game_id n = Raise (err n)) ->
      exists w',
        fetch_game_location game_id w
          = (Raise (err (location_attempts game_id w + 5)), w')
        /\ location_attempts game_id w' = location_attempts game_id w + 6)
  /\ (forall k p r,
        k <= 5 ->
        (forall i, i < k ->
           statsapi_get_game E game_id (location_attempts game_id w + i) = Raise (err i)) ->
        statsapi_get_game E game_id (location_attempts game_id w + k) = Ok p ->
        truthy p = true ->
        location_data_of game_id p = Ok r ->
        exists w',
          fetch_game_location game_id w = (Ok (Some r), w')
          /\ location_attempts game_id w' = location_attempts game_id w + S k).
Proof.
  repeat split.
  - intros Hall. unfold fetch_game_score, task.
    apply (task_engine_raises (fetch_game_score_body game_id) (score_attempts game_id)
             (score_attempts_sleep game_id) 5
             (fun i => err (score_attempts game_id w + i))).
    intros i _. apply score_body_raises, Hall.
  - intros k p r Hk Hfail Hok Ht Hr. unfold fetch_game_score, task.
    apply (task_engine_returns (fetch_game_score_body game_id) (score_attempts game_id)
             (score_attempts_sleep game_id) (Some r) k err); [exact Hk | |].
    + intros i Hi. apply score_body_raises, Hfail, Hi.
    + eapply score_body_returns; eassumption.
  - intros Hall. unfold fetch_game_location, task.
    apply (task_engine_raises (fetch_game_location_body game_id)
             (location_attempts game_id) (location_attempts_sleep game_id) 5
             (fun i => err (location_attempts game_id w + i))).
    intros i _. apply location_body_raises, Hall.
  - intros k p r Hk Hfail Hok Ht Hr. unfold fetch_game_location, task.
    apply (task_engine_returns (fetch_game_location_body game_id)
             (location_attempts game_id) (location_attempts_sleep game_id)
             (Some r) k err); [exact Hk | |].
    + intros i Hi. apply location_body_raises, Hfail, Hi.
    + eapply location_body_returns; eassumption.
Qed.

(** ** The orchestrators *)

Lemma fetch_each_app {R} (fetch : string -> M (option R)) (what : string)
    (pre rest : list string) :
  forall acc w,
    fetch_each fetch what (pre ++ rest) acc w
    = bind (fetch_each fetch what pre acc)
           (fun acc' => fetch_each fetch what rest acc') w.
Proof.
  induction pre as [| g pre IH]; intros acc w; simpl.
  - reflexivity.
  - rewrite bind_assoc. apply bind_ext. intros [r |] w1.
    + rewrite bind_assoc. apply bind_ext. intros _ w2. apply IH.
    + apply IH.
Qed.

Lemma fetch_each_raises {R} (fetch : string -> M (option R)) (what : string)
    (pre post : list string) (bad : string) (acc recs : list R)
    (w w1 w2 : world) (e : exn) :
  fetch_each fetch what pre acc w = (Ok recs, w1) ->
  fetch bad w1 = (Raise e, w2) ->
  fetch_each fetch what (pre ++ bad :: post) acc w = (Raise e, w2).
Proof.
  intros Hpre Hbad. rewrite fetch_each_app.
  rewrite (bind_Ok _ _ _ _ _ Hpre). simpl.
  apply bind_Raise. exact Hbad.
Qed.

Lemma fetch_each_skips {R} (fetch : string -> M (option R)) (what : string)
    (pre post : list string) (g : string) (acc recs : list R)
    (w w1 w2 : world) :
  fetch_each fetch what pre acc w = (Ok recs, w1) ->
  fetch g w1 = (Ok None, w2) ->
  fetch_each fetch what (pre ++ g :: post) acc w
  = fetch_each fetch what post recs w2.
Proof.
  intros Hpre Hg. rewrite fetch_each_app.
  rewrite (bind_Ok _ _ _ _ _ Hpre). simpl.
  rewrite (bind_Ok _ _ _ _ _ Hg). reflexivity.
Qed.

(** C2, as the code has it: the orchestrators have no handler around the
    fetch.  When the identifiers before [bad] have been processed and the
    fetch of [bad] fails terminally with [e], [get_game_scores] (resp.
    [get_game_locations_flow]) itself raises [e] in the world the failed
    fetch left: no record list is returned, and the identifiers after
    [bad] are not fetched. *)
Theorem terminal_failure_propagates (pre post : list string) (bad : string)
    (w w1 w2 : world) (e : exn) :
  (forall recs,
     get_game_scores pre w = (Ok recs, w1) ->
     fetch_game_score bad w1 = (Raise e, w2) ->
     get_game_scores (pre ++ bad :: post) w = (Raise e, w2))
  /\ (forall recs,
        get_game_locations_flow pre w = (Ok recs, w1) ->
        fetch_game_location bad w1 = (Raise e, w2) ->
        get_game_locations_flow (pre ++ bad :: post) w = (Raise e, w2)).
Proof.
  split; intros recs Hpre Hbad.
  - unfold get_game_scores in *. eapply fetch_each_raises; eassumption.
  - unfold get_game_locations_flow in *. eapply fetch_each_raises; eassumption.
Qed.

(** C6: when the endpoint answers an empty (falsy) payload, the fetch task
    returns the empty record at once: one call to the endpoint, one printed
    line, no retry and no exception.  The orchestrator then goes on with
    the identifiers after it and the list it had: nothing is appended for
    this identifier.  (The line is printed by the fetch task.) *)
Theorem empty_response_is_skipped (game_id : string) (p : pyval) (w : world) :
  truthy p = false ->
  (statsapi_boxscore_data E game_id (score_attempts game_id w) = Ok p ->
   let w' := record_event
               (EvPrint ("No boxscore data found for game ID " +:+ game_id +:+ "."))
               (record_event (EvBoxscore game_id) w) in
   fetch_game_score game_id w = (Ok None, w')
   /\ score_attempts game_id w' = S (score_attempts game_id w)
   /\ forall pre post recs w0,
        get_game_scores pre w0 = (Ok recs, w) ->
        get_game_scores (pre ++ game_id :: post) w0
        = fetch_each fetch_game_score "scores" post recs w')
  /\ (statsapi_get_game E game_id (location_attempts game_id w) = Ok p ->
      let w' := record_event
                  (EvPrint ("No location data found for game ID " +:+ game_id +:+ "."))
                  (record_event (EvGame game_id) w) in
      fetch_game_location game_id w = (Ok None, w')
      /\ location_attempts game_id w' = S (location_attempts game_id w)
      /\ forall pre post recs w0,
           get_game_locations_flow pre w0 = (Ok recs, w) ->
           get_game_locations_flow (pre ++ game_id :: post) w0
           = fetch_each fetch_game_location "location data" post recs w').
Proof.
  intros Ht. split; intros Ho w'.
  - assert (Hrun : fetch_game_score game_id w = (Ok None, w')).
    { unfold fetch_game_score, task. simpl.
      unfold fetch_game_score_body, bind, boxscore_data. rewrite Ho, Ht. reflexivity. }
    split; [exact Hrun | split].
    + unfold w'. rewrite score_attempts_event, score_attempts_call. simpl. lia.
    + intros pre post recs w0 Hpre. unfold get_game_scores in *.
      eapply fetch_each_skips; eassumption.
  - assert (Hrun : fetch_game_location game_id w = (Ok None, w')).
    { unfold fetch_game_location, task. simpl.
      unfold fetch_game_location_body, bind, get_game. rewrite Ho, Ht. reflexivity. }
    split; [exact Hrun | split].
    + unfold w'. rewrite location_attempts_event, location_attempts_call. simpl. lia.
    + intros pre post recs w0 Hpre. unfold get_game_locations_flow in *.
      eapply fetch_each_skips; eassumption.
Qed.

(** ** The elevation path *)

Lemma seq_of_parameters_lookup (locations : list city_row) :
  forall (elevation : list pyval) (i : nat) (location : city_row) (elev : pyval),
    locations !! i = Some location ->
    elevation !! i = Some elev ->
    seq_of_parameters locations elevation !! i = Some (row_of location elev).
Proof.
  induction locations as [| l locations IH]; intros [| x elevation] [| i] loc elev Hl He;
    try discriminate.
  - injection Hl as <-. injection He as <-. reflexivity.
  - apply (IH elevation i loc elev Hl He).
Qed.

Lemma seq_of_parameters_length (locations : list city_row) :
  forall elevation : list pyval,
    length (seq_of_parameters locations elevation)
    = Nat.min (length locations) (length elevation).
Proof.
  induction locations as [| l locations IH]; intros [| x elevation]; simpl; try reflexivity.
  f_equal. apply IH.
Qed.

Lemma setup_table_run (block_name : string) (locations : list city_row)
    (elevation : list pyval) (w : world) :
  connector_load E block_name = Ok tt ->
  sql_fault E CreateElevationData = None ->
  sql_fault E InsertElevationData = None ->
  fst (setup_table block_name locations elevation w)
    = emit_lineage_event E "Upload Elevation Data to Snowflake"
  /\ elevation_data (snd (setup_table block_name locations elevation w))
     = Some (table_rows (elevation_data w) ++ seq_of_parameters locations elevation).
Proof.
  intros Hload Hc Hi. unfold setup_table. rewrite task0_run.
  unfold load, execute, execute_many_elevation, submit, emit, bind, tell, lift, ret.
  rewrite Hload, Hc, Hi. simpl.
  destruct (elevation_data w) as [t |]; simpl;
    destruct (emit_lineage_event E "Upload Elevation Data to Snowflake");
    simpl; auto.
Qed.

Lemma get_elevation_Ok (lat long elev : pyval) (w w' : world) :
  get_elevation lat long w = (Ok elev, w') ->
  exists body, requests_get E lat long = Ok (Ok body)
               /\ py_subscript body "elevation" = Ok elev.
Proof.
  unfold get_elevation. rewrite task0_run.
  unfold http_get_elevation, emit, bind, tell, lift. simpl.
  destruct (requests_get E lat long) as [[body | e] | e]; simpl;
    destruct (emit_lineage_event E "get_elevation_data"); simpl;
    intros H; try discriminate.
  exists body. split; [reflexivity |].
  destruct (py_subscript body "elevation"); [congruence | discriminate].
Qed.

Lemma main_elevation_loop_order (locations : list city_row) :
  forall (acc elevations : list pyval) (w w' : world),
    main_elevation_loop locations acc w = (Ok elevations, w') ->
    exists new, elevations = acc ++ new /\ Forall2 elevation_of locations new.
Proof.
  induction locations as [| [[city lat] long] locations IH]; intros acc elevations w w' H.
  - injection H as <- _. exists []. split; [symmetry; apply app_nil_r | constructor].
  - simpl in H. apply bind_Ok_inv in H. destruct H as (elev & w1 & Hget & H).
    apply bind_Ok_inv in H. destruct H as (u & w2 & _ & H).
    apply IH in H. destruct H as (new & -> & Hall).
    exists (elev :: new). split.
    + rewrite <- app_assoc. reflexivity.
    + constructor; [| exact Hall].
      apply get_elevation_Ok in Hget. exact Hget.
Qed.

(** C3: the rows of the [elevation_data] insert pair by position: the row
    at index [i] carries the city, latitude and longitude of
    [locations[i]] and the elevation [elevation[i]]; these are the rows
    [setup_table] appends to the table when the connector accepts its
    statements; and in [main_elevation] the list of elevations is in the
    order of the rows they were looked up for. *)
Theorem elevation_rows_pair_by_position (block_name : string)
    (locations : list city_row) (elevation : list pyval) (w : world) :
  (forall i location elev,
     locations !! i = Some location ->
     elevation !! i = Some elev ->
     seq_of_parameters locations elevation !! i
     = Some {| er_city := fst (fst location);
               er_lat := snd (fst location);
               er_lon := snd location;
               er_elevation := elev |})
  /\ (connector_load E block_name = Ok tt ->
      sql_fault E CreateElevationData = None ->
      sql_fault E InsertElevationData = None ->
      elevation_data (snd (setup_table block_name locations elevation w))
      = Some (table_rows (elevation_data w) ++ seq_of_parameters locations elevation))
  /\ (forall w',
        main_elevation_loop locations [] w = (Ok elevation, w') ->
        Forall2 elevation_of locations elevation).
Proof.
  split; [| split].
  - intros i location elev Hl He. apply seq_of_parameters_lookup; assumption.
  - intros Hload Hc Hi. apply setup_table_run; assumption.
  - intros w' H. apply main_elevation_loop_order in H.
    destruct H as (new & -> & Hall). exact Hall.
Qed.

(** C10: [setup_table] called with [n] locations and [m] elevations hands
    exactly [min n m] parameter rows to the insert, and appends exactly
    that many rows to [elevation_data] when the connector accepts its
    statements; lists of different lengths raise nothing: the call ends as
    the lineage emission that closes it ends. *)
Theorem setup_table_inserts_min_rows (block_name : string)
    (locations : list city_row) (elevation : list pyval) (w : world) :
  length (seq_of_parameters locations elevation)
  = Nat.min (length locations) (length elevation)
  /\ (connector_load E block_name = Ok tt ->
      sql_fault E CreateElevationData = None ->
      sql_fault E InsertElevationData = None ->
      length (table_rows
                (elevation_data (snd (setup_table block_name locations elevation w))))
      = length (table_rows (elevation_data w))
        + Nat.min (length locations) (length elevation)
      /\ fst (setup_table block_name locations elevation w)
         = emit_lineage_event E "Upload Elevation Data to Snowflake").
Proof.
  split; [apply seq_of_parameters_length |].
  intros Hload Hc Hi.
  destruct (setup_table_run block_name locations elevation w Hload Hc Hi) as [Hr Ht].
  split; [| exact Hr].
  rewrite Ht. simpl. rewrite length_app, seq_of_parameters_length. reflexivity.
Qed.

(** ** Deduplicated identifiers *)

Lemma list_set_NoDup (l : list string) : NoDup (list_set l).
Proof. unfold list_set. apply NoDup_elements. Qed.

Lemma list_set_elem_of (l : list string) (g : string) : g ∈ list_set l <-> g ∈ l.
Proof. unfold list_set. rewrite elem_of_elements, elem_of_list_to_set. reflexivity. Qed.

Lemma NoDup_count_occ_1 (l : list string) (g : string) :
  NoDup l -> g ∈ l -> count_occ string_dec l g = 1.
Proof.
  intros Hnd Hin.
  apply list_elem_of_In in Hin. apply NoDup_ListNoDup in Hnd.
  pose proof (proj1 (NoDup_count_occ string_dec l) Hnd g) as Hle.
  pose proof (proj1 (count_occ_In string_dec l g) Hin) as Hgt.
  lia.
Qed.

Section Dispatch.

Context {R : Type} (fetch : string -> M (option R)) (what : string).
Context (cnt : string -> world -> nat).

Hypothesis cnt_print : forall g msg w, cnt g (record_event (EvPrint msg) w) = cnt g w.

Lemma fetch_each_counts (ids : list string) :
  forall acc w,
    (forall g, In g ids -> fetched_once fetch cnt g) ->
    exists recs w',
      fetch_each fetch what ids acc w = (Ok recs, w')
      /\ forall g', cnt g' w' = cnt g' w + count_occ string_dec ids g'.
Proof.
  induction ids as [| g ids IH]; intros acc w Hall.
  - exists acc, w. split; [reflexivity | intros g'; simpl; lia].
  - destruct (Hall g (or_introl eq_refl) w) as (x & w1 & Hf & Hc).
    assert (Hrest : forall g0, In g0 ids -> fetched_once fetch cnt g0)
      by (intros g0 H0; apply Hall; right; exact H0).
    simpl. rewrite (bind_Ok _ _ _ _ _ Hf).
    destruct x as [r |].
    + unfold bind, print, tell at 1.
      destruct (IH (acc ++ [r])
                  (record_event
                     (EvPrint ("Processed " +:+ what +:+ " for game ID " +:+ g +:+ "."))
                     w1) Hrest) as (recs & w2 & Hrun & Hc2).
      exists recs, w2. split; [exact Hrun |].
      intros g'. rewrite Hc2, cnt_print, Hc.
      destruct (string_dec g g'); lia.
    + destruct (IH acc w1 Hrest) as (recs & w2 & Hrun & Hc2).
      exists recs, w2. split; [exact Hrun |].
      intros g'. rewrite Hc2, Hc. destruct (string_dec g g'); lia.
Qed.

End Dispatch.

Lemma is_boxscore_call_dec (g g' : string) :
  (if is_boxscore_call g' (EvBoxscore g) then 1 else 0)
  = (if string_dec g g' then 1 else 0).
Proof.
  simpl. destruct (string_dec g g') as [-> | Hne].
  - rewrite String.eqb_refl. reflexivity.
  - apply String.eqb_neq in Hne. rewrite Hne. reflexivity.
Qed.

Lemma fetch_game_score_once (g : string) :
  boxscore_answers g -> fetched_once fetch_game_score score_attempts g.
Proof.
  intros Hans w.
  destruct (Hans (score_attempts g w)) as (p & Ho & Hp).
  unfold fetch_game_score, task. simpl.
  unfold fetch_game_score_body, bind, boxscore_data, lift, ret, print, tell.
  rewrite Ho. destruct Hp as [Hf | (r & Hr)].
  - rewrite Hf. simpl. eexists _, _. split; [reflexivity |].
    intros g'. rewrite !score_attempts_event. rewrite is_boxscore_call_dec.
    simpl. lia.
  - destruct (truthy p); simpl.
    + rewrite Hr. eexists _, _. split; [reflexivity |].
      intros g'. rewrite score_attempts_event. apply f_equal, is_boxscore_call_dec.
    + eexists _, _. split; [reflexivity |].
      intros g'. rewrite !score_attempts_event. rewrite is_boxscore_call_dec.
      simpl. lia.
Qed.

Lemma is_game_call_dec (g g' : string) :
  (if is_game_call g' (EvGame g) then 1 else 0)
  = (if string_dec g g' then 1 else 0).
Proof.
  simpl. destruct (string_dec g g') as [-> | Hne].
  - rewrite String.eqb_refl. reflexivity.
  - apply String.eqb_neq in Hne. rewrite Hne. reflexivity.
Qed.

Lemma fetch_game_location_once (g : string) :
  game_answers g -> fetched_once fetch_game_location location_attempts g.
Proof.
  intros Hans w.
  destruct (Hans (location_attempts g w)) as (p & Ho & Hp).
  unfold fetch_game_location, task. simpl.
  unfold fetch_game_location_body, bind, get_game, lift, ret, print, tell.
  rewrite Ho. destruct Hp as [Hf | (r & Hr)].
  - rewrite Hf. simpl. eexists _, _. split; [reflexivity |].
    intros g'. rewrite !location_attempts_event. rewrite is_game_call_dec.
    simpl. lia.
  - destruct (truthy p); simpl.
    + rewrite Hr. eexists _, _. split; [reflexivity |].
      intros g'. rewrite location_attempts_event. apply f_equal, is_game_call_dec.
    + eexists _, _. split; [reflexivity |].
      intros g'. rewrite !location_attempts_event. rewrite is_game_call_dec.
      simpl. lia.
Qed.

(** C5, as the code has it: the list [get_recent_games] returns has no
    duplicate, and holds exactly the game ids retrieved over all teams.
    Run on it, [get_game_scores] (resp. [get_game_locations_flow]) calls
    its endpoint exactly once for each identifier, provided every call for
    the listed identifiers is answered with a payload that is empty or
    that the transformer accepts. *)
Theorem recent_games_are_unique (team_ids : list Z) (start_date end_date : string)
    (w w1 : world) (ids : list string) :
  get_recent_games team_ids start_date end_date w = (Ok ids, w1) ->
  NoDup ids
  /\ (exists all_game_ids,
        get_recent_games_loop team_ids start_date end_date [] w = (Ok all_game_ids, w1)
        /\ forall g, g ∈ ids <-> g ∈ all_game_ids)
  /\ ((forall g, g ∈ ids -> boxscore_answers g) ->
      exists scores w2,
        get_game_scores ids w1 = (Ok scores, w2)
        /\ forall g, g ∈ ids -> score_attempts g w2 = S (score_attempts g w1))
  /\ ((forall g, g ∈ ids -> game_answers g) ->
      forall w2, exists locations w3,
        get_game_locations_flow ids w2 = (Ok locations, w3)
        /\ forall g, g ∈ ids -> location_attempts g w3 = S (location_attempts g w2)).
Proof.
  intros H. unfold get_recent_games in H. rewrite task0_run in H.
  apply bind_Ok_inv in H. destruct H as (all_game_ids & w' & Hloop & Hret).
  injection Hret as <- <-.
  split; [apply list_set_NoDup | split; [| split]].
  - exists all_game_ids. split; [exact Hloop | apply list_set_elem_of].
  - intros Hans.
    destruct (fetch_each_counts fetch_game_score "scores" score_attempts
                (fun g msg w0 => eq_trans (score_attempts_event g (EvPrint msg) w0)
                                          (Nat.add_0_r _))
                (list_set all_game_ids) [] w') as (scores & w2 & Hrun & Hc).
    { intros g Hg. apply fetch_game_score_once, Hans, list_elem_of_In, Hg. }
    exists scores, w2. split; [exact Hrun |].
    intros g Hg. rewrite Hc.
    rewrite (NoDup_count_occ_1 _ g (list_set_NoDup all_game_ids) Hg). lia.
  - intros Hans w2.
    destruct (fetch_each_counts fetch_game_location "location data" location_attempts
                (fun g msg w0 => eq_trans (location_attempts_event g (EvPrint msg) w0)
                                          (Nat.add_0_r _))
                (list_set all_game_ids) [] w2) as (locations & w3 & Hrun & Hc).
    { intros g Hg. apply fetch_game_location_once, Hans, list_elem_of_In, Hg. }
    exists locations, w3. split; [exact Hrun |].
    intros g Hg. rewrite Hc.
    rewrite (NoDup_count_occ_1 _ g (list_set_NoDup all_game_ids) Hg). lia.
Qed.

(** ** Defaults for missing fields *)

Lemma get_path_field_at (path : list string) :
  forall (v default : pyval),
    path <> [] ->
    get_path v path default
    = match field_at path v with
      | Missing => Ok default
      | Found x => Ok x
      | NotADict => Raise AttributeError
      end.
Proof.
  induction path as [| k rest IH]; intros v default Hne; [congruence |].
  destruct rest as [| k' rest].
  - destruct v; simpl; try reflexivity.
    destruct (dict_lookup k items); reflexivity.
  - change (get_path v (k :: k' :: rest) default)
      with (rbind (py_get v k empty_dict) (fun x => get_path x (k' :: rest) default)).
    destruct v; try reflexivity.
    cbn [py_get rbind field_at].
    destruct (dict_lookup k items) as [x |].
    + apply IH. discriminate.
    + rewrite IH by discriminate. reflexivity.
Qed.

Lemma readable_get (path : list string) (p default : pyval) :
  path <> [] ->
  readable path p = true ->
  exists v, get_path p path default = Ok v
            /\ (field_at path p = Missing -> v = default).
Proof.
  intros Hne H. rewrite get_path_field_at by exact Hne.
  unfold readable in H. destruct (field_at path p); try discriminate.
  - exists default. auto.
  - exists v. split; [reflexivity | discriminate].
Qed.

Lemma int_readable_get (path : list string) (p : pyval) :
  path <> [] ->
  int_readable path p = true ->
  exists v z, get_path p path (PyInt 0) = Ok v
              /\ py_int v = Ok z
              /\ (field_at path p = Missing -> z = 0%Z).
Proof.
  intros Hne H. rewrite get_path_field_at by exact Hne.
  unfold int_readable in H. destruct (field_at path p); try discriminate.
  - exists (PyInt 0), 0%Z. auto.
  - destruct (py_int v) as [z |] eqn:Hz; [| discriminate].
    exists v, z. repeat split; [exact Hz | discriminate].
Qed.

Lemma float_readable_get (path : list string) (p : pyval) :
  path <> [] ->
  float_readable path p = true ->
  exists v f, get_path p path (PyFloat float_zero) = Ok v
              /\ py_float v = Ok f
              /\ (field_at path p = Missing -> f = float_zero).
Proof.
  intros Hne H. rewrite get_path_field_at by exact Hne.
  unfold float_readable in H. destruct (field_at path p); try discriminate.
  - exists (PyFloat float_zero), float_zero. auto.
  - destruct (py_float v) as [f |] eqn:Hf; [| discriminate].
    exists v, f. repeat split; [exact Hf | discriminate].
Qed.

Lemma time_value_of_dicts (items : list pyval) :
  time_items_ok items = true -> exists t, time_value_of items = Ok t.
Proof.
  induction items as [| item items IH]; intros H; simpl in *.
  - eauto.
  - destruct item; try discriminate. cbn [py_get rbind].
    destruct (py_eq_str _ "T"); [eauto | apply IH, H].
Qed.

Lemma time_items_ok_of_value (items : list pyval) (t : pyval) :
  time_value_of items = Ok t -> time_items_ok items = true.
Proof.
  induction items as [| item items IH]; intros H; simpl in *.
  - reflexivity.
  - destruct item; try discriminate. cbn [py_get rbind] in H.
    destruct (py_eq_str _ "T"); [reflexivity | apply IH, H].
Qed.

Lemma game_box_info_get (p : pyval) :
  match field_at ["gameBoxInfo"] p with
  | Missing => true
  | Found info =>
      match py_iter info with
      | Ok items => time_items_ok items
      | Raise _ => false
      end
  | NotADict => false
  end = true ->
  exists info items t,
    py_get p "gameBoxInfo" (PyList []) = Ok info
    /\ py_iter info = Ok items
    /\ time_value_of items = Ok t
    /\ (field_at ["gameBoxInfo"] p = Missing -> t = Unknown).
Proof.
  intros H. destruct p; try discriminate. cbn [field_at py_get] in *.
  destruct (dict_lookup "gameBoxInfo" items) as [x |].
  - destruct (py_iter x) as [l | e] eqn:Hiter; [| discriminate].
    destruct (time_value_of_dicts l H) as (t & Ht).
    exists x, l, t. repeat split; [exact Hiter | exact Ht | discriminate].
  - exists (PyList []), [], Unknown. auto.
Qed.

Lemma venue_id_get (p : pyval) :
  match field_at ["gameData"; "venue"; "id"] p with
  | Missing => true
  | Found v => negb (truthy v) || is_Ok (py_int v)
  | NotADict => false
  end = true ->
  exists t v z,
    get_path p ["gameData"; "venue"; "id"] PyNone = Ok t
    /\ get_path p ["gameData"; "venue"; "id"] (PyInt 0) = Ok v
    /\ (if truthy t then py_int v else Ok 0%Z) = Ok z
    /\ (field_at ["gameData"; "venue"; "id"] p = Missing -> z = 0%Z).
Proof.
  intros H. rewrite !get_path_field_at by discriminate.
  destruct (field_at ["gameData"; "venue"; "id"] p); try discriminate.
  - exists PyNone, (PyInt 0), 0%Z. auto.
  - destruct (truthy v) eqn:Ht; simpl in H.
    + destruct (py_int v) as [z |] eqn:Hz; [| discriminate].
      exists v, v, z. rewrite Ht. repeat split; [exact Hz | discriminate].
    + exists v, v, 0%Z. rewrite Ht. auto.
Qed.

Ltac open_path H :=
  cbn [get_path] in H; rbind_inv H.

Ltac same_values :=
  repeat match goal with
         | H1 : ?x = Ok ?a, H2 : ?x = Ok ?b |- _ =>
             rewrite H1 in H2; injection H2 as <-
         end.

Ltac run_gets :=
  repeat match goal with
         | H : ?x = Ok _ |- context [rbind ?x _] => rewrite H; cbn [rbind]
         end.

Lemma readable_payload_defaults (game_id : string) (gid : Z) (p : pyval) :
  int_of_str game_id = Some gid ->
  (boxscore_shape_ok p = true ->
   exists r,
     score_data_of game_id p = Ok r
     /\ sr_game_id r = gid
     /\ (field_at ["home"; "teamStats"; "batting"; "runs"] p = Missing ->
         sr_home_score r = 0%Z)
     /\ (field_at ["away"; "teamStats"; "batting"; "runs"] p = Missing ->
         sr_away_score r = 0%Z)
     /\ (field_at ["teamInfo"; "home"; "teamName"] p = Missing ->
         sr_home_team r = PyStr "Unknown")
     /\ (field_at ["teamInfo"; "away"; "teamName"] p = Missing ->
         sr_away_team r = PyStr "Unknown")
     /\ (field_at ["teamInfo"; "home"; "id"] p = Missing -> sr_home_team_id r = 0%Z)
     /\ (field_at ["teamInfo"; "away"; "id"] p = Missing -> sr_away_team_id r = 0%Z)
     /\ (field_at ["gameBoxInfo"] p = Missing -> sr_game_time r = PyStr "Unknown"))
  /\ (game_shape_ok p = true ->
      exists r,
        location_data_of game_id p = Ok r
        /\ lr_game_id r = gid
        /\ (field_at ["gameData"; "venue"; "id"] p = Missing -> lr_venue_id r = 0%Z)
        /\ (field_at ["gameData"; "venue"; "name"] p = Missing ->
            lr_venue_name r = PyStr "Unknown")
        /\ (field_at ["gameData"; "venue"; "location"; "city"] p = Missing ->
            lr_venue_city r = PyStr "Unknown")
        /\ (field_at ["gameData"; "venue"; "location"; "state"] p = Missing ->
            lr_venue_state r = PyStr "Unknown")
        /\ (field_at ["gameData"; "venue"; "location"; "postalCode"] p = Missing ->
            lr_venue_postal_code r = PyStr "Unknown")
        /\ (field_at ["gameData"; "venue"; "location"; "country"] p = Missing ->
            lr_venue_country r = PyStr "Unknown")
        /\ (field_at ["gameData"; "venue"; "location"; "defaultCoordinates"; "latitude"] p
            = Missing -> lr_venue_latitude r = S754_zero false)
        /\ (field_at ["gameData"; "venue"; "location"; "defaultCoordinates"; "longitude"] p
            = Missing -> lr_venue_longitude r = S754_zero false)
        /\ (field_at ["gameData"; "venue"; "location"; "elevation"] p = Missing ->
            lr_venue_elevation r = S754_zero false)).
Proof.
  intros Hid. split; intros Hshape.
  - unfold boxscore_shape_ok in Hshape.
    repeat (apply andb_prop in Hshape; destruct Hshape as [Hshape ?]).
    destruct (int_readable_get ["home"; "teamStats"; "batting"; "runs"] p)
      as (hv & hz & Hh & Hhz & Hhd); [discriminate | assumption |].
    destruct (int_readable_get ["away"; "teamStats"; "batting"; "runs"] p)
      as (av & az & Ha & Haz & Had); [discriminate | assumption |].
    destruct (readable_get ["teamInfo"; "home"; "teamName"] p Unknown)
      as (hn & Hhn & Hhnd); [discriminate | assumption |].
    destruct (readable_get ["teamInfo"; "away"; "teamName"] p Unknown)
      as (an & Han & Hand); [discriminate | assumption |].
    destruct (int_readable_get ["teamInfo"; "home"; "id"] p)
      as (hi & hiz & Hhi & Hhiz & Hhid); [discriminate | assumption |].
    destruct (int_readable_get ["teamInfo"; "away"; "id"] p)
      as (ai & aiz & Hai & Haiz & Haid); [discriminate | assumption |].
    destruct (game_box_info_get p) as (info & items & t & Hinfo & Hit & Ht & Htd);
      [assumption |].
    open_path Hh. open_path Ha. open_path Hhn. open_path Han.
    open_path Hhi. open_path Hai. same_values.
    unfold score_data_of, int_of_id. rewrite Hid. run_gets.
    eexists. split; [reflexivity |]. cbn.
    repeat split; assumption.
  - unfold game_shape_ok in Hshape.
    repeat (apply andb_prop in Hshape; destruct Hshape as [Hshape ?]).
    destruct (venue_id_get p) as (it & iv & iz & Hit & Hiv & Hiz & Hid0);
      [assumption |].
    destruct (readable_get ["gameData"; "venue"; "name"] p Unknown)
      as (vn & Hvn & Hvnd); [discriminate | assumption |].
    destruct (readable_get ["gameData"; "venue"; "location"; "city"] p Unknown)
      as (vc & Hvc & Hvcd); [discriminate | assumption |].
    destruct (readable_get ["gameData"; "venue"; "location"; "state"] p Unknown)
      as (vs & Hvs & Hvsd); [discriminate | assumption |].
    destruct (readable_get ["gameData"; "venue"; "location"; "postalCode"] p Unknown)
      as (vp & Hvp & Hvpd); [discriminate | assumption |].
    destruct (readable_get ["gameData"; "venue"; "location"; "country"] p Unknown)
      as (vy & Hvy & Hvyd); [discriminate | assumption |].
    destruct (float_readable_get
                ["gameData"; "venue"; "location"; "defaultCoordinates"; "latitude"] p)
      as (la & laf & Hla & Hlaf & Hlad); [discriminate | assumption |].
    destruct (float_readable_get
                ["gameData"; "venue"; "location"; "defaultCoordinates"; "longitude"] p)
      as (lo & lof & Hlo & Hlof & Hlod); [discriminate | assumption |].
    destruct (float_readable_get ["gameData"; "venue"; "location"; "elevation"] p)
      as (el & elf & Hel & Helf & Held); [discriminate | assumption |].
    open_path Hit. open_path Hiv. open_path Hvn. open_path Hvc. open_path Hvs.
    open_path Hvp. open_path Hvy. open_path Hla. open_path Hlo. open_path Hel.
    same_values.
    unfold location_data_of, int_of_id. rewrite Hid. run_gets.
    destruct (truthy it); cbn [rbind] in *; run_gets;
      (eexists; split; [reflexivity |]; cbn; repeat split;
       first [assumption | congruence]).
Qed.

Lemma readable_of_get (path : list string) (p default v : pyval) :
  path <> [] -> get_path p path default = Ok v -> readable path p = true.
Proof.
  intros Hne Hg. rewrite get_path_field_at in Hg by exact Hne.
  unfold readable. destruct (field_at path p); [reflexivity | reflexivity | discriminate].
Qed.

Lemma int_readable_of_get (path : list string) (p v : pyval) (z : Z) :
  path <> [] ->
  get_path p path (PyInt 0) = Ok v ->
  py_int v = Ok z ->
  int_readable path p = true.
Proof.
  intros Hne Hg Hz. rewrite get_path_field_at in Hg by exact Hne.
  unfold int_readable. destruct (field_at path p); [reflexivity | | discriminate].
  injection Hg as ->. rewrite Hz. reflexivity.
Qed.

Lemma float_readable_of_get (path : list string) (p v : pyval) (f : spec_float) :
  path <> [] ->
  get_path p path (PyFloat float_zero) = Ok v ->
  py_float v = Ok f ->
  float_readable path p = true.
Proof.
  intros Hne Hg Hf. rewrite get_path_field_at in Hg by exact Hne.
  unfold float_readable. destruct (field_at path p); [reflexivity | | discriminate].
  injection Hg as ->. rewrite Hf. reflexivity.
Qed.

Lemma game_box_info_of_get (p info t : pyval) (items : list pyval) :
  py_get p "gameBoxInfo" (PyList []) = Ok info ->
  py_iter info = Ok items ->
  time_value_of items = Ok t ->
  match field_at ["gameBoxInfo"] p with
  | Missing => true
  | Found x =>
      match py_iter x with
      | Ok l => time_items_ok l
      | Raise _ => false
      end
  | NotADict => false
  end = true.
Proof.
  intros Hinfo Hiter Ht. destruct p; try discriminate. cbn [field_at py_get] in *.
  destruct (dict_lookup "gameBoxInfo" items0) as [x |]; [| reflexivity].
  injection Hinfo as ->. rewrite Hiter. eapply time_items_ok_of_value, Ht.
Qed.

Lemma venue_id_of_get (p t : pyval) (z : Z) :
  get_path p ["gameData"; "venue"; "id"] PyNone = Ok t ->
  (if truthy t
   then rbind (get_path p ["gameData"; "venue"; "id"] (PyInt 0)) py_int
   else Ok 0%Z) = Ok z ->
  match field_at ["gameData"; "venue"; "id"] p with
  | Missing => true
  | Found v => negb (truthy v) || is_Ok (py_int v)
  | NotADict => false
  end = true.
Proof.
  intros Ht Hz. rewrite get_path_field_at in Ht, Hz by discriminate.
  destruct (field_at ["gameData"; "venue"; "id"] p); [reflexivity | | discriminate].
  injection Ht as <-. destruct (truthy v); simpl in *; [| reflexivity].
  destruct (py_int v); [reflexivity | discriminate].
Qed.

Lemma int_of_id_Some (g : string) (z : Z) :
  int_of_id g = Ok z -> int_of_str g = Some z.
Proof.
  unfold int_of_id. destruct (int_of_str g); [congruence | discriminate].
Qed.

Ltac from_gets := cbn [get_path]; run_gets; eassumption.

Lemma score_data_of_Ok_shape (g : string) (p : pyval) (r : score_record) :
  score_data_of g p = Ok r ->
  int_of_str g = Some (sr_game_id r) /\ boxscore_shape_ok p = true.
Proof.
  intros H. unfold score_data_of in H. rbind_inv H. injection H as <-.
  cbn [sr_game_id]. same_values.
  split; [apply int_of_id_Some; assumption |].
  unfold boxscore_shape_ok. repeat (apply andb_true_intro; split).
  - eapply int_readable_of_get; [discriminate | from_gets | eassumption].
  - eapply int_readable_of_get; [discriminate | from_gets | eassumption].
  - eapply (readable_of_get _ p Unknown); [discriminate | from_gets].
  - eapply (readable_of_get _ p Unknown); [discriminate | from_gets].
  - eapply int_readable_of_get; [discriminate | from_gets | eassumption].
  - eapply int_readable_of_get; [discriminate | from_gets | eassumption].
  - eapply game_box_info_of_get; eassumption.
Qed.

Lemma location_data_of_Ok_shape (g : string) (p : pyval) (r : location_record) :
  location_data_of g p = Ok r ->
  int_of_str g = Some (lr_game_id r) /\ game_shape_ok p = true.
Proof.
  intros H. unfold location_data_of in H. rbind_inv H. injection H as <-.
  cbn [lr_game_id].
  split; [apply int_of_id_Some; assumption |].
  unfold game_shape_ok. repeat (apply andb_true_intro; split).
  - match goal with
    | Hif : (if truthy ?t then _ else _) = Ok ?z,
      Ht : py_get ?ven "id" PyNone = Ok ?t |- _ =>
        apply (venue_id_of_get p t z);
          [ from_gets
          | replace (get_path p ["gameData"; "venue"; "id"] (PyInt 0))
              with (py_get ven "id" (PyInt 0))
              by (cbn [get_path]; run_gets; reflexivity);
            exact Hif ]
    end.
  - eapply (readable_of_get _ p Unknown); [discriminate | from_gets].
  - eapply (readable_of_get _ p Unknown); [discriminate | from_gets].
  - eapply (readable_of_get _ p Unknown); [discriminate | from_gets].
  - eapply (readable_of_get _ p Unknown); [discriminate | from_gets].
  - eapply (readable_of_get _ p Unknown); [discriminate | from_gets].
  - eapply float_readable_of_get; [discriminate | from_gets | eassumption].
  - eapply float_readable_of_get; [discriminate | from_gets | eassumption].
  - eapply float_readable_of_get; [discriminate | from_gets | eassumption].
Qed.

(** C4, as the code has it: the transformers default what is missing, and
    do nothing about what is present and unreadable.  The transformer of
    [fetch_game_score] (resp. [fetch_game_location]) returns a record
    exactly when the game id is an integer literal and what is present in
    the payload is readable by it ([boxscore_shape_ok], resp.
    [game_shape_ok]); on every other payload it raises.  Whenever it
    returns, the record's [game_id] is [int()] of the identifier and every
    field whose path is missing holds its default: ["Unknown"], [0] or
    [0.0]. *)
Theorem missing_fields_take_defaults (game_id : string) (p : pyval) :
  (is_Ok (score_data_of game_id p) = true
   <-> (exists gid, int_of_str game_id = Some gid) /\ boxscore_shape_ok p = true)
  /\ (forall r,
        score_data_of game_id p = Ok r ->
        int_of_str game_id = Some (sr_game_id r)
        /\ (field_at ["home"; "teamStats"; "batting"; "runs"] p = Missing ->
            sr_home_score r = 0%Z)
        /\ (field_at ["away"; "teamStats"; "batting"; "runs"] p = Missing ->
            sr_away_score r = 0%Z)
        /\ (field_at ["teamInfo"; "home"; "teamName"] p = Missing ->
            sr_home_team r = PyStr "Unknown")
        /\ (field_at ["teamInfo"; "away"; "teamName"] p = Missing ->
            sr_away_team r = PyStr "Unknown")
        /\ (field_at ["teamInfo"; "home"; "id"] p = Missing -> sr_home_team_id r = 0%Z)
        /\ (field_at ["teamInfo"; "away"; "id"] p = Missing -> sr_away_team_id r = 0%Z)
        /\ (field_at ["gameBoxInfo"] p = Missing -> sr_game_time r = PyStr "Unknown"))
  /\ (is_Ok (location_data_of game_id p) = true
      <-> (exists gid, int_of_str game_id = Some gid) /\ game_shape_ok p = true)
  /\ (forall r,
        location_data_of game_id p = Ok r ->
        int_of_str game_id = Some (lr_game_id r)
        /\ (field_at ["gameData"; "venue"; "id"] p = Missing -> lr_venue_id r = 0%Z)
        /\ (field_at ["gameData"; "venue"; "name"] p = Missing ->
            lr_venue_name r = PyStr "Unknown")
        /\ (field_at ["gameData"; "venue"; "location"; "city"] p = Missing ->
            lr_venue_city r = PyStr "Unknown")
        /\ (field_at ["gameData"; "venue"; "location"; "state"] p = Missing ->
            lr_venue_state r = PyStr "Unknown")
        /\ (field_at ["gameData"; "venue"; "location"; "postalCode"] p = Missing ->
            lr_venue_postal_code r = PyStr "Unknown")
        /\ (field_at ["gameData"; "venue"; "location"; "country"] p = Missing ->
            lr_venue_country r = PyStr "Unknown")
        /\ (field_at ["gameData"; "venue"; "location"; "defaultCoordinates"; "latitude"] p
            = Missing -> lr_venue_latitude r = S754_zero false)
        /\ (field_at ["gameData"; "venue"; "location"; "defaultCoordinates"; "longitude"] p
            = Missing -> lr_venue_longitude r = S754_zero false)
        /\ (field_at ["gameData"; "venue"; "location"; "elevation"] p = Missing ->
            lr_venue_elevation r = S754_zero false)).
Proof.
  split; [| split; [| split]].
  - split.
    + intros H. destruct (score_data_of game_id p) as [r |] eqn:Hr; [| discriminate].
      apply score_data_of_Ok_shape in Hr. destruct Hr as [Hid Hshape]. eauto.
    + intros [(gid & Hid) Hshape].
      destruct (proj1 (readable_payload_defaults game_id gid p Hid) Hshape)
        as (r & -> & _).
      reflexivity.
  - intros r Hr.
    destruct (score_data_of_Ok_shape game_id p r Hr) as [Hid Hshape].
    destruct (proj1 (readable_payload_defaults game_id _ p Hid) Hshape)
      as (r' & Hr' & _ & Hrest).
    assert (r' = r) by congruence. subst r'. split; [exact Hid | exact Hrest].
  - split.
    + intros H. destruct (location_data_of game_id p) as [r |] eqn:Hr; [| discriminate].
      apply location_data_of_Ok_shape in Hr. destruct Hr as [Hid Hshape]. eauto.
    + intros [(gid & Hid) Hshape].
      destruct (proj2 (readable_payload_defaults game_id gid p Hid) Hshape)
        as (r & -> & _).
      reflexivity.
  - intros r Hr.
    destruct (location_data_of_Ok_shape game_id p r Hr) as [Hid Hshape].
    destruct (proj2 (readable_payload_defaults game_id _ p Hid) Hshape)
      as (r' & Hr' & _ & Hrest).
    assert (r' = r) by congruence. subst r'. split; [exact Hid | exact Hrest].
Qed.

(** ** The score differential *)

(** C9: whenever [fetch_game_score]'s transformer produces a record from a
    payload, the record's [home_score] and [away_score] are [int()] of the
    runs found in the payload at [home.teamStats.batting.runs] and
    [away.teamStats.batting.runs] ([0] where the path is missing), and its
    [score_differential] is the absolute difference of these two numbers,
    hence not negative. *)
Theorem score_differential_is_abs (game_id : string) (boxscore : pyval)
    (r : score_record) :
  score_data_of game_id boxscore = Ok r ->
  exists home away : Z,
    match field_at ["home"; "teamStats"; "batting"; "runs"] boxscore with
    | Missing => home = 0%Z
    | Found v => py_int v = Ok home
    | NotADict => False
    end
    /\ match field_at ["away"; "teamStats"; "batting"; "runs"] boxscore with
       | Missing => away = 0%Z
       | Found v => py_int v = Ok away
       | NotADict => False
       end
    /\ sr_home_score r = home
    /\ sr_away_score r = away
    /\ sr_score_differential r = Z.abs (home - away)
    /\ (0 <= sr_score_differential r)%Z.
Proof.
  intros H. unfold score_data_of in H. rbind_inv H. injection H as <-.
  cbn [sr_home_score sr_away_score sr_score_differential]. same_values.
  match goal with
  | |- exists home away, _ /\ _ /\ ?h = home /\ ?a = away /\ _ => exists h, a
  end.
  assert (Hfield : forall path val z,
             path <> [] ->
             get_path boxscore path (PyInt 0) = Ok val ->
             py_int val = Ok z ->
             match field_at path boxscore with
             | Missing => z = 0%Z
             | Found x => py_int x = Ok z
             | NotADict => False
             end).
  { intros path val z Hne Hg Hz. rewrite get_path_field_at in Hg by exact Hne.
    destruct (field_at path boxscore); [| | discriminate].
    - injection Hg as <-. simpl in Hz. congruence.
    - congruence. }
  repeat split.
  - eapply Hfield; [discriminate | from_gets | eassumption].
  - eapply Hfield; [discriminate | from_gets | eassumption].
  - apply Z.abs_nonneg.
Qed.

(** ** What touches the tables *)

Lemma same_tables_refl (w : world) : same_tables w w.
Proof. repeat split. Qed.

Lemma same_tables_trans (w1 w2 w3 : world) :
  same_tables w1 w2 -> same_tables w2 w3 -> same_tables w1 w3.
Proof.
  intros (H1 & H2 & H3) (K1 & K2 & K3). repeat split; congruence.
Qed.

Lemma same_tables_event (e : event) (w : world) : same_tables w (record_event e w).
Proof. repeat split. Qed.

Lemma keeps_ret {A} (a : A) : keeps_tables (ret a).
Proof. intros w. apply same_tables_refl. Qed.

Lemma keeps_raise {A} (e : exn) : keeps_tables (@raise A e).
Proof. intros w. apply same_tables_refl. Qed.

Lemma keeps_lift {A} (r : result A) : keeps_tables (lift r).
Proof. intros w. apply same_tables_refl. Qed.

Lemma keeps_tell (e : event) : keeps_tables (tell e).
Proof. intros w. apply same_tables_event. Qed.

Lemma keeps_bind {A B} (m : M A) (k : A -> M B) :
  keeps_tables m -> (forall a, keeps_tables (k a)) -> keeps_tables (bind m k).
Proof.
  intros Hm Hk w. unfold bind. specialize (Hm w).
  destruct (m w) as [[a | e] w1]; simpl in *.
  - eapply same_tables_trans; [exact Hm | apply Hk].
  - exact Hm.
Qed.

Lemma keeps_try_except {A} (m : M A) (h : exn -> M A) :
  keeps_tables m -> (forall e, keeps_tables (h e)) -> keeps_tables (try_except m h).
Proof.
  intros Hm Hh w. unfold try_except. specialize (Hm w).
  destruct (m w) as [[a | e] w1]; simpl in *.
  - exact Hm.
  - eapply same_tables_trans; [exact Hm | apply Hh].
Qed.

Lemma keeps_task_engine {A} (body : M A) :
  keeps_tables body ->
  forall n delays, keeps_tables (task_engine body delays n).
Proof.
  intros Hb. induction n as [| n IH]; intros delays w; simpl;
    pose proof (Hb w) as Hw; destruct (body w) as [[a | e] w1]; simpl in *;
    try exact Hw.
  eapply same_tables_trans; [exact Hw |].
  eapply same_tables_trans; [apply same_tables_event | apply IH].
Qed.

Lemma keeps_task {A} (retries : nat) (delay : nat -> list Z) (body : M A) :
  keeps_tables body -> keeps_tables (task retries delay body).
Proof. intros Hb. unfold task. apply keeps_task_engine, Hb. Qed.

Lemma keeps_fetch_each {R} (fetch : string -> M (option R)) (what : string) :
  (forall g, keeps_tables (fetch g)) ->
  forall ids acc, keeps_tables (fetch_each fetch what ids acc).
Proof.
  intros Hf. induction ids as [| g ids IH]; intros acc; simpl.
  - apply keeps_ret.
  - apply keeps_bind; [apply Hf |].
    intros [r |]; [| apply IH].
    apply keeps_bind; [apply keeps_tell | intros _; apply IH].
Qed.

Lemma keeps_fetch_game_score (g : string) : keeps_tables (fetch_game_score g).
Proof.
  apply keeps_task. unfold fetch_game_score_body.
  apply keeps_bind; [intros w; apply same_tables_event |].
  intros p. destruct (negb (truthy p)).
  - apply keeps_bind; [apply keeps_tell | intros _; apply keeps_ret].
  - apply keeps_bind; [apply keeps_lift | intros r; apply keeps_ret].
Qed.

Lemma keeps_fetch_game_location (g : string) : keeps_tables (fetch_game_location g).
Proof.
  apply keeps_task. unfold fetch_game_location_body.
  apply keeps_bind; [intros w; apply same_tables_event |].
  intros p. destruct (negb (truthy p)).
  - apply keeps_bind; [apply keeps_tell | intros _; apply keeps_ret].
  - apply keeps_bind; [apply keeps_lift | intros r; apply keeps_ret].
Qed.

Lemma keeps_get_recent_games_loop (start_date end_date : string) :
  forall team_ids acc,
    keeps_tables (get_recent_games_loop team_ids start_date end_date acc).
Proof.
  induction team_ids as [| t team_ids IH]; intros acc; simpl.
  - apply keeps_ret.
  - apply keeps_bind.
    + apply keeps_bind; [apply keeps_tell | intros _; apply keeps_lift].
    + intros sched. apply keeps_bind; [apply keeps_lift |].
      intros ids. apply keeps_bind; [apply keeps_tell | intros _; apply IH].
Qed.

Lemma keeps_get_recent_games (team_ids : list Z) (start_date end_date : string) :
  keeps_tables (get_recent_games team_ids start_date end_date).
Proof.
  apply keeps_task. apply keeps_bind; [apply keeps_get_recent_games_loop |].
  intros ids. apply keeps_ret.
Qed.

(** X1: the fetching half of the MLB pipeline reads only.  Whatever the
    endpoints answer, and whether the call returns or raises,
    [get_recent_games], [fetch_game_score], [fetch_game_location],
    [get_game_scores] and [get_game_locations_flow] leave the three
    tables exactly as they were. *)
Theorem fetching_never_writes (w : world) :
  (forall team_ids start_date end_date,
     same_tables w (snd (get_recent_games team_ids start_date end_date w)))
  /\ (forall game_id, same_tables w (snd (fetch_game_score game_id w)))
  /\ (forall game_id, same_tables w (snd (fetch_game_location game_id w)))
  /\ (forall game_ids, same_tables w (snd (get_game_scores game_ids w)))
  /\ (forall game_ids, same_tables w (snd (get_game_locations_flow game_ids w))).
Proof.
  repeat split;
    first [ apply keeps_get_recent_games
          | apply keeps_fetch_game_score
          | apply keeps_fetch_game_location
          | apply (keeps_fetch_each fetch_game_score "scores" keeps_fetch_game_score)
          | apply (keeps_fetch_each fetch_game_location "location data"
                     keeps_fetch_game_location) ].
Qed.

(** ** The warehouse tasks *)

Lemma setup_tables_ok (block_name : string) (w : world) :
  connector_load E block_name = Ok tt ->
  sql_fault E CreateGameScores = None ->
  sql_fault E CreateGameLocations = None ->
  exists w1,
    setup_tables block_name w = (Ok tt, w1)
    /\ GAME_SCORES w1 = Some (table_rows (GAME_SCORES w))
    /\ GAME_LOCATIONS w1 = Some (table_rows (GAME_LOCATIONS w))
    /\ elevation_data w1 = elevation_data w.
Proof.
  intros Hload Hs Hl. unfold setup_tables. rewrite task0_run.
  unfold try_except, load, execute, submit, logger_info, bind, tell, lift, ret.
  rewrite Hload, Hs, Hl. simpl.
  eexists. split; [reflexivity |]. simpl.
  destruct (GAME_SCORES w), (GAME_LOCATIONS w); auto.
Qed.

(** X2: [setup_tables] is safe to run on every run.  When the connector
    loads and accepts both statements, it returns, both tables exist
    afterwards with the rows they had (none if they were absent),
    [elevation_data] is not touched, and running it a second time changes
    no table. *)
Theorem setup_tables_is_idempotent (block_name : string) (w : world) :
  connector_load E block_name = Ok tt ->
  sql_fault E CreateGameScores = None ->
  sql_fault E CreateGameLocations = None ->
  fst (setup_tables block_name w) = Ok tt
  /\ GAME_SCORES (snd (setup_tables block_name w)) = Some (table_rows (GAME_SCORES w))
  /\ GAME_LOCATIONS (snd (setup_tables block_name w))
     = Some (table_rows (GAME_LOCATIONS w))
  /\ elevation_data (snd (setup_tables block_name w)) = elevation_data w
  /\ fst (setup_tables block_name (snd (setup_tables block_name w))) = Ok tt
  /\ same_tables (snd (setup_tables block_name w))
       (snd (setup_tables block_name (snd (setup_tables block_name w)))).
Proof.
  intros Hload Hs Hl.
  destruct (setup_tables_ok block_name w Hload Hs Hl) as (w1 & H1 & Hs1 & Hl1 & He1).
  destruct (setup_tables_ok block_name w1 Hload Hs Hl) as (w2 & H2 & Hs2 & Hl2 & He2).
  rewrite H1. simpl. rewrite H2. simpl.
  repeat split; try assumption.
  - rewrite Hs2, Hs1. reflexivity.
  - rewrite Hl2, Hl1. reflexivity.
Qed.

(** X3: [setup_tables] logs and re-raises.  When the connector cannot be
    loaded, the exception is logged and raised again, and no statement is
    submitted.  When the first statement is refused, the second is never
    submitted and no table changes.  When only the second is refused, the
    exception is raised with [GAME_SCORES] already created. *)
Theorem setup_tables_logs_and_reraises (block_name : string) (w : world) (e : exn) :
  (connector_load E block_name = Raise e ->
   setup_tables block_name w
   = (Raise e,
      record_event (EvLogError "Error setting up tables: " e)
        (record_event (EvLoad block_name) w)))
  /\ (connector_load E block_name = Ok tt ->
      sql_fault E CreateGameScores = Some e ->
      fst (setup_tables block_name w) = Raise e
      /\ trace (snd (setup_tables block_name w))
         = trace w ++ [EvLoad block_name; EvSql CreateGameScores 0;
                       EvLogError "Error setting up tables: " e]
      /\ same_tables w (snd (setup_tables block_name w)))
  /\ (connector_load E block_name = Ok tt ->
      sql_fault E CreateGameScores = None ->
      sql_fault E CreateGameLocations = Some e ->
      fst (setup_tables block_name w) = Raise e
      /\ GAME_SCORES (snd (setup_tables block_name w))
         = Some (table_rows (GAME_SCORES w))
      /\ GAME_LOCATIONS (snd (setup_tables block_name w)) = GAME_LOCATIONS w).
Proof.
  split; [| split].
  - intros Hload. unfold setup_tables. rewrite task0_run.
    unfold try_except, load, logger_error, raise, bind, tell, lift.
    rewrite Hload. reflexivity.
  - intros Hload Hs. unfold setup_tables. rewrite task0_run.
    unfold try_except, load, execute, submit, logger_error, raise, bind, tell, lift.
    rewrite Hload, Hs. simpl. rewrite <- !app_assoc. repeat split.
  - intros Hload Hs Hl. unfold setup_tables. rewrite task0_run.
    unfold try_except, load, execute, submit, logger_info, logger_error, raise, bind,
      tell, lift, ret.
    rewrite Hload, Hs, Hl. simpl. destruct (GAME_SCORES w); auto.
Qed.

Lemma insert_game_scores_ok (game_scores t : list score_record)
    (block_name : string) (w : world) :
  connector_load E block_name = Ok tt ->
  sql_fault E InsertGameScores = None ->
  GAME_SCORES w = Some t ->
  exists w1,
    insert_game_scores game_scores block_name w = (Ok tt, w1)
    /\ GAME_SCORES w1 = Some (t ++ game_scores)
    /\ GAME_LOCATIONS w1 = GAME_LOCATIONS w
    /\ elevation_data w1 = elevation_data w.
Proof.
  intros Hload Hf Ht. unfold insert_game_scores. rewrite task0_run.
  destruct game_scores as [| r rest].
  - eexists. split; [reflexivity |]. simpl. rewrite app_nil_r. auto.
  - unfold try_except, load, execute_many_scores, submit, logger_info, bind, tell,
      lift, ret.
    rewrite Hload, Hf. simpl. rewrite Ht.
    eexists. split; [reflexivity |]. simpl. auto.
Qed.

Lemma insert_game_locations_ok (game_locations t : list location_record)
    (block_name : string) (w : world) :
  connector_load E block_name = Ok tt ->
  sql_fault E InsertGameLocations = None ->
  GAME_LOCATIONS w = Some t ->
  exists w1,
    insert_game_locations game_locations block_name w = (Ok tt, w1)
    /\ GAME_SCORES w1 = GAME_SCORES w
    /\ GAME_LOCATIONS w1 = Some (t ++ game_locations)
    /\ elevation_data w1 = elevation_data w.
Proof.
  intros Hload Hf Ht. unfold insert_game_locations. rewrite task0_run.
  destruct game_locations as [| r rest].
  - eexists. split; [reflexivity |]. simpl. rewrite app_nil_r. auto.
  - unfold try_except, load, execute_many_locations, submit, logger_info, bind, tell,
      lift, ret.
    rewrite Hload, Hf. simpl. rewrite Ht.
    eexists. split; [reflexivity |]. simpl. auto.
Qed.

(** X4: a batch that is accepted is appended whole and in order.  When the
    connector loads, the insert is accepted and the table exists,
    [insert_game_scores] (resp. [insert_game_locations]) returns, its
    table holds the old rows followed by the batch, and the two other
    tables are unchanged. *)
Theorem insert_appends_the_batch (block_name : string) (w : world) :
  connector_load E block_name = Ok tt ->
  (forall game_scores t,
     sql_fault E InsertGameScores = None ->
     GAME_SCORES w = Some t ->
     fst (insert_game_scores game_scores block_name w) = Ok tt
     /\ GAME_SCORES (snd (insert_game_scores game_scores block_name w))
        = Some (t ++ game_scores)
     /\ GAME_LOCATIONS (snd (insert_game_scores game_scores block_name w))
        = GAME_LOCATIONS w
     /\ elevation_data (snd (insert_game_scores game_scores block_name w))
        = elevation_data w)
  /\ (forall game_locations t,
        sql_fault E InsertGameLocations = None ->
        GAME_LOCATIONS w = Some t ->
        fst (insert_game_locations game_locations block_name w) = Ok tt
        /\ GAME_LOCATIONS (snd (insert_game_locations game_locations block_name w))
           = Some (t ++ game_locations)
        /\ GAME_SCORES (snd (insert_game_locations game_locations block_name w))
           = GAME_SCORES w
        /\ elevation_data (snd (insert_game_locations game_locations block_name w))
           = elevation_data w).
Proof.
  intros Hload. split.
  - intros game_scores t Hf Ht.
    destruct (insert_game_scores_ok game_scores t block_name w Hload Hf Ht)
      as (w1 & -> & Hs & Hl & He). auto.
  - intros game_locations t Hf Ht.
    destruct (insert_game_locations_ok game_locations t block_name w Hload Hf Ht)
      as (w1 & -> & Hs & Hl & He). auto.
Qed.

(** X5: a failed insert is logged and re-raised, and writes nothing.  For
    a batch that is not empty: when the connector cannot be loaded, or the
    statement is refused, [insert_game_scores] (resp.
    [insert_game_locations]) raises that same exception, the last thing it
    did was to log it, and no table has changed. *)
Theorem insert_failure_is_logged_and_reraised (block_name : string) (w : world)
    (e : exn) :
  (forall r rest,
     connector_load E block_name = Raise e
     \/ (connector_load E block_name = Ok tt /\ sql_fault E InsertGameScores = Some e) ->
     fst (insert_game_scores (r :: rest) block_name w) = Raise e
     /\ last (trace (snd (insert_game_scores (r :: rest) block_name w)))
        = Some (EvLogError "Failed to insert game scores: " e)
     /\ same_tables w (snd (insert_game_scores (r :: rest) block_name w)))
  /\ (forall r rest,
        connector_load E block_name = Raise e
        \/ (connector_load E block_name = Ok tt
            /\ sql_fault E InsertGameLocations = Some e) ->
        fst (insert_game_locations (r :: rest) block_name w) = Raise e
        /\ last (trace (snd (insert_game_locations (r :: rest) block_name w)))
           = Some (EvLogError "Failed to insert game locations: " e)
        /\ same_tables w (snd (insert_game_locations (r :: rest) block_name w))).
Proof.
  split; intros r rest [Hload | [Hload Hf]].
  - unfold insert_game_scores. rewrite task0_run.
    unfold try_except, load, logger_error, raise, bind, tell, lift.
    rewrite Hload. simpl. rewrite last_snoc. repeat split.
  - unfold insert_game_scores. rewrite task0_run.
    unfold try_except, load, execute_many_scores, submit, logger_error, raise, bind,
      tell, lift.
    rewrite Hload, Hf. simpl. rewrite last_snoc. repeat split.
  - unfold insert_game_locations. rewrite task0_run.
    unfold try_except, load, logger_error, raise, bind, tell, lift.
    rewrite Hload. simpl. rewrite last_snoc. repeat split.
  - unfold insert_game_locations. rewrite task0_run.
    unfold try_except, load, execute_many_locations, submit, logger_error, raise, bind,
      tell, lift.
    rewrite Hload, Hf. simpl. rewrite last_snoc. repeat split.
Qed.

(** ** The MLB flow, end to end *)

Lemma insert_game_locations_refused (r : location_record) (rest : list location_record)
    (block_name : string) (w : world) (e : exn) :
  connector_load E block_name = Ok tt ->
  sql_fault E InsertGameLocations = Some e ->
  exists w1,
    insert_game_locations (r :: rest) block_name w = (Raise e, w1)
    /\ same_tables w w1.
Proof.
  intros Hload Hf. unfold insert_game_locations. rewrite task0_run.
  unfold try_except, load, execute_many_locations, submit, logger_error, raise, bind,
    tell, lift.
  rewrite Hload, Hf. simpl. eexists. split; [reflexivity | repeat split].
Qed.

Lemma tables_after_fetching (team_ids : list Z) (start_date end_date : string)
    (w1 w2 w3 w4 : world) (ids : list string) (scores : list score_record)
    (locations : list location_record) :
  get_recent_games team_ids start_date end_date w1 = (Ok ids, w2) ->
  get_game_scores ids w2 = (Ok scores, w3) ->
  get_game_locations_flow ids w3 = (Ok locations, w4) ->
  same_tables w1 w4.
Proof.
  intros H2 H3 H4.
  pose proof (keeps_get_recent_games team_ids start_date end_date w1) as K2.
  pose proof (keeps_fetch_each fetch_game_score "scores" keeps_fetch_game_score
                ids [] w2) as K3.
  pose proof (keeps_fetch_each fetch_game_location "location data"
                keeps_fetch_game_location ids [] w3) as K4.
  unfold get_game_scores in H3. unfold get_game_locations_flow in H4.
  rewrite H2 in K2. rewrite H3 in K3. rewrite H4 in K4. simpl in *.
  eapply same_tables_trans; [exact K2 |].
  eapply same_tables_trans; [exact K3 | exact K4].
Qed.

(** X6: [mlb_simple_flow] loads exactly what its orchestrators returned.
    When the connector loads and accepts the four statements, and the
    listing and the two orchestrators return, the flow returns, and
    [GAME_SCORES] (resp. [GAME_LOCATIONS]) holds the rows it had followed
    by the records of [get_game_scores] (resp.
    [get_game_locations_flow]), in their order; [elevation_data] is not
    touched. *)
Theorem mlb_simple_flow_loads_what_was_fetched (team_ids : list Z)
    (start_date end_date block_name : string) (w w2 w3 w4 : world)
    (ids : list string) (scores : list score_record)
    (locations : list location_record) :
  connector_load E block_name = Ok tt ->
  sql_fault E CreateGameScores = None ->
  sql_fault E CreateGameLocations = None ->
  sql_fault E InsertGameScores = None ->
  sql_fault E InsertGameLocations = None ->
  get_recent_games team_ids start_date end_date (snd (setup_tables block_name w))
    = (Ok ids, w2) ->
  get_game_scores ids w2 = (Ok scores, w3) ->
  get_game_locations_flow ids w3 = (Ok locations, w4) ->
  fst (mlb_simple_flow team_ids start_date end_date block_name w) = Ok tt
  /\ GAME_SCORES (snd (mlb_simple_flow team_ids start_date end_date block_name w))
     = Some (table_rows (GAME_SCORES w) ++ scores)
  /\ GAME_LOCATIONS (snd (mlb_simple_flow team_ids start_date end_date block_name w))
     = Some (table_rows (GAME_LOCATIONS w) ++ locations)
  /\ elevation_data (snd (mlb_simple_flow team_ids start_date end_date block_name w))
     = elevation_data w.
Proof.
  intros Hload Hcs Hcl His Hil H2 H3 H4.
  destruct (setup_tables_ok block_name w Hload Hcs Hcl) as (w1 & H1 & Hs1 & Hl1 & He1).
  rewrite H1 in H2. simpl in H2.
  destruct (tables_after_fetching _ _ _ _ _ _ _ _ _ _ H2 H3 H4) as (Ks & Kl & Ke).
  destruct (insert_game_scores_ok scores (table_rows (GAME_SCORES w)) block_name w4
              Hload His ltac:(congruence)) as (w5 & H5 & Hs5 & Hl5 & He5).
  destruct (insert_game_locations_ok locations (table_rows (GAME_LOCATIONS w))
              block_name w5 Hload Hil ltac:(congruence)) as (w6 & H6 & Hs6 & Hl6 & He6).
  unfold mlb_simple_flow.
  rewrite (bind_Ok _ _ _ _ _ H1), (bind_Ok _ _ _ _ _ H2), (bind_Ok _ _ _ _ _ H3),
    (bind_Ok _ _ _ _ _ H4), (bind_Ok _ _ _ _ _ H5), (bind_Ok _ _ _ _ _ H6).
  simpl. repeat split; congruence.
Qed.

(** X7: the two inserts of [mlb_simple_flow] are not one transaction.
    With everything as in X6 except that the warehouse refuses the
    locations insert, and at least one location was fetched, the flow
    raises that exception with the scores already loaded and no location
    row added. *)
Theorem mlb_simple_flow_can_load_scores_only (team_ids : list Z)
    (start_date end_date block_name : string) (w w2 w3 w4 : world)
    (ids : list string) (scores : list score_record)
    (location : location_record) (locations : list location_record) (e : exn) :
  connector_load E block_name = Ok tt ->
  sql_fault E CreateGameScores = None ->
  sql_fault E CreateGameLocations = None ->
  sql_fault E InsertGameScores = None ->
  sql_fault E InsertGameLocations = Some e ->
  get_recent_games team_ids start_date end_date (snd (setup_tables block_name w))
    = (Ok ids, w2) ->
  get_game_scores ids w2 = (Ok scores, w3) ->
  get_game_locations_flow ids w3 = (Ok (location :: locations), w4) ->
  fst (mlb_simple_flow team_ids start_date end_date block_name w) = Raise e
  /\ GAME_SCORES (snd (mlb_simple_flow team_ids start_date end_date block_name w))
     = Some (table_rows (GAME_SCORES w) ++ scores)
  /\ GAME_LOCATIONS (snd (mlb_simple_flow team_ids start_date end_date block_name w))
     = Some (table_rows (GAME_LOCATIONS w)).
Proof.
  intros Hload Hcs Hcl His Hil H2 H3 H4.
  destruct (setup_tables_ok block_name w Hload Hcs Hcl) as (w1 & H1 & Hs1 & Hl1 & He1).
  rewrite H1 in H2. simpl in H2.
  destruct (tables_after_fetching _ _ _ _ _ _ _ _ _ _ H2 H3 H4) as (Ks & Kl & Ke).
  destruct (insert_game_scores_ok scores (table_rows (GAME_SCORES w)) block_name w4
              Hload His ltac:(congruence)) as (w5 & H5 & Hs5 & Hl5 & He5).
  destruct (insert_game_locations_refused location locations block_name w5 e Hload Hil)
    as (w6 & H6 & Ks6 & Kl6 & Ke6).
  unfold mlb_simple_flow.
  rewrite (bind_Ok _ _ _ _ _ H1), (bind_Ok _ _ _ _ _ H2), (bind_Ok _ _ _ _ _ H3),
    (bind_Ok _ _ _ _ _ H4), (bind_Ok _ _ _ _ _ H5), (bind_Raise _ _ _ _ _ H6).
  simpl. repeat split; congruence.
Qed.

(** ** More on the fetch tasks *)

Lemma score_body_transform_raises (g : string) (i : nat) (p : pyval) (e : exn) :
  statsapi_boxscore_data E g i = Ok p ->
  truthy p = true ->
  score_data_of g p = Raise e ->
  raises_at (fetch_game_score_body g) (score_attempts g) i e.
Proof.
  intros Ho Ht Hr w Hw. exists (record_event (EvBoxscore g) w). split.
  - unfold fetch_game_score_body, bind, boxscore_data, lift.
    rewrite Hw, Ho, Ht. simpl. rewrite Hr. reflexivity.
  - rewrite score_attempts_call. lia.
Qed.

Lemma location_body_transform_raises (g : string) (i : nat) (p : pyval) (e : exn) :
  statsapi_get_game E g i = Ok p ->
  truthy p = true ->
  location_data_of g p = Raise e ->
  raises_at (fetch_game_location_body g) (location_attempts g) i e.
Proof.
  intros Ho Ht Hr w Hw. exists (record_event (EvGame g) w). split.
  - unfold fetch_game_location_body, bind, get_game, lift.
    rewrite Hw, Ho, Ht. simpl. rewrite Hr. reflexivity.
  - rewrite location_attempts_call. lia.
Qed.

(** X8: a payload the transformer rejects is retried like a network
    failure.  The transformer runs inside the retried task body: when the
    endpoint answers every call with a non-empty payload on which the
    transformer raises, [fetch_game_score] (resp. [fetch_game_location])
    calls the endpoint 6 times and then raises the transformer's last
    exception. *)
Theorem malformed_payload_is_retried (game_id : string) (w : world)
    (payload : nat -> pyval) (err : nat -> exn) :
  (forall n, truthy (payload n) = true) ->
  ((forall n, statsapi_boxscore_data E game_id n = Ok (payload n)) ->
   (forall n, score_data_of game_id (payload n) = Raise (err n)) ->
   exists w',
     fetch_game_score game_id w = (Raise (err (score_attempts game_id w + 5)), w')
     /\ score_attempts game_id w' = score_attempts game_id w + 6)
  /\ ((forall n, statsapi_get_game E game_id n = Ok (payload n)) ->
      (forall n, location_data_of game_id (payload n) = Raise (err n)) ->
      exists w',
        fetch_game_location game_id w
        = (Raise (err (location_attempts game_id w + 5)), w')
        /\ location_attempts game_id w' = location_attempts game_id w + 6).
Proof.
  intros Ht. split; intros Ho Hr.
  - unfold fetch_game_score, task.
    apply (task_engine_raises (fetch_game_score_body game_id) (score_attempts game_id)
             (score_attempts_sleep game_id) 5
             (fun i => err (score_attempts game_id w + i))).
    intros i _. eapply score_body_transform_raises; [apply Ho | apply Ht | apply Hr].
  - unfold fetch_game_location, task.
    apply (task_engine_raises (fetch_game_location_body game_id)
             (location_attempts game_id) (location_attempts_sleep game_id) 5
             (fun i => err (location_attempts game_id w + i))).
    intros i _. eapply location_body_transform_raises; [apply Ho | apply Ht | apply Hr].
Qed.

(** ** What the orchestrators return *)

Lemma fetch_each_omap {R} (fetch : string -> M (option R)) (what : string)
    (record : string -> option R) :
  forall ids acc w,
    (forall g, In g ids -> forall w0, exists w1, fetch g w0 = (Ok (record g), w1)) ->
    fst (fetch_each fetch what ids acc w) = Ok (acc ++ omap record ids).
Proof.
  induction ids as [| g ids IH]; intros acc w Hall; simpl.
  - rewrite app_nil_r. reflexivity.
  - destruct (Hall g (or_introl eq_refl) w) as (w1 & Hf).
    rewrite (bind_Ok _ _ _ _ _ Hf).
    assert (Hrest : forall g0, In g0 ids ->
                      forall w0, exists w2, fetch g0 w0 = (Ok (record g0), w2))
      by (intros g0 H0; apply Hall; right; exact H0).
    destruct (record g) as [r |].
    + unfold bind, print, tell at 1. rewrite IH by exact Hrest.
      rewrite <- app_assoc. reflexivity.
    + apply IH, Hrest.
Qed.

Lemma fetch_game_score_answered (g : string) (record : option score_record) :
  (forall n, exists p,
     statsapi_boxscore_data E g n = Ok p
     /\ if truthy p then exists r, score_data_of g p = Ok r /\ record = Some r
        else record = None) ->
  forall w, exists w', fetch_game_score g w = (Ok record, w').
Proof.
  intros Hans w. destruct (Hans (score_attempts g w)) as (p & Ho & Hp).
  unfold fetch_game_score, task. simpl.
  unfold fetch_game_score_body, bind, boxscore_data, lift, ret, print, tell.
  rewrite Ho. destruct (truthy p); simpl.
  - destruct Hp as (r & -> & ->). eauto.
  - subst record. eauto.
Qed.

Lemma fetch_game_location_answered (g : string) (record : option location_record) :
  (forall n, exists p,
     statsapi_get_game E g n = Ok p
     /\ if truthy p then exists r, location_data_of g p = Ok r /\ record = Some r
        else record = None) ->
  forall w, exists w', fetch_game_location g w = (Ok record, w').
Proof.
  intros Hans w. destruct (Hans (location_attempts g w)) as (p & Ho & Hp).
  unfold fetch_game_location, task. simpl.
  unfold fetch_game_location_body, bind, get_game, lift, ret, print, tell.
  rewrite Ho. destruct (truthy p); simpl.
  - destruct Hp as (r & -> & ->). eauto.
  - subst record. eauto.
Qed.

(** X9: the orchestrators return the records in the order of the
    identifiers, the empty ones left out.  When every call for each
    identifier is answered with a payload that is either empty or
    transformed into that identifier's record, [get_game_scores] (resp.
    [get_game_locations_flow]) returns the list of those records, one per
    non-empty identifier, in input order, repeated identifiers
    included. *)
Theorem records_follow_the_identifiers (game_ids : list string) (w : world) :
  (forall record : string -> option score_record,
     (forall g, g ∈ game_ids ->
        forall n, exists p,
          statsapi_boxscore_data E g n = Ok p
          /\ if truthy p then exists r, score_data_of g p = Ok r /\ record g = Some r
             else record g = None) ->
     fst (get_game_scores game_ids w) = Ok (omap record game_ids))
  /\ (forall record : string -> option location_record,
        (forall g, g ∈ game_ids ->
           forall n, exists p,
             statsapi_get_game E g n = Ok p
             /\ if truthy p
                then exists r, location_data_of g p = Ok r /\ record g = Some r
                else record g = None) ->
        fst (get_game_locations_flow game_ids w) = Ok (omap record game_ids)).
Proof.
  split; intros record Hans.
  - unfold get_game_scores.
    rewrite (fetch_each_omap fetch_game_score "scores" record game_ids [] w);
      [reflexivity |].
    intros g Hg. apply fetch_game_score_answered, Hans, list_elem_of_In, Hg.
  - unfold get_game_locations_flow.
    rewrite (fetch_each_omap fetch_game_location "location data" record game_ids [] w);
      [reflexivity |].
    intros g Hg. apply fetch_game_location_answered, Hans, list_elem_of_In, Hg.
Qed.

(** X10: the orchestrator does not deduplicate.  When every call is
    answered, [get_game_scores] calls the boxscore endpoint once for each
    occurrence of an identifier in its list: an identifier listed [c]
    times is fetched [c] times, one not listed is not fetched. *)
Theorem orchestrator_fetches_every_occurrence (game_ids : list string) (w : world) :
  (forall g, g ∈ game_ids -> boxscore_answers g) ->
  exists scores w',
    get_game_scores game_ids w = (Ok scores, w')
    /\ forall g, score_attempts g w'
                 = score_attempts g w + count_occ string_dec game_ids g.
Proof.
  intros Hans. unfold get_game_scores.
  apply (fetch_each_counts fetch_game_score "scores" score_attempts
           (fun g msg w0 => eq_trans (score_attempts_event g (EvPrint msg) w0)
                                     (Nat.add_0_r _))).
  intros g Hg. apply fetch_game_score_once, Hans, list_elem_of_In, Hg.
Qed.

Lemma task_engine_Ok_inv {A} (body : M A) (a : A) :
  forall n delays w w',
    task_engine body delays n w = (Ok a, w') ->
    exists w0, body w0 = (Ok a, w').
Proof.
  induction n as [| n IH]; intros delays w w' H; simpl in H;
    destruct (body w) as [[x | e] w1] eqn:Hb.
  - exists w. congruence.
  - discriminate.
  - exists w. congruence.
  - eapply IH. exact H.
Qed.

Lemma score_data_of_game_id (g : string) (p : pyval) (r : score_record) :
  score_data_of g p = Ok r -> int_of_str g = Some (sr_game_id r).
Proof.
  intros H. unfold score_data_of in H. rbind_inv H. injection H as <-. simpl.
  match goal with
  | Hid : int_of_id g = Ok ?z |- _ =>
      unfold int_of_id in Hid; destruct (int_of_str g); [congruence | discriminate]
  end.
Qed.

Lemma location_data_of_game_id (g : string) (p : pyval) (r : location_record) :
  location_data_of g p = Ok r -> int_of_str g = Some (lr_game_id r).
Proof.
  intros H. unfold location_data_of in H. rbind_inv H. injection H as <-. simpl.
  match goal with
  | Hid : int_of_id g = Ok ?z |- _ =>
      unfold int_of_id in Hid; destruct (int_of_str g); [congruence | discriminate]
  end.
Qed.

Lemma fetch_game_score_Some_inv (g : string) (r : score_record) (w w' : world) :
  fetch_game_score g w = (Ok (Some r), w') -> exists p, score_data_of g p = Ok r.
Proof.
  intros H. apply task_engine_Ok_inv in H. destruct H as (w0 & H).
  unfold fetch_game_score_body, bind, boxscore_data, lift, ret, print, tell in H.
  destruct (statsapi_boxscore_data E g (score_attempts g w0)) as [p | e];
    [| discriminate].
  destruct (negb (truthy p)); [discriminate |].
  exists p. destruct (score_data_of g p); [congruence | discriminate].
Qed.

Lemma fetch_game_location_Some_inv (g : string) (r : location_record) (w w' : world) :
  fetch_game_location g w = (Ok (Some r), w') -> exists p, location_data_of g p = Ok r.
Proof.
  intros H. apply task_engine_Ok_inv in H. destruct H as (w0 & H).
  unfold fetch_game_location_body, bind, get_game, lift, ret, print, tell in H.
  destruct (statsapi_get_game E g (location_attempts g w0)) as [p | e];
    [| discriminate].
  destruct (negb (truthy p)); [discriminate |].
  exists p. destruct (location_data_of g p); [congruence | discriminate].
Qed.

Lemma fetch_each_Ok_inv {R} (fetch : string -> M (option R)) (what : string)
    (P : string -> R -> Prop) :
  (forall g r w w', fetch g w = (Ok (Some r), w') -> P g r) ->
  forall ids acc w recs w',
    fetch_each fetch what ids acc w = (Ok recs, w') ->
    exists kept new,
      recs = acc ++ new
      /\ kept `sublist_of` ids
      /\ Forall2 P kept new.
Proof.
  intros HP. induction ids as [| g ids IH]; intros acc w recs w' H; simpl in H.
  - injection H as <- _. exists [], []. rewrite app_nil_r.
    split; [reflexivity | split; constructor].
  - apply bind_Ok_inv in H. destruct H as (d & w1 & Hf & H).
    destruct d as [r |].
    + apply bind_Ok_inv in H. destruct H as (u & w2 & _ & H).
      apply IH in H. destruct H as (kept & new & -> & Hsub & Hall).
      exists (g :: kept), (r :: new). rewrite <- app_assoc.
      split; [reflexivity | split].
      * apply sublist_skip, Hsub.
      * constructor; [eapply HP; exact Hf | exact Hall].
    + apply IH in H. destruct H as (kept & new & -> & Hsub & Hall).
      exists kept, new. split; [reflexivity | split; [| exact Hall]].
      apply sublist_cons, Hsub.
Qed.

(** X11: every record an orchestrator returns belongs to an identifier it
    was given.  Whatever the endpoints do, when [get_game_scores] (resp.
    [get_game_locations_flow]) returns, its records answer, one for one
    and in order, the identifiers of a sub-sequence of its list: there is
    at most one record per listed occurrence of an identifier, and the
    [game_id] of each record is [int()] of its identifier. *)
Theorem records_belong_to_listed_identifiers (game_ids : list string) (w w' : world) :
  (forall scores,
     get_game_scores game_ids w = (Ok scores, w') ->
     exists kept,
       kept `sublist_of` game_ids
       /\ Forall2 (fun g r => int_of_str g = Some (sr_game_id r)) kept scores)
  /\ (forall locations,
        get_game_locations_flow game_ids w = (Ok locations, w') ->
        exists kept,
          kept `sublist_of` game_ids
          /\ Forall2 (fun g r => int_of_str g = Some (lr_game_id r)) kept locations).
Proof.
  split; intros recs H.
  - unfold get_game_scores in H.
    apply (fetch_each_Ok_inv fetch_game_score "scores"
             (fun g r => int_of_str g = Some (sr_game_id r))) in H.
    + destruct H as (kept & new & -> & Hsub & Hall). exists kept. auto.
    + intros g r w0 w1 Hf. apply fetch_game_score_Some_inv in Hf.
      destruct Hf as (p & Hp). eapply score_data_of_game_id, Hp.
  - unfold get_game_locations_flow in H.
    apply (fetch_each_Ok_inv fetch_game_location "location data"
             (fun g r => int_of_str g = Some (lr_game_id r))) in H.
    + destruct H as (kept & new & -> & Hsub & Hall). exists kept. auto.
    + intros g r w0 w1 Hf. apply fetch_game_location_Some_inv in Hf.
      destruct Hf as (p & Hp). eapply location_data_of_game_id, Hp.
Qed.

(** ** What the transformers carry over *)

Lemma time_value_of_first_T (before after : list pyval) (d : list (string * pyval)) :
  forallb other_label before = true ->
  dict_lookup "label" d = Some (PyStr "T") ->
  time_value_of (before ++ PyDict d :: after)
  = Ok (match dict_lookup "value" d with Some v => v | None => PyStr "Unknown" end).
Proof.
  intros Hb Hl. induction before as [| item before IH]; simpl in *.
  - rewrite Hl. reflexivity.
  - apply andb_prop in Hb. destruct Hb as [Hi Hb].
    destruct item; try discriminate. simpl in *.
    destruct (dict_lookup "label" items) as [v |]; simpl.
    + apply negb_true_iff in Hi. rewrite Hi. apply IH, Hb.
    + apply IH, Hb.
Qed.

Lemma time_value_of_no_T (items : list pyval) :
  forallb other_label items = true -> time_value_of items = Ok (PyStr "Unknown").
Proof.
  intros Hb. induction items as [| item items IH]; simpl in *; [reflexivity |].
  apply andb_prop in Hb. destruct Hb as [Hi Hb].
  destruct item; try discriminate. simpl in *.
  destruct (dict_lookup "label" items0) as [v |]; simpl.
  - apply negb_true_iff in Hi. rewrite Hi. apply IH, Hb.
  - apply IH, Hb.
Qed.

Lemma score_data_of_game_time (g : string) (p : pyval) (r : score_record) :
  score_data_of g p = Ok r ->
  exists info items,
    py_get p "gameBoxInfo" (PyList []) = Ok info
    /\ py_iter info = Ok items
    /\ time_value_of items = Ok (sr_game_time r).
Proof.
  intros H. unfold score_data_of in H. rbind_inv H. injection H as <-. simpl.
  eauto.
Qed.

(** X12: the game time is read from the first [gameBoxInfo] item labelled
    ["T"], and the items after it are not looked at.  When the transformer
    of [fetch_game_score] returns a record for a payload whose
    [gameBoxInfo] list starts with dicts not labelled ["T"] followed by a
    dict labelled ["T"], the record's [game_time] is that dict's
    ["value"], or ["Unknown"] if it has none, whatever comes after it in
    the list; and when every item is a dict not labelled ["T"], it is
    ["Unknown"]. *)
Theorem game_time_is_the_first_T (game_id : string) (p : pyval) (r : score_record)
    (before after : list pyval) (d : list (string * pyval)) :
  score_data_of game_id p = Ok r ->
  forallb other_label before = true ->
  (field_at ["gameBoxInfo"] p = Found (PyList (before ++ PyDict d :: after)) ->
   dict_lookup "label" d = Some (PyStr "T") ->
   sr_game_time r
   = match dict_lookup "value" d with Some v => v | None => PyStr "Unknown" end)
  /\ (field_at ["gameBoxInfo"] p = Found (PyList before) ->
      sr_game_time r = PyStr "Unknown").
Proof.
  intros H Hb.
  destruct (score_data_of_game_time game_id p r H) as (info & items & Hinfo & Hit & Ht).
  assert (Hfield : forall l, field_at ["gameBoxInfo"] p = Found (PyList l) -> items = l).
  { intros l Hf. destruct p; try discriminate. cbn [field_at py_get] in *.
    destruct (dict_lookup "gameBoxInfo" items0); [| discriminate].
    injection Hf as ->. injection Hinfo as <-. simpl in Hit. congruence. }
  split.
  - intros Hf Hl. apply Hfield in Hf. subst items.
    rewrite (time_value_of_first_T before after d Hb Hl) in Ht. congruence.
  - intros Hf. apply Hfield in Hf. subst items.
    rewrite (time_value_of_no_T before Hb) in Ht. congruence.
Qed.

Lemma int_field_spec (path : list string) (p v : pyval) (z : Z) :
  path <> [] ->
  get_path p path (PyInt 0) = Ok v ->
  py_int v = Ok z ->
  match field_at path p with
  | Missing => z = 0%Z
  | Found x => py_int x = Ok z
  | NotADict => False
  end.
Proof.
  intros Hne Hg Hz. rewrite get_path_field_at in Hg by exact Hne.
  destruct (field_at path p); [| | discriminate].
  - injection Hg as <-. simpl in Hz. congruence.
  - congruence.
Qed.

Lemma float_field_spec (path : list string) (p v : pyval) (f : spec_float) :
  path <> [] ->
  get_path p path (PyFloat float_zero) = Ok v ->
  py_float v = Ok f ->
  match field_at path p with
  | Missing => f = S754_zero false
  | Found x => py_float x = Ok f
  | NotADict => False
  end.
Proof.
  intros Hne Hg Hf. rewrite get_path_field_at in Hg by exact Hne.
  destruct (field_at path p); [| | discriminate].
  - injection Hg as <-. simpl in Hf. unfold float_zero in Hf. congruence.
  - congruence.
Qed.

Lemma any_field_spec (path : list string) (p default v : pyval) :
  path <> [] ->
  get_path p path default = Ok v ->
  match field_at path p with
  | Missing => v = default
  | Found x => v = x
  | NotADict => False
  end.
Proof.
  intros Hne Hg. rewrite get_path_field_at in Hg by exact Hne.
  destruct (field_at path p); [| | discriminate]; congruence.
Qed.

Ltac by_gets := cbn [get_path]; run_gets; eassumption.

(** X13: what [fetch_game_score]'s transformer returns is read off the
    payload field by field.  Whenever it returns a record, no path it reads
    runs into a value that is not a dict; each score and team id is
    [int()] of the value found at its path, or [0] if the path is missing;
    each team name is the value found, as it is, or ["Unknown"]. *)
Theorem score_record_reads_the_payload (game_id : string) (p : pyval)
    (r : score_record) :
  score_data_of game_id p = Ok r ->
  match field_at ["home"; "teamStats"; "batting"; "runs"] p with
  | Missing => sr_home_score r = 0%Z
  | Found v => py_int v = Ok (sr_home_score r)
  | NotADict => False
  end
  /\ match field_at ["away"; "teamStats"; "batting"; "runs"] p with
     | Missing => sr_away_score r = 0%Z
     | Found v => py_int v = Ok (sr_away_score r)
     | NotADict => False
     end
  /\ match field_at ["teamInfo"; "home"; "id"] p with
     | Missing => sr_home_team_id r = 0%Z
     | Found v => py_int v = Ok (sr_home_team_id r)
     | NotADict => False
     end
  /\ match field_at ["teamInfo"; "away"; "id"] p with
     | Missing => sr_away_team_id r = 0%Z
     | Found v => py_int v = Ok (sr_away_team_id r)
     | NotADict => False
     end
  /\ match field_at ["teamInfo"; "home"; "teamName"] p with
     | Missing => sr_home_team r = PyStr "Unknown"
     | Found v => sr_home_team r = v
     | NotADict => False
     end
  /\ match field_at ["teamInfo"; "away"; "teamName"] p with
     | Missing => sr_away_team r = PyStr "Unknown"
     | Found v => sr_away_team r = v
     | NotADict => False
     end.
Proof.
  intros H. unfold score_data_of in H. rbind_inv H. injection H as <-.
  cbn [sr_home_score sr_away_score sr_home_team_id sr_away_team_id sr_home_team
         sr_away_team].
  same_values. repeat split.
  - eapply int_field_spec; [discriminate | by_gets | eassumption].
  - eapply int_field_spec; [discriminate | by_gets | eassumption].
  - eapply int_field_spec; [discriminate | by_gets | eassumption].
  - eapply int_field_spec; [discriminate | by_gets | eassumption].
  - eapply (any_field_spec _ p Unknown); [discriminate | by_gets].
  - eapply (any_field_spec _ p Unknown); [discriminate | by_gets].
Qed.

Lemma venue_id_field_spec (path : list string) (p t : pyval) (z : Z) :
  path <> [] ->
  get_path p path PyNone = Ok t ->
  (if truthy t then rbind (get_path p path (PyInt 0)) py_int else Ok 0%Z) = Ok z ->
  match field_at path p with
  | Missing => z = 0%Z
  | Found x => if truthy x then py_int x = Ok z else z = 0%Z
  | NotADict => False
  end.
Proof.
  intros Hne Ht Hz. rewrite get_path_field_at in Ht, Hz by exact Hne.
  destruct (field_at path p); [| | discriminate].
  - injection Ht as <-. simpl in Hz. congruence.
  - injection Ht as <-. destruct (truthy v); simpl in Hz; congruence.
Qed.

(** X14: what [fetch_game_location]'s transformer returns is read off the
    payload field by field.  Whenever it returns a record, no path it reads
    runs into a value that is not a dict; the venue id is [int()] of the
    value found when that value is truthy, and [0] when it is missing or
    falsy (0, an empty string, null); each text field is the value found,
    as it is, or ["Unknown"]; latitude, longitude and elevation are
    [float()] of the value found, or [0.0]. *)
Theorem location_record_reads_the_payload (game_id : string) (p : pyval)
    (r : location_record) :
  location_data_of game_id p = Ok r ->
  match field_at ["gameData"; "venue"; "id"] p with
  | Missing => lr_venue_id r = 0%Z
  | Found v => if truthy v then py_int v = Ok (lr_venue_id r) else lr_venue_id r = 0%Z
  | NotADict => False
  end
  /\ match field_at ["gameData"; "venue"; "name"] p with
     | Missing => lr_venue_name r = PyStr "Unknown"
     | Found v => lr_venue_name r = v
     | NotADict => False
     end
  /\ match field_at ["gameData"; "venue"; "location"; "city"] p with
     | Missing => lr_venue_city r = PyStr "Unknown"
     | Found v => lr_venue_city r = v
     | NotADict => False
     end
  /\ match field_at ["gameData"; "venue"; "location"; "state"] p with
     | Missing => lr_venue_state r = PyStr "Unknown"
     | Found v => lr_venue_state r = v
     | NotADict => False
     end
  /\ match field_at ["gameData"; "venue"; "location"; "postalCode"] p with
     | Missing => lr_venue_postal_code r = PyStr "Unknown"
     | Found v => lr_venue_postal_code r = v
     | NotADict => False
     end
  /\ match field_at ["gameData"; "venue"; "location"; "country"] p with
     | Missing => lr_venue_country r = PyStr "Unknown"
     | Found v => lr_venue_country r = v
     | NotADict => False
     end
  /\ match field_at ["gameData"; "venue"; "location"; "defaultCoordinates"; "latitude"] p
     with
     | Missing => lr_venue_latitude r = S754_zero false
     | Found v => py_float v = Ok (lr_venue_latitude r)
     | NotADict => False
     end
  /\ match field_at ["gameData"; "venue"; "location"; "defaultCoordinates"; "longitude"] p
     with
     | Missing => lr_venue_longitude r = S754_zero false
     | Found v => py_float v = Ok (lr_venue_longitude r)
     | NotADict => False
     end
  /\ match field_at ["gameData"; "venue"; "location"; "elevation"] p with
     | Missing => lr_venue_elevation r = S754_zero false
     | Found v => py_float v = Ok (lr_venue_elevation r)
     | NotADict => False
     end.
Proof.
  intros H. unfold location_data_of in H. rbind_inv H. injection H as <-.
  cbn [lr_venue_id lr_venue_name lr_venue_city lr_venue_state lr_venue_postal_code
         lr_venue_country lr_venue_latitude lr_venue_longitude lr_venue_elevation].
  repeat split.
  - match goal with
    | Hif : (if truthy ?t then _ else _) = Ok ?z,
      Ht : py_get ?ven "id" PyNone = Ok ?t |- _ =>
        apply (venue_id_field_spec ["gameData"; "venue"; "id"] p t z);
          [ discriminate
          | by_gets
          | replace (get_path p ["gameData"; "venue"; "id"] (PyInt 0))
              with (py_get ven "id" (PyInt 0))
              by (cbn [get_path]; run_gets; reflexivity);
            exact Hif ]
    end.
  - eapply (any_field_spec _ p Unknown); [discriminate | by_gets].
  - eapply (any_field_spec _ p Unknown); [discriminate | by_gets].
  - eapply (any_field_spec _ p Unknown); [discriminate | by_gets].
  - eapply (any_field_spec _ p Unknown); [discriminate | by_gets].
  - eapply (any_field_spec _ p Unknown); [discriminate | by_gets].
  - eapply float_field_spec; [discriminate | by_gets | eassumption].
  - eapply float_field_spec; [discriminate | by_gets | eassumption].
  - eapply float_field_spec; [discriminate | by_gets | eassumption].
Qed.

(** ** More on the elevation path *)

(** X15: [get_elevation] emits its lineage event between the request and
    the reading of the answer.  When the request itself raises, that
    exception is raised and nothing is emitted.  When the request is
    answered and the emission returns, the event has been emitted whatever
    the answer holds, and the task gives the answer's ["elevation"]:
    [KeyError] if the JSON object has no such key, [TypeError] if the JSON
    is not an object, the exception of [response.json()] if the body is
    not JSON. *)
Theorem get_elevation_reads_the_elevation_key (latitude longitude : pyval)
    (w : world) :
  (forall e,
     requests_get E latitude longitude = Raise e ->
     get_elevation latitude longitude w
     = (Raise e, record_event (EvElevation latitude longitude) w))
  /\ (forall response,
        requests_get E latitude longitude = Ok response ->
        emit_lineage_event E "get_elevation_data" = Ok tt ->
        get_elevation latitude longitude w
        = (rbind response (fun body => py_subscript body "elevation"),
           record_event (EvEmit "get_elevation_data")
             (record_event (EvElevation latitude longitude) w)))
  /\ (forall d, dict_lookup "elevation" d = None ->
        py_subscript (PyDict d) "elevation" = Raise KeyError)
  /\ (forall d v, dict_lookup "elevation" d = Some v ->
        py_subscript (PyDict d) "elevation" = Ok v)
  /\ (forall body, is_dict body = false ->
        py_subscript body "elevation" = Raise TypeError).
Proof.
  split; [| split; [| split; [| split]]].
  - intros e Hget. unfold get_elevation. rewrite task0_run.
    unfold http_get_elevation, bind, tell, lift. rewrite Hget. reflexivity.
  - intros response Hget Hemit. unfold get_elevation. rewrite task0_run.
    unfold http_get_elevation, emit, bind, tell, lift. rewrite Hget, Hemit. simpl.
    destruct response as [body | e]; simpl; [| reflexivity].
    destruct (py_subscript body "elevation"); reflexivity.
  - intros d Hd. simpl. rewrite Hd. reflexivity.
  - intros d v Hd. simpl. rewrite Hd. reflexivity.
  - intros body Hb. destruct body; try reflexivity. discriminate.
Qed.

Lemma keeps_emit (event_name : string) : keeps_tables (emit event_name).
Proof.
  unfold emit. apply keeps_bind; [apply keeps_tell | intros _; apply keeps_lift].
Qed.

Lemma keeps_load (block_name : string) : keeps_tables (load block_name).
Proof.
  unfold load. apply keeps_bind; [apply keeps_tell | intros _; apply keeps_lift].
Qed.

Lemma keeps_submit (st : statement) (rows : nat) : keeps_tables (submit st rows).
Proof.
  unfold submit. apply keeps_bind; [apply keeps_tell |].
  intros _. destruct (sql_fault E st); [apply keeps_raise | apply keeps_ret].
Qed.

Lemma keeps_get_city_data : keeps_tables get_city_data.
Proof.
  unfold get_city_data. apply keeps_task.
  apply keeps_bind; [apply keeps_load |].
  intros _. apply keeps_bind.
  { unfold fetch_many. apply keeps_bind; [apply keeps_submit |].
    intros _. apply keeps_lift. }
  intros rows. apply keeps_bind; [apply keeps_emit | intros _; apply keeps_ret].
Qed.

Lemma keeps_get_elevation (lat long : pyval) : keeps_tables (get_elevation lat long).
Proof.
  unfold get_elevation. apply keeps_task.
  apply keeps_bind.
  { unfold http_get_elevation.
    apply keeps_bind; [apply keeps_tell | intros _; apply keeps_lift]. }
  intros response. apply keeps_bind; [apply keeps_emit |].
  intros _. apply keeps_bind; [apply keeps_lift | intros body; apply keeps_lift].
Qed.

Lemma keeps_main_elevation_loop :
  forall locations acc, keeps_tables (main_elevation_loop locations acc).
Proof.
  induction locations as [| [[city lat] long] locations IH]; intros acc; simpl.
  - apply keeps_ret.
  - apply keeps_bind; [apply keeps_get_elevation |].
    intros elev. apply keeps_bind; [apply keeps_tell | intros _; apply IH].
Qed.

Lemma get_city_data_Ok_inv (rows : list city_row) (w w1 : world) :
  get_city_data w = (Ok rows, w1) -> fetch_many_locations E = Ok rows.
Proof.
  unfold get_city_data. rewrite task0_run.
  unfold load, fetch_many, submit, emit, bind, tell, lift, ret, raise. simpl.
  destruct (connector_load E "dev-day-connector"); simpl; [| discriminate].
  destruct (sql_fault E SelectDistinctLocations); simpl; [discriminate |].
  destruct (fetch_many_locations E) as [l | e]; simpl; [| discriminate].
  destruct (emit_lineage_event E "Get Game Locations to Snowflake"); simpl;
    [| discriminate].
  congruence.
Qed.

Lemma setup_table_Ok_inv (block_name : string) (locations : list city_row)
    (elevation : list pyval) (w w' : world) :
  setup_table block_name locations elevation w = (Ok tt, w') ->
  elevation_data w'
  = Some (table_rows (elevation_data w) ++ seq_of_parameters locations elevation)
  /\ GAME_SCORES w' = GAME_SCORES w
  /\ GAME_LOCATIONS w' = GAME_LOCATIONS w.
Proof.
  unfold setup_table. rewrite task0_run.
  unfold load, execute, execute_many_elevation, submit, emit, bind, tell, lift, ret,
    raise.
  simpl.
  destruct (connector_load E block_name); simpl; [| discriminate].
  destruct (sql_fault E CreateElevationData); simpl; [discriminate |].
  destruct (sql_fault E InsertElevationData); simpl; [discriminate |].
  destruct (elevation_data w) as [t |]; simpl;
    destruct (emit_lineage_event E "Upload Elevation Data to Snowflake"); simpl;
    intros H; try discriminate; inversion H; subst; simpl; auto.
Qed.

(** X16: a run of [main_elevation] that returns has loaded exactly one row
    per city row.  The rows of the query and the elevations looked up for
    them have the same length, so the zip of [setup_table] drops nothing:
    [elevation_data] holds the rows it had followed by one row for each
    city row, in the order of the query, each with the elevation the API
    answered for its coordinates; the two MLB tables are unchanged. *)
Theorem main_elevation_loads_one_row_per_city (w w' : world) :
  main_elevation w = (Ok tt, w') ->
  exists rows elevations,
    fetch_many_locations E = Ok rows
    /\ Forall2 elevation_of rows elevations
    /\ length (seq_of_parameters rows elevations) = length rows
    /\ elevation_data w'
       = Some (table_rows (elevation_data w) ++ seq_of_parameters rows elevations)
    /\ GAME_SCORES w' = GAME_SCORES w
    /\ GAME_LOCATIONS w' = GAME_LOCATIONS w.
Proof.
  intros H. unfold main_elevation in H.
  apply bind_Ok_inv in H. destruct H as (rows & w1 & Hcity & H).
  apply bind_Ok_inv in H. destruct H as (elevations & w2 & Hloop & Htable).
  pose proof (keeps_get_city_data w) as (Ks1 & Kl1 & Ke1). rewrite Hcity in *.
  pose proof (keeps_main_elevation_loop rows [] w1) as (Ks2 & Kl2 & Ke2).
  rewrite Hloop in *. simpl in *.
  apply main_elevation_loop_order in Hloop. destruct Hloop as (new & Hnew & Hall).
  simpl in Hnew. subst new.
  apply setup_table_Ok_inv in Htable. destruct Htable as (Ht & Hs & Hl).
  exists rows, elevations. repeat split.
  - eapply get_city_data_Ok_inv, Hcity.
  - exact Hall.
  - rewrite seq_of_parameters_length. apply Forall2_length in Hall. lia.
  - rewrite Ht. congruence.
  - congruence.
  - congruence.
Qed.

(** X17: [main_elevation] loads nothing unless every lookup succeeded.
    When the city query raises, or any one elevation lookup raises,
    [main_elevation] raises that exception and no table has changed: the
    elevations already fetched for earlier rows are not loaded. *)
Theorem main_elevation_loads_all_or_nothing (w : world) (e : exn) :
  (forall w1,
     get_city_data w = (Raise e, w1) ->
     main_elevation w = (Raise e, w1) /\ same_tables w w1)
  /\ (forall rows w1 w2,
        get_city_data w = (Ok rows, w1) ->
        main_elevation_loop rows [] w1 = (Raise e, w2) ->
        main_elevation w = (Raise e, w2) /\ same_tables w w2).
Proof.
  split.
  - intros w1 Hcity. split.
    + unfold main_elevation. apply bind_Raise, Hcity.
    + pose proof (keeps_get_city_data w) as K. rewrite Hcity in K. exact K.
  - intros rows w1 w2 Hcity Hloop. split.
    + unfold main_elevation. rewrite (bind_Ok _ _ _ _ _ Hcity).
      apply bind_Raise, Hloop.
    + pose proof (keeps_get_city_data w) as K1. rewrite Hcity in K1.
      pose proof (keeps_main_elevation_loop rows [] w1) as K2. rewrite Hloop in K2.
      eapply same_tables_trans; [exact K1 | exact K2].
Qed.

(** ** More on [get_recent_games] *)

Lemma get_recent_games_loop_app (start_date end_date : string)
    (pre rest : list Z) :
  forall acc w,
    get_recent_games_loop (pre ++ rest) start_date end_date acc w
    = bind (get_recent_games_loop pre start_date end_date acc)
           (fun acc' => get_recent_games_loop rest start_date end_date acc') w.
Proof.
  induction pre as [| t pre IH]; intros acc w; simpl.
  - reflexivity.
  - rewrite bind_assoc. apply bind_ext. intros sched w1.
    rewrite bind_assoc. apply bind_ext. intros ids w2.
    rewrite bind_assoc. apply bind_ext. intros _ w3. apply IH.
Qed.

Lemma schedule_run (t : Z) (start_date end_date : string) (w : world) :
  schedule t start_date end_date w
  = (statsapi_schedule E t start_date end_date,
     record_event (EvSchedule t start_date end_date) w).
Proof. reflexivity. Qed.

Lemma game_ids_of_missing_key (before after : list pyval) (d : list (string * pyval)) :
  forallb (fun game => is_Ok (py_subscript game "game_id")) before = true ->
  dict_lookup "game_id" d = None ->
  game_ids_of (before ++ PyDict d :: after) = Raise KeyError.
Proof.
  intros Hb Hd. induction before as [| game before IH]; simpl in *.
  - rewrite Hd. reflexivity.
  - apply andb_prop in Hb. destruct Hb as [Hg Hb].
    destruct (py_subscript game "game_id"); [| discriminate].
    simpl. rewrite (IH Hb). reflexivity.
Qed.

(** X18: [get_recent_games] gives up at the first team whose listing
    fails, and returns nothing.  It has no retries: after the teams before
    [t] have been listed, when the schedule call for [t] raises, or its
    listing holds a game with no ["game_id"], [get_recent_games] raises
    (the call's exception, resp. [KeyError]) right after that one call:
    the teams after [t] are not queried, and the ids already retrieved are
    lost. *)
Theorem get_recent_games_stops_at_first_failure (pre post : list Z) (t : Z)
    (start_date end_date : string) (w w1 : world) (acc : list string) :
  get_recent_games_loop pre start_date end_date [] w = (Ok acc, w1) ->
  (forall e,
     statsapi_schedule E t start_date end_date = Raise e ->
     get_recent_games (pre ++ t :: post) start_date end_date w
     = (Raise e, record_event (EvSchedule t start_date end_date) w1))
  /\ (forall before after d,
        statsapi_schedule E t start_date end_date = Ok (before ++ PyDict d :: after) ->
        forallb (fun game => is_Ok (py_subscript game "game_id")) before = true ->
        dict_lookup "game_id" d = None ->
        get_recent_games (pre ++ t :: post) start_date end_date w
        = (Raise KeyError, record_event (EvSchedule t start_date end_date) w1)).
Proof.
  intros Hpre. split.
  - intros e Hs. unfold get_recent_games. rewrite task0_run.
    apply bind_Raise. rewrite get_recent_games_loop_app.
    rewrite (bind_Ok _ _ _ _ _ Hpre). simpl.
    apply bind_Raise. rewrite schedule_run, Hs. reflexivity.
  - intros before after d Hs Hb Hd. unfold get_recent_games. rewrite task0_run.
    apply bind_Raise. rewrite get_recent_games_loop_app.
    rewrite (bind_Ok _ _ _ _ _ Hpre). simpl.
    pose proof (schedule_run t start_date end_date w1) as Hrun. rewrite Hs in Hrun.
    rewrite (bind_Ok _ _ _ _ _ Hrun).
    apply bind_Raise. unfold lift.
    rewrite (game_ids_of_missing_key before after d Hb Hd). reflexivity.
Qed.

Lemma get_recent_games_loop_ok (start_date end_date : string)
    (listing : Z -> list string) :
  forall team_ids acc w,
    (forall t, In t team_ids ->
       exists games,
         statsapi_schedule E t start_date end_date = Ok games
         /\ game_ids_of games = Ok (listing t)) ->
    exists w',
      get_recent_games_loop team_ids start_date end_date acc w
      = (Ok (acc ++ flat_map listing team_ids), w').
Proof.
  induction team_ids as [| t team_ids IH]; intros acc w Hall; simpl.
  - rewrite app_nil_r. eauto.
  - destruct (Hall t (or_introl eq_refl)) as (games & Hs & Hg).
    pose proof (schedule_run t start_date end_date w) as Hsched. rewrite Hs in Hsched.
    rewrite (bind_Ok _ _ _ _ _ Hsched).
    assert (Hlift : lift (game_ids_of games)
                      (record_event (EvSchedule t start_date end_date) w)
                    = (Ok (listing t),
                       record_event (EvSchedule t start_date end_date) w))
      by (unfold lift; rewrite Hg; reflexivity).
    rewrite (bind_Ok _ _ _ _ _ Hlift).
    unfold bind at 1, print, tell.
    destruct (IH (acc ++ listing t)
                (record_event
                   (EvPrint ("Retrieved " +:+ pretty (length (listing t))
                             +:+ " games for team ID " +:+ pretty t +:+ "."))
                   (record_event (EvSchedule t start_date end_date) w)))
      as (w' & Hrun).
    { intros t0 H0. apply Hall. right. exact H0. }
    exists w'. rewrite Hrun. rewrite <- app_assoc. reflexivity.
Qed.

(** X19: [get_recent_games] returns each listed game once.  When the
    schedule call of every team returns games that all hold a
    ["game_id"], the task returns a list without duplicates whose members
    are exactly the [str()] of the game ids listed for some team of
    [team_ids]. *)
Theorem get_recent_games_lists_every_game (team_ids : list Z)
    (start_date end_date : string) (listing : Z -> list string) (w : world) :
  (forall t, t ∈ team_ids ->
     exists games,
       statsapi_schedule E t start_date end_date = Ok games
       /\ game_ids_of games = Ok (listing t)) ->
  exists ids w',
    get_recent_games team_ids start_date end_date w = (Ok ids, w')
    /\ NoDup ids
    /\ forall g, g ∈ ids <-> exists t, t ∈ team_ids /\ g ∈ listing t.
Proof.
  intros Hall.
  destruct (get_recent_games_loop_ok start_date end_date listing team_ids [] w)
    as (w' & Hrun).
  { intros t Ht. apply Hall, list_elem_of_In, Ht. }
  exists (list_set (flat_map listing team_ids)), w'.
  split; [| split].
  - unfold get_recent_games. rewrite task0_run.
    rewrite (bind_Ok _ _ _ _ _ Hrun). reflexivity.
  - apply list_set_NoDup.
  - intros g. rewrite list_set_elem_of, list_elem_of_In, in_flat_map.
    split; intros (t & Ht & Hg); exists t;
      (split; [apply list_elem_of_In, Ht | apply list_elem_of_In, Hg]).
Qed.

(** X20: [mlb_simple_flow] loads nothing unless both orchestrators
    returned.  After the tables are set up and the games listed, when
    [get_game_scores] raises, or [get_game_locations_flow] raises after
    the scores were fetched, the flow raises that exception and both tables
    hold the rows they had before the run: the scores already fetched are
    not loaded. *)
Theorem mlb_simple_flow_loads_nothing_if_a_fetch_fails (team_ids : list Z)
    (start_date end_date block_name : string) (w w2 : world) (ids : list string)
    (e : exn) :
  connector_load E block_name = Ok tt ->
  sql_fault E CreateGameScores = None ->
  sql_fault E CreateGameLocations = None ->
  get_recent_games team_ids start_date end_date (snd (setup_tables block_name w))
    = (Ok ids, w2) ->
  (forall w3,
     get_game_scores ids w2 = (Raise e, w3) ->
     mlb_simple_flow team_ids start_date end_date block_name w = (Raise e, w3)
     /\ GAME_SCORES w3 = Some (table_rows (GAME_SCORES w))
     /\ GAME_LOCATIONS w3 = Some (table_rows (GAME_LOCATIONS w)))
  /\ (forall scores w3 w4,
        get_game_scores ids w2 = (Ok scores, w3) ->
        get_game_locations_flow ids w3 = (Raise e, w4) ->
        mlb_simple_flow team_ids start_date end_date block_name w = (Raise e, w4)
        /\ GAME_SCORES w4 = Some (table_rows (GAME_SCORES w))
        /\ GAME_LOCATIONS w4 = Some (table_rows (GAME_LOCATIONS w))).
Proof.
  intros Hload Hcs Hcl H2.
  destruct (setup_tables_ok block_name w Hload Hcs Hcl) as (w1 & H1 & Hs1 & Hl1 & He1).
  rewrite H1 in H2. simpl in H2.
  pose proof (keeps_get_recent_games team_ids start_date end_date w1) as K2.
  rewrite H2 in K2. destruct K2 as (Ks2 & Kl2 & _). simpl in *.
  split.
  - intros w3 H3.
    pose proof (keeps_fetch_each fetch_game_score "scores" keeps_fetch_game_score
                  ids [] w2) as K3.
    unfold get_game_scores in H3. rewrite H3 in K3. destruct K3 as (Ks3 & Kl3 & _).
    simpl in *. split; [| split; congruence].
    unfold mlb_simple_flow.
    rewrite (bind_Ok _ _ _ _ _ H1), (bind_Ok _ _ _ _ _ H2).
    apply bind_Raise. exact H3.
  - intros scores w3 w4 H3 H4.
    pose proof (keeps_fetch_each fetch_game_score "scores" keeps_fetch_game_score
                  ids [] w2) as K3.
    pose proof (keeps_fetch_each fetch_game_location "location data"
                  keeps_fetch_game_location ids [] w3) as K4.
    unfold get_game_scores in H3. unfold get_game_locations_flow in H4.
    rewrite H3 in K3. rewrite H4 in K4.
    destruct K3 as (Ks3 & Kl3 & _). destruct K4 as (Ks4 & Kl4 & _). simpl in *.
    split; [| split; congruence].
    unfold mlb_simple_flow.
    rewrite (bind_Ok _ _ _ _ _ H1), (bind_Ok _ _ _ _ _ H2).
    unfold get_game_scores. rewrite (bind_Ok _ _ _ _ _ H3).
    apply bind_Raise. exact H4.
Qed.

(** X21: a run that finds no game inserts nothing and still completes.
    When the tables are set up and [get_recent_games] returns no id, the
    flow fetches nothing, submits no insert (so it completes even where the
    warehouse would refuse one), logs the two empty batches and returns;
    both tables exist with the rows they had. *)
Theorem mlb_simple_flow_without_games (team_ids : list Z)
    (start_date end_date block_name : string) (w w2 : world) :
  connector_load E block_name = Ok tt ->
  sql_fault E CreateGameScores = None ->
  sql_fault E CreateGameLocations = None ->
  get_recent_games team_ids start_date end_date (snd (setup_tables block_name w))
    = (Ok [], w2) ->
  fst (mlb_simple_flow team_ids start_date end_date block_name w) = Ok tt
  /\ trace (snd (mlb_simple_flow team_ids start_date end_date block_name w))
     = trace w2 ++ [EvLogInfo "No game scores to insert.";
                    EvLogInfo "No game locations to insert.";
                    EvPrint "MLB Simple Flow Completed Successfully."]
  /\ GAME_SCORES (snd (mlb_simple_flow team_ids start_date end_date block_name w))
     = Some (table_rows (GAME_SCORES w))
  /\ GAME_LOCATIONS (snd (mlb_simple_flow team_ids start_date end_date block_name w))
     = Some (table_rows (GAME_LOCATIONS w)).
Proof.
  intros Hload Hcs Hcl H2.
  destruct (setup_tables_ok block_name w Hload Hcs Hcl) as (w1 & H1 & Hs1 & Hl1 & He1).
  rewrite H1 in H2. simpl in H2.
  pose proof (keeps_get_recent_games team_ids start_date end_date w1) as K2.
  rewrite H2 in K2. destruct K2 as (Ks2 & Kl2 & _). simpl in *.
  unfold mlb_simple_flow.
  rewrite (bind_Ok _ _ _ _ _ H1), (bind_Ok _ _ _ _ _ H2).
  unfold get_game_scores, get_game_locations_flow, insert_game_scores,
    insert_game_locations, bind, print, logger_info, tell.
  simpl. rewrite <- !app_assoc. simpl. repeat split; congruence.
Qed.

End Pipeline.

(** ** Lineage emission *)

Lemma emit_raises (E : env) (event_name : string) (e : exn) (w : world) :
  emit_lineage_event E event_name = Raise e ->
  emit E event_name w = (Raise e, record_event (EvEmit event_name) w).
Proof.
  intros H. unfold emit, bind, tell, lift. rewrite H. reflexivity.
Qed.

(** C7, as the code has it: lineage emission is awaited with no handler
    around it.  The MLB pipeline emits no lineage event, so
    [mlb_simple_flow] is the same run whatever the emitter does.  In the
    elevation path an exception raised by [emit_lineage_event] fails the
    task that awaits it: [get_city_data], and with it [main_elevation]
    before anything is loaded; [get_elevation]; and [setup_table], after
    its rows are in. *)
Theorem lineage_failure_is_not_contained (int_of_str : string -> option Z)
    (float_of_str : string -> option spec_float) (str_of : pyval -> string)
    (E : env) :
  (forall f team_ids start_date end_date block w,
     mlb_simple_flow int_of_str float_of_str str_of (with_emitter f E)
       team_ids start_date end_date block w
     = mlb_simple_flow int_of_str float_of_str str_of E
         team_ids start_date end_date block w)
  /\ (forall e rows w,
        connector_load E "dev-day-connector" = Ok tt ->
        sql_fault E SelectDistinctLocations = None ->
        fetch_many_locations E = Ok rows ->
        emit_lineage_event E "Get Game Locations to Snowflake" = Raise e ->
        fst (get_city_data E w) = Raise e
        /\ fst (main_elevation str_of E w) = Raise e
        /\ elevation_data (snd (main_elevation str_of E w)) = elevation_data w)
  /\ (forall e latitude longitude response w,
        requests_get E latitude longitude = Ok response ->
        emit_lineage_event E "get_elevation_data" = Raise e ->
        fst (get_elevation E latitude longitude w) = Raise e)
  /\ (forall e block_name locations elevation w,
        connector_load E block_name = Ok tt ->
        sql_fault E CreateElevationData = None ->
        sql_fault E InsertElevationData = None ->
        emit_lineage_event E "Upload Elevation Data to Snowflake" = Raise e ->
        fst (setup_table E block_name locations elevation w) = Raise e
        /\ elevation_data (snd (setup_table E block_name locations elevation w))
           = Some (table_rows (elevation_data w)
                   ++ seq_of_parameters locations elevation)).
Proof.
  split; [| split; [| split]].
  - intros f team_ids start_date end_date block w. reflexivity.
  - intros e rows w Hload Hsel Hrows Hemit.
    assert (Hcity : get_city_data E w
                    = (Raise e,
                       record_event (EvEmit "Get Game Locations to Snowflake")
                         (record_event (EvSql SelectDistinctLocations 0)
                            (record_event (EvLoad "dev-day-connector") w)))).
    { unfold get_city_data. rewrite task0_run.
      unfold load, fetch_many, submit, emit, bind, tell, lift, ret.
      rewrite Hload, Hsel, Hrows, Hemit. reflexivity. }
    unfold main_elevation. rewrite (bind_Raise _ _ _ _ _ Hcity).
    rewrite Hcity. simpl. auto.
  - intros e latitude longitude response w Hget Hemit.
    unfold get_elevation. rewrite task0_run.
    unfold http_get_elevation, emit, bind, tell, lift.
    rewrite Hget, Hemit. reflexivity.
  - intros e block_name locations elevation w Hload Hc Hi Hemit.
    destruct (setup_table_run E block_name locations elevation w Hload Hc Hi) as [Hr Ht].
    rewrite Hr, Ht, Hemit. auto.
Qed.

(** ** The theorems at the samples *)

Lemma retries_are_five_after_the_first_run_witness :
  (exists w',
     fetch_game_score decimal_of_str env_down "1" world0 = (Raise timeout, w')
     /\ score_attempts "1" w' = 6)
  /\ (exists w',
        fetch_game_score decimal_of_str env_flaky "1" world0
        = (Ok (Some (score_5_3 1)), w')
        /\ score_attempts "1" w' = 3)
  /\ (exists w',
        fetch_game_location decimal_of_str decimal_float_of_str env_five_failures
          "1" world0
        = (Ok (Some (in_boston 1)), w')
        /\ location_attempts "1" w' = 6).
Proof.
  split; [| split].
  - apply (proj1 (retries_are_five_after_the_first_run decimal_of_str
                    decimal_float_of_str env_down "1" world0 (fun _ => timeout))).
    intros n. reflexivity.
  - apply (proj1 (proj2 (retries_are_five_after_the_first_run decimal_of_str
                           decimal_float_of_str env_flaky "1" world0
                           (fun _ => timeout)))
             2 (boxscore_of 5 3) (score_5_3 1)).
    + lia.
    + intros [| [| i]] Hi; [reflexivity | reflexivity | lia].
    + reflexivity.
    + reflexivity.
    + reflexivity.
  - apply (proj2 (proj2 (proj2 (retries_are_five_after_the_first_run decimal_of_str
                                  decimal_float_of_str env_five_failures "1" world0
                                  (fun _ => timeout))))
             5 (game_at "Boston") (in_boston 1)).
    + lia.
    + intros i Hi. do 5 (destruct i as [| i]; [reflexivity |]). lia.
    + reflexivity.
    + reflexivity.
    + reflexivity.
Defined.

(** C1 as stated fails: a fetch that raises on every attempt is attempted 6
    times, not 5; and one that raises 5 times is not given up: its sixth
    attempt returns the record. *)
Lemma five_attempts_counterexample :
  fst (fetch_game_score decimal_of_str env_down "1" world0) = Raise timeout
  /\ score_attempts "1" (snd (fetch_game_score decimal_of_str env_down "1" world0)) = 6
  /\ trace (snd (fetch_game_score decimal_of_str env_down "1" world0))
     = [EvBoxscore "1"; EvSleep 10; EvBoxscore "1"; EvSleep 20; EvBoxscore "1";
        EvSleep 40; EvBoxscore "1"; EvSleep 80; EvBoxscore "1"; EvSleep 160;
        EvBoxscore "1"]
  /\ fst (fetch_game_score decimal_of_str env_five_failures "1" world0)
     = Ok (Some (score_5_3 1)).
Proof. repeat split; vm_compute; reflexivity. Qed.

Lemma terminal_failure_propagates_witness :
  get_game_scores decimal_of_str env_one_down ["1"; "2"; "3"] world0
  = (Raise timeout,
     snd (fetch_game_score decimal_of_str env_one_down "2"
            (snd (get_game_scores decimal_of_str env_one_down ["1"] world0))))
  /\ get_game_locations_flow decimal_of_str decimal_float_of_str env_one_down
       ["1"; "2"; "3"] world0
     = (Raise timeout,
        snd (fetch_game_location decimal_of_str decimal_float_of_str env_one_down "2"
               (snd (get_game_locations_flow decimal_of_str decimal_float_of_str
                       env_one_down ["1"] world0)))).
Proof.
  split.
  - apply (proj1 (terminal_failure_propagates decimal_of_str decimal_float_of_str
                    env_one_down ["1"] ["3"] "2" world0
                    (snd (get_game_scores decimal_of_str env_one_down ["1"] world0))
                    (snd (fetch_game_score decimal_of_str env_one_down "2"
                            (snd (get_game_scores decimal_of_str env_one_down ["1"]
                                    world0))))
                    timeout)
             [score_5_3 1]); vm_compute; reflexivity.
  - apply (proj2 (terminal_failure_propagates decimal_of_str decimal_float_of_str
                    env_one_down ["1"] ["3"] "2" world0
                    (snd (get_game_locations_flow decimal_of_str decimal_float_of_str
                            env_one_down ["1"] world0))
                    (snd (fetch_game_location decimal_of_str decimal_float_of_str
                            env_one_down "2"
                            (snd (get_game_locations_flow decimal_of_str
                                    decimal_float_of_str env_one_down ["1"] world0))))
                    timeout)
             [in_boston 1]); vm_compute; reflexivity.
Defined.

(** C2 as stated fails: with the endpoint down for game 2 only, the
    orchestrators do not return the records of games 1 and 3: they raise,
    and game 3 is never fetched. *)
Lemma skip_and_continue_counterexample :
  fst (get_game_scores decimal_of_str env_one_down ["1"; "2"; "3"] world0)
  = Raise timeout
  /\ score_attempts "3"
       (snd (get_game_scores decimal_of_str env_one_down ["1"; "2"; "3"] world0)) = 0
  /\ fst (get_game_locations_flow decimal_of_str decimal_float_of_str env_one_down
            ["1"; "2"; "3"] world0)
     = Raise timeout
  /\ fst (mlb_simple_flow decimal_of_str decimal_float_of_str sample_str env_one_down
            [133; 134]%Z "2022-02-01" "2024-11-30" "dev-day-connector" world0)
     = Raise timeout.
Proof. repeat split; vm_compute; reflexivity. Qed.

Lemma elevation_rows_pair_by_position_witness :
  seq_of_parameters sample_cities sample_elevations !! 0
  = Some {| er_city := PyStr "NYC";
            er_lat := PyFloat (float_lit 2864007888030925 (-46));
            er_lon := PyFloat (float_lit (-74) 0);
            er_elevation := PyFloat (float_lit 10 0) |}
  /\ seq_of_parameters sample_cities sample_elevations !! 1
     = Some {| er_city := PyStr "LA";
               er_lat := PyFloat (float_lit 34 0);
               er_lon := PyFloat (float_lit (-8317585561799885) (-46));
               er_elevation := PyFloat (float_lit 89 0) |}
  /\ elevation_data
       (snd (setup_table env_up "dev-day-connector" sample_cities sample_elevations
               world0))
     = Some (seq_of_parameters sample_cities sample_elevations)
  /\ Forall2 (elevation_of env_up) sample_cities sample_elevations.
Proof.
  pose proof (elevation_rows_pair_by_position sample_str env_up "dev-day-connector"
                sample_cities sample_elevations world0) as (Hrow & Htable & Hloop).
  split; [| split; [| split]].
  - apply (Hrow 0 (PyStr "NYC", PyFloat (float_lit 2864007888030925 (-46)),
                   PyFloat (float_lit (-74) 0))); reflexivity.
  - apply (Hrow 1 (PyStr "LA", PyFloat (float_lit 34 0),
                   PyFloat (float_lit (-8317585561799885) (-46)))); reflexivity.
  - apply Htable; reflexivity.
  - apply (Hloop (snd (main_elevation_loop sample_str env_up sample_cities [] world0))).
    vm_compute. reflexivity.
Defined.

Lemma missing_fields_take_defaults_witness :
  (score_data_of decimal_of_str "7" (boxscore_of 5 3) = Ok (score_5_3 7)
   /\ sr_home_team (score_5_3 7) = PyStr "Unknown"
   /\ sr_away_team_id (score_5_3 7) = 0%Z
   /\ sr_game_time (score_5_3 7) = PyStr "Unknown")
  /\ is_Ok (score_data_of decimal_of_str "7" (PyDict [("gameBoxInfo", PyDict [])])) = true
  /\ (location_data_of decimal_of_str decimal_float_of_str "7" (game_at "Boston")
      = Ok (in_boston 7)
      /\ lr_venue_id (in_boston 7) = 0%Z
      /\ lr_venue_name (in_boston 7) = PyStr "Unknown"
      /\ lr_venue_latitude (in_boston 7) = S754_zero false)
  /\ is_Ok (location_data_of decimal_of_str decimal_float_of_str "7" game_with_null_id)
     = true.
Proof.
  split; [| split; [| split]].
  - destruct (proj1 (proj2 (missing_fields_take_defaults decimal_of_str
                              decimal_float_of_str "7" (boxscore_of 5 3)))
                (score_5_3 7) eq_refl)
      as (_ & _ & _ & Hteam & _ & _ & Hid & Htime).
    split; [reflexivity |].
    split; [apply Hteam; reflexivity |].
    split; [apply Hid; reflexivity | apply Htime; reflexivity].
  - apply (proj1 (missing_fields_take_defaults decimal_of_str decimal_float_of_str "7"
                    (PyDict [("gameBoxInfo", PyDict [])]))).
    split; [exists 7%Z; reflexivity | reflexivity].
  - destruct (proj2 (proj2 (proj2 (missing_fields_take_defaults decimal_of_str
                                     decimal_float_of_str "7" (game_at "Boston"))))
                (in_boston 7) eq_refl)
      as (_ & Hid & Hname & _ & _ & _ & _ & Hlat & _).
    split; [reflexivity |].
    split; [apply Hid; reflexivity |].
    split; [apply Hname; reflexivity | apply Hlat; reflexivity].
  - apply (proj1 (proj2 (proj2 (missing_fields_take_defaults decimal_of_str
                                  decimal_float_of_str "7" game_with_null_id)))).
    split; [exists 7%Z; reflexivity | reflexivity].
Defined.

(** C4 as stated fails: these payloads miss optional fields, and the
    transformers raise on what is present: a null where a dict is read, a
    word where a number is read, a null latitude. *)
Lemma transformer_raises_counterexample :
  score_data_of decimal_of_str "7" (PyDict [("home", PyNone)]) = Raise AttributeError
  /\ score_data_of decimal_of_str "7"
       (PyDict [("home", runs 5); ("teamInfo", PyDict [("home", PyDict [("id", PyStr "n/a")])])])
     = Raise ValueError
  /\ location_data_of decimal_of_str decimal_float_of_str "7"
       (PyDict [("gameData",
                 PyDict [("venue",
                          PyDict [("location",
                                   PyDict [("defaultCoordinates",
                                            PyDict [("latitude", PyNone)])])])])])
     = Raise TypeError.
Proof. repeat split; vm_compute; reflexivity. Qed.

Lemma recent_games_are_unique_witness :
  NoDup ["3"; "1"; "2"]
  /\ (exists scores w2,
        get_game_scores decimal_of_str env_up ["3"; "1"; "2"]
          (snd (get_recent_games sample_str env_up [133; 134]%Z "2022-02-01"
                  "2024-11-30" world0))
        = (Ok scores, w2)
        /\ forall g, g ∈ ["3"; "1"; "2"] -> score_attempts g w2 = 1)
  /\ (exists locations w3,
        get_game_locations_flow decimal_of_str decimal_float_of_str env_up
          ["3"; "1"; "2"] world0
        = (Ok locations, w3)
        /\ forall g, g ∈ ["3"; "1"; "2"] -> location_attempts g w3 = 1).
Proof.
  destruct (recent_games_are_unique decimal_of_str decimal_float_of_str sample_str
              env_up [133; 134]%Z "2022-02-01" "2024-11-30" world0
              (snd (get_recent_games sample_str env_up [133; 134]%Z "2022-02-01"
                      "2024-11-30" world0))
              ["3"; "1"; "2"])
    as (Hnodup & _ & Honce & Honce').
  - vm_compute. reflexivity.
  - split; [exact Hnodup | split].
    + destruct Honce as (scores & w2 & Hrun & Hcount).
      * intros g Hg n. exists (boxscore_of 5 3). split; [reflexivity | right].
        apply list_elem_of_In in Hg. simpl in Hg.
        destruct Hg as [<- | [<- | [<- | []]]]; eexists; reflexivity.
      * exists scores, w2. split; [exact Hrun |].
        intros g Hg. rewrite (Hcount g Hg).
        apply list_elem_of_In in Hg. simpl in Hg.
        destruct Hg as [<- | [<- | [<- | []]]]; reflexivity.
    + destruct (Honce' ltac:(
                  intros g Hg n; exists (game_at "Boston");
                  split; [reflexivity | right];
                  apply list_elem_of_In in Hg; simpl in Hg;
                  destruct Hg as [<- | [<- | [<- | []]]]; eexists; reflexivity)
                world0)
        as (locations & w3 & Hrun & Hcount).
      exists locations, w3. split; [exact Hrun |].
      intros g Hg. rewrite (Hcount g Hg).
      apply list_elem_of_In in Hg. simpl in Hg.
      destruct Hg as [<- | [<- | [<- | []]]]; reflexivity.
Defined.

(** C5 as stated fails: with the endpoints down, the orchestrators run on
    the deduplicated list do not call them once per identifier.  In
    whichever order the three ids come, the first one is tried 6 times,
    then the run raises and the two others are never fetched. *)
Lemma dispatch_once_counterexample :
  (exists ids,
     fst (get_recent_games sample_str env_down [133; 134]%Z "2022-02-01" "2024-11-30"
            world0)
     = Ok ids
     /\ ids ∈ [["1"; "2"; "3"]; ["1"; "3"; "2"]; ["2"; "1"; "3"];
               ["2"; "3"; "1"]; ["3"; "1"; "2"]; ["3"; "2"; "1"]])
  /\ Forall
       (fun ids =>
          fst (get_game_scores decimal_of_str env_down ids world0) = Raise timeout
          /\ score_attempts (hd "" ids)
               (snd (get_game_scores decimal_of_str env_down ids world0)) = 6
          /\ Forall
               (fun g =>
                  score_attempts g
                    (snd (get_game_scores decimal_of_str env_down ids world0)) = 0)
               (tl ids)
          /\ fst (get_game_locations_flow decimal_of_str decimal_float_of_str env_down
                    ids world0)
             = Raise timeout
          /\ location_attempts (hd "" ids)
               (snd (get_game_locations_flow decimal_of_str decimal_float_of_str
                       env_down ids world0)) = 6
          /\ Forall
               (fun g =>
                  location_attempts g
                    (snd (get_game_locations_flow decimal_of_str decimal_float_of_str
                            env_down ids world0)) = 0)
               (tl ids))
       [["1"; "2"; "3"]; ["1"; "3"; "2"]; ["2"; "1"; "3"];
        ["2"; "3"; "1"]; ["3"; "1"; "2"]; ["3"; "2"; "1"]].
Proof.
  split.
  - exists ["3"; "1"; "2"]. split; [vm_compute; reflexivity |].
    do 4 apply list_elem_of_further. apply list_elem_of_here.
  - repeat (constructor; [repeat split; repeat constructor; vm_compute; reflexivity |]).
    constructor.
Qed.

Lemma empty_response_is_skipped_witness :
  fetch_game_score decimal_of_str env_one_empty "2" world0
  = (Ok None,
     record_event (EvPrint "No boxscore data found for game ID 2.")
       (record_event (EvBoxscore "2") world0))
  /\ fst (get_game_scores decimal_of_str env_one_empty ["1"; "2"; "3"] world0)
     = Ok [score_5_3 1; score_5_3 3]
  /\ fst (get_game_locations_flow decimal_of_str decimal_float_of_str env_one_empty
            ["1"; "2"; "3"] world0)
     = Ok [in_boston 1; in_boston 3].
Proof.
  split; [| split].
  - apply (proj1 (empty_response_is_skipped decimal_of_str decimal_float_of_str
                    env_one_empty "2" (PyDict []) world0 eq_refl) eq_refl).
  - destruct (proj1 (empty_response_is_skipped decimal_of_str decimal_float_of_str
                       env_one_empty "2" (PyDict [])
                       (snd (get_game_scores decimal_of_str env_one_empty ["1"] world0))
                       eq_refl) eq_refl) as (_ & _ & Hskip).
    pose proof (Hskip ["1"] ["3"] [score_5_3 1] world0 eq_refl) as Hrun.
    change (["1"] ++ ["2"; "3"]) with ["1"; "2"; "3"] in Hrun.
    rewrite Hrun. vm_compute. reflexivity.
  - destruct (proj2 (empty_response_is_skipped decimal_of_str decimal_float_of_str
                       env_one_empty "2" (PyDict [])
                       (snd (get_game_locations_flow decimal_of_str decimal_float_of_str
                               env_one_empty ["1"] world0))
                       eq_refl) eq_refl) as (_ & _ & Hskip).
    pose proof (Hskip ["1"] ["3"] [in_boston 1] world0 eq_refl) as Hrun.
    change (["1"] ++ ["2"; "3"]) with ["1"; "2"; "3"] in Hrun.
    rewrite Hrun. vm_compute. reflexivity.
Defined.

Lemma lineage_failure_is_not_contained_witness :
  fst (main_elevation sample_str env_lineage_down world0)
  = Raise (ExternalError "lineage")
  /\ elevation_data (snd (main_elevation sample_str env_lineage_down world0)) = None
  /\ fst (get_elevation env_lineage_down (PyFloat (float_lit 34 0))
            (PyFloat (float_lit (-74) 0)) world0)
     = Raise (ExternalError "lineage")
  /\ fst (setup_table env_lineage_down "dev-day-connector" sample_cities
            sample_elevations world0)
     = Raise (ExternalError "lineage").
Proof.
  pose proof (lineage_failure_is_not_contained decimal_of_str decimal_float_of_str
                sample_str env_lineage_down) as (_ & Hcity & Hget & Htable).
  split; [| split; [| split]].
  - apply (Hcity (ExternalError "lineage") sample_cities world0); reflexivity.
  - apply (Hcity (ExternalError "lineage") sample_cities world0); reflexivity.
  - apply (Hget (ExternalError "lineage") _ _
             (Ok (PyDict [("elevation", PyFloat (float_lit 89 0))])) world0);
      reflexivity.
  - apply (Htable (ExternalError "lineage") "dev-day-connector" sample_cities
             sample_elevations world0); reflexivity.
Defined.

(** C7 as stated fails: the two runs differ in the lineage emitter only;
    where it returns, the elevation flow loads its two rows; where it
    raises, the flow raises and loads nothing. *)
Lemma best_effort_lineage_counterexample :
  fst (main_elevation sample_str env_up world0) = Ok tt
  /\ elevation_data (snd (main_elevation sample_str env_up world0))
     = Some (seq_of_parameters sample_cities sample_elevations)
  /\ env_lineage_down = with_emitter emitter_down env_up
  /\ fst (main_elevation sample_str env_lineage_down world0)
     = Raise (ExternalError "lineage")
  /\ elevation_data (snd (main_elevation sample_str env_lineage_down world0)) = None.
Proof. repeat split; vm_compute; reflexivity. Qed.

Lemma score_differential_is_abs_witness :
  (exists r,
     score_data_of decimal_of_str "1" (boxscore_of 5 3) = Ok r
     /\ sr_home_score r = 5%Z /\ sr_away_score r = 3%Z
     /\ sr_score_differential r = 2%Z)
  /\ (exists r,
        score_data_of decimal_of_str "1" (boxscore_of 3 5) = Ok r
        /\ sr_home_score r = 3%Z /\ sr_away_score r = 5%Z
        /\ sr_score_differential r = 2%Z)
  /\ (exists r,
        score_data_of decimal_of_str "1" (boxscore_of 7 1) = Ok r
        /\ sr_home_score r = 7%Z /\ sr_away_score r = 1%Z
        /\ sr_score_differential r = 6%Z).
Proof.
  assert (Hat : forall h a : Z,
             forall r, score_data_of decimal_of_str "1" (boxscore_of h a) = Ok r ->
                       sr_home_score r = h /\ sr_away_score r = a
                       /\ sr_score_differential r = Z.abs (h - a)).
  { intros h a r Hr.
    destruct (score_differential_is_abs decimal_of_str "1" (boxscore_of h a) r Hr)
      as (home & away & Hh & Ha & Hhome & Haway & Hdiff & _).
    simpl in Hh, Ha. injection Hh as <-. injection Ha as <-. auto. }
  split; [| split]; eexists; (split; [reflexivity |]).
  - apply (Hat 5%Z 3%Z). reflexivity.
  - apply (Hat 3%Z 5%Z). reflexivity.
  - apply (Hat 7%Z 1%Z). reflexivity.
Defined.

Lemma setup_table_inserts_min_rows_witness :
  length (table_rows (elevation_data
            (snd (setup_table env_up "dev-day-connector" sample_cities
                    [PyFloat (float_lit 10 0)] world0)))) = 1
  /\ fst (setup_table env_up "dev-day-connector" sample_cities
            [PyFloat (float_lit 10 0)] world0) = Ok tt
  /\ length (table_rows (elevation_data
               (snd (setup_table env_up "dev-day-connector"
                       [(PyStr "NYC", PyNone, PyNone)] sample_elevations world0)))) = 1.
Proof.
  split; [| split].
  - apply (proj2 (setup_table_inserts_min_rows env_up "dev-day-connector" sample_cities
                    [PyFloat (float_lit 10 0)] world0) eq_refl eq_refl eq_refl).
  - apply (proj2 (setup_table_inserts_min_rows env_up "dev-day-connector" sample_cities
                    [PyFloat (float_lit 10 0)] world0) eq_refl eq_refl eq_refl).
  - apply (proj2 (setup_table_inserts_min_rows env_up "dev-day-connector"
                    [(PyStr "NYC", PyNone, PyNone)] sample_elevations world0)
             eq_refl eq_refl eq_refl).
Defined.

(** ** The further properties at the samples *)

Lemma setup_tables_is_idempotent_witness :
  fst (setup_tables env_up "dev-day-connector" world_with_tables) = Ok tt
  /\ GAME_SCORES (snd (setup_tables env_up "dev-day-connector" world_with_tables))
     = Some [score_5_3 9]
  /\ GAME_LOCATIONS (snd (setup_tables env_up "dev-day-connector" world0)) = Some [].
Proof.
  pose proof (setup_tables_is_idempotent env_up "dev-day-connector" world_with_tables
                eq_refl eq_refl eq_refl) as (H1 & H2 & _).
  pose proof (setup_tables_is_idempotent env_up "dev-day-connector" world0
                eq_refl eq_refl eq_refl) as (_ & _ & H3 & _).
  split; [exact H1 | split; [exact H2 | exact H3]].
Defined.

Lemma setup_tables_logs_and_reraises_witness :
  fst (setup_tables env_no_connector "dev-day-connector" world0) = Raise no_block
  /\ fst (setup_tables (env_refusing CreateGameScores) "dev-day-connector" world0)
     = Raise refused
  /\ GAME_SCORES (snd (setup_tables (env_refusing CreateGameLocations)
                         "dev-day-connector" world0))
     = Some [].
Proof.
  split; [| split].
  - rewrite (proj1 (setup_tables_logs_and_reraises env_no_connector "dev-day-connector"
                      world0 no_block) eq_refl).
    reflexivity.
  - apply (proj1 (proj2 (setup_tables_logs_and_reraises (env_refusing CreateGameScores)
                           "dev-day-connector" world0 refused)) eq_refl eq_refl).
  - apply (proj2 (proj2 (setup_tables_logs_and_reraises
                           (env_refusing CreateGameLocations) "dev-day-connector"
                           world0 refused)) eq_refl eq_refl eq_refl).
Defined.

Lemma insert_appends_the_batch_witness :
  GAME_SCORES (snd (insert_game_scores env_up [score_5_3 1; score_5_3 3]
                      "dev-day-connector" world_with_tables))
  = Some [score_5_3 9; score_5_3 1; score_5_3 3]
  /\ GAME_LOCATIONS (snd (insert_game_locations env_up [in_boston 1]
                            "dev-day-connector" world_with_tables))
     = Some [in_boston 1].
Proof.
  split.
  - apply (proj1 (insert_appends_the_batch env_up "dev-day-connector" world_with_tables
                    eq_refl)
             [score_5_3 1; score_5_3 3] [score_5_3 9] eq_refl eq_refl).
  - apply (proj2 (insert_appends_the_batch env_up "dev-day-connector" world_with_tables
                    eq_refl)
             [in_boston 1] [] eq_refl eq_refl).
Defined.

Lemma insert_failure_is_logged_and_reraised_witness :
  fst (insert_game_scores env_no_connector [score_5_3 1] "dev-day-connector"
         world_with_tables)
  = Raise no_block
  /\ fst (insert_game_locations (env_refusing InsertGameLocations) [in_boston 1]
            "dev-day-connector" world_with_tables)
     = Raise refused
  /\ GAME_LOCATIONS (snd (insert_game_locations (env_refusing InsertGameLocations)
                            [in_boston 1] "dev-day-connector" world_with_tables))
     = Some [].
Proof.
  split; [| split].
  - apply (proj1 (insert_failure_is_logged_and_reraised env_no_connector
                    "dev-day-connector" world_with_tables no_block)
             (score_5_3 1) [] (or_introl eq_refl)).
  - apply (proj2 (insert_failure_is_logged_and_reraised
                    (env_refusing InsertGameLocations) "dev-day-connector"
                    world_with_tables refused)
             (in_boston 1) [] (or_intror (conj eq_refl eq_refl))).
  - apply (proj2 (insert_failure_is_logged_and_reraised
                    (env_refusing InsertGameLocations) "dev-day-connector"
                    world_with_tables refused)
             (in_boston 1) [] (or_intror (conj eq_refl eq_refl))).
Defined.

Lemma mlb_simple_flow_loads_what_was_fetched_witness :
  fst (mlb_simple_flow decimal_of_str decimal_float_of_str sample_str env_up
         [133; 134]%Z "2022-02-01" "2024-11-30" "dev-day-connector" world0)
  = Ok tt
  /\ GAME_SCORES
       (snd (mlb_simple_flow decimal_of_str decimal_float_of_str sample_str env_up
               [133; 134]%Z "2022-02-01" "2024-11-30" "dev-day-connector" world0))
     = Some [score_5_3 3; score_5_3 1; score_5_3 2]
  /\ GAME_LOCATIONS
       (snd (mlb_simple_flow decimal_of_str decimal_float_of_str sample_str env_up
               [133; 134]%Z "2022-02-01" "2024-11-30" "dev-day-connector" world0))
     = Some [in_boston 3; in_boston 1; in_boston 2].
Proof.
  pose (w2 := snd (get_recent_games sample_str env_up [133; 134]%Z "2022-02-01"
                     "2024-11-30" (snd (setup_tables env_up "dev-day-connector" world0)))).
  pose (w3 := snd (get_game_scores decimal_of_str env_up ["3"; "1"; "2"] w2)).
  pose (w4 := snd (get_game_locations_flow decimal_of_str decimal_float_of_str env_up
                     ["3"; "1"; "2"] w3)).
  destruct (mlb_simple_flow_loads_what_was_fetched decimal_of_str decimal_float_of_str
              sample_str env_up [133; 134]%Z "2022-02-01" "2024-11-30"
              "dev-day-connector" world0 w2 w3 w4 ["3"; "1"; "2"]
              [score_5_3 3; score_5_3 1; score_5_3 2]
              [in_boston 3; in_boston 1; in_boston 2]
              eq_refl eq_refl eq_refl eq_refl eq_refl
              ltac:(vm_compute; reflexivity) ltac:(vm_compute; reflexivity)
              ltac:(vm_compute; reflexivity))
    as (Hr & Hs & Hl & _).
  split; [exact Hr | split; [exact Hs | exact Hl]].
Defined.

Lemma mlb_simple_flow_can_load_scores_only_witness :
  fst (mlb_simple_flow decimal_of_str decimal_float_of_str sample_str
         (env_refusing InsertGameLocations)
         [133; 134]%Z "2022-02-01" "2024-11-30" "dev-day-connector" world0)
  = Raise refused
  /\ GAME_SCORES
       (snd (mlb_simple_flow decimal_of_str decimal_float_of_str sample_str
               (env_refusing InsertGameLocations)
               [133; 134]%Z "2022-02-01" "2024-11-30" "dev-day-connector" world0))
     = Some [score_5_3 3; score_5_3 1; score_5_3 2]
  /\ GAME_LOCATIONS
       (snd (mlb_simple_flow decimal_of_str decimal_float_of_str sample_str
               (env_refusing InsertGameLocations)
               [133; 134]%Z "2022-02-01" "2024-11-30" "dev-day-connector" world0))
     = Some [].
Proof.
  pose (E1 := env_refusing InsertGameLocations).
  pose (w2 := snd (get_recent_games sample_str E1 [133; 134]%Z "2022-02-01"
                     "2024-11-30" (snd (setup_tables E1 "dev-day-connector" world0)))).
  pose (w3 := snd (get_game_scores decimal_of_str E1 ["3"; "1"; "2"] w2)).
  pose (w4 := snd (get_game_locations_flow decimal_of_str decimal_float_of_str E1
                     ["3"; "1"; "2"] w3)).
  apply (mlb_simple_flow_can_load_scores_only decimal_of_str decimal_float_of_str
           sample_str E1 [133; 134]%Z "2022-02-01" "2024-11-30"
           "dev-day-connector" world0 w2 w3 w4 ["3"; "1"; "2"]
           [score_5_3 3; score_5_3 1; score_5_3 2]
           (in_boston 3) [in_boston 1; in_boston 2] refused
           eq_refl eq_refl eq_refl eq_refl eq_refl
           ltac:(vm_compute; reflexivity) ltac:(vm_compute; reflexivity)
           ltac:(vm_compute; reflexivity)).
Defined.

Lemma malformed_payload_is_retried_witness :
  (exists w',
     fetch_game_score decimal_of_str env_malformed "1" world0
     = (Raise AttributeError, w')
     /\ score_attempts "1" w' = 6)
  /\ (exists w',
        fetch_game_location decimal_of_str decimal_float_of_str env_malformed "1" world0
        = (Raise AttributeError, w')
        /\ location_attempts "1" w' = 6).
Proof.
  split.
  - apply (proj1 (malformed_payload_is_retried decimal_of_str decimal_float_of_str
                    env_malformed "1" world0 (fun _ => PyDict [("home", PyNone)])
                    (fun _ => AttributeError) (fun _ => eq_refl))
             (fun _ => eq_refl) (fun _ => eq_refl)).
  - apply (proj2 (malformed_payload_is_retried decimal_of_str decimal_float_of_str
                    env_malformed "1" world0 (fun _ => PyDict [("gameData", PyNone)])
                    (fun _ => AttributeError) (fun _ => eq_refl))
             (fun _ => eq_refl) (fun _ => eq_refl)).
Defined.

Lemma records_follow_the_identifiers_witness :
  fst (get_game_scores decimal_of_str env_one_empty ["1"; "2"; "3"; "1"] world0)
  = Ok [score_5_3 1; score_5_3 3; score_5_3 1].
Proof.
  apply (proj1 (records_follow_the_identifiers decimal_of_str decimal_float_of_str
                  env_one_empty ["1"; "2"; "3"; "1"] world0)
           (fun g => if String.eqb g "2" then None
                     else if String.eqb g "1" then Some (score_5_3 1)
                          else Some (score_5_3 3))).
  intros g Hg n. apply list_elem_of_In in Hg. simpl in Hg.
  destruct Hg as [<- | [<- | [<- | [<- | []]]]].
  - exists (boxscore_of 5 3). split; [reflexivity |]. exists (score_5_3 1). split; reflexivity.
  - exists (PyDict []). split; reflexivity.
  - exists (boxscore_of 5 3). split; [reflexivity |]. exists (score_5_3 3). split; reflexivity.
  - exists (boxscore_of 5 3). split; [reflexivity |]. exists (score_5_3 1). split; reflexivity.
Defined.

Lemma orchestrator_fetches_every_occurrence_witness :
  exists scores w',
    get_game_scores decimal_of_str env_up ["1"; "1"; "2"] world0 = (Ok scores, w')
    /\ score_attempts "1" w' = 2
    /\ score_attempts "2" w' = 1
    /\ score_attempts "3" w' = 0.
Proof.
  destruct (orchestrator_fetches_every_occurrence decimal_of_str env_up
              ["1"; "1"; "2"] world0) as (scores & w' & Hrun & Hcount).
  - intros g Hg n. exists (boxscore_of 5 3). split; [reflexivity | right].
    apply list_elem_of_In in Hg. simpl in Hg.
    destruct Hg as [<- | [<- | [<- | []]]]; eexists; reflexivity.
  - exists scores, w'. split; [exact Hrun |].
    rewrite (Hcount "1"), (Hcount "2"), (Hcount "3"). repeat split.
Defined.

Lemma records_belong_to_listed_identifiers_witness :
  (exists kept,
     kept `sublist_of` ["1"; "2"; "3"]
     /\ Forall2 (fun g r => decimal_of_str g = Some (sr_game_id r)) kept
          [score_5_3 1; score_5_3 3])
  /\ (exists kept,
        kept `sublist_of` ["1"; "2"; "3"]
        /\ Forall2 (fun g r => decimal_of_str g = Some (lr_game_id r)) kept
             [in_boston 1; in_boston 3]).
Proof.
  split.
  - apply (proj1 (records_belong_to_listed_identifiers decimal_of_str
                    decimal_float_of_str env_one_empty ["1"; "2"; "3"] world0
                    (snd (get_game_scores decimal_of_str env_one_empty ["1"; "2"; "3"]
                            world0)))
             [score_5_3 1; score_5_3 3]).
    vm_compute. reflexivity.
  - apply (proj2 (records_belong_to_listed_identifiers decimal_of_str
                    decimal_float_of_str env_one_empty ["1"; "2"; "3"] world0
                    (snd (get_game_locations_flow decimal_of_str decimal_float_of_str
                            env_one_empty ["1"; "2"; "3"] world0)))
             [in_boston 1; in_boston 3]).
    vm_compute. reflexivity.
Defined.

Lemma game_time_is_the_first_T_witness :
  exists r,
    score_data_of decimal_of_str "1" boxscore_with_time = Ok r
    /\ sr_game_time r = PyStr "3:05".
Proof.
  eexists. split; [reflexivity |].
  apply (proj1 (game_time_is_the_first_T decimal_of_str "1" boxscore_with_time _
                  [PyDict [("label", PyStr "Att"); ("value", PyStr "30,000")]]
                  [PyInt 7]
                  [("label", PyStr "T"); ("value", PyStr "3:05")]
                  eq_refl eq_refl)
           eq_refl eq_refl).
Defined.

Lemma score_record_reads_the_payload_witness :
  py_int decimal_of_str (PyInt 5) = Ok (sr_home_score (score_5_3 1))
  /\ sr_home_team_id (score_5_3 1) = 0%Z
  /\ sr_home_team (score_5_3 1) = PyStr "Unknown".
Proof.
  pose proof (score_record_reads_the_payload decimal_of_str "1" (boxscore_of 5 3)
                (score_5_3 1) eq_refl) as (Hh & _ & Hid & _ & Hname & _).
  split; [exact Hh | split; [exact Hid | exact Hname]].
Defined.

Lemma location_record_reads_the_payload_witness :
  exists r,
    location_data_of decimal_of_str decimal_float_of_str "7" game_with_null_id = Ok r
    /\ lr_venue_id r = 0%Z
    /\ lr_venue_name r = PyStr "Fenway Park"
    /\ lr_venue_city r = PyStr "Unknown"
    /\ py_float decimal_float_of_str (PyInt 42) = Ok (lr_venue_latitude r).
Proof.
  eexists. split; [reflexivity |].
  pose proof (location_record_reads_the_payload decimal_of_str decimal_float_of_str "7"
                game_with_null_id _ eq_refl)
    as (Hid & Hname & Hcity & _ & _ & _ & Hlat & _).
  split; [exact Hid | split; [exact Hname | split; [exact Hcity | exact Hlat]]].
Defined.

Lemma get_elevation_reads_the_elevation_key_witness :
  fst (get_elevation env_elevation_down (PyFloat (float_lit 34 0))
         (PyFloat (float_lit (-74) 0)) world0)
  = Raise timeout
  /\ fst (get_elevation env_up (PyFloat (float_lit 34 0))
            (PyFloat (float_lit (-74) 0)) world0)
     = Ok (PyFloat (float_lit 89 0))
  /\ py_subscript (PyDict [("latitude", PyInt 1)]) "elevation" = Raise KeyError.
Proof.
  split; [| split].
  - rewrite (proj1 (get_elevation_reads_the_elevation_key env_elevation_down
                      (PyFloat (float_lit 34 0)) (PyFloat (float_lit (-74) 0)) world0)
               timeout eq_refl).
    reflexivity.
  - rewrite (proj1 (proj2 (get_elevation_reads_the_elevation_key env_up
                             (PyFloat (float_lit 34 0)) (PyFloat (float_lit (-74) 0))
                             world0))
               (Ok (PyDict [("elevation", PyFloat (float_lit 89 0))])) eq_refl eq_refl).
    reflexivity.
  - apply (proj1 (proj2 (proj2 (get_elevation_reads_the_elevation_key env_up
                                  PyNone PyNone world0)))
             [("latitude", PyInt 1)] eq_refl).
Defined.

Lemma main_elevation_loads_one_row_per_city_witness :
  exists rows elevations,
    fetch_many_locations env_up = Ok rows
    /\ length (seq_of_parameters rows elevations) = length rows
    /\ elevation_data (snd (main_elevation sample_str env_up world0))
       = Some (seq_of_parameters rows elevations).
Proof.
  destruct (main_elevation_loads_one_row_per_city sample_str env_up world0
              (snd (main_elevation sample_str env_up world0))
              ltac:(vm_compute; reflexivity))
    as (rows & elevations & Hrows & _ & Hlen & Htable & _).
  exists rows, elevations. split; [exact Hrows | split; [exact Hlen | exact Htable]].
Defined.

Lemma main_elevation_loads_all_or_nothing_witness :
  fst (main_elevation sample_str env_elevation_down world0) = Raise timeout
  /\ elevation_data (snd (main_elevation sample_str env_elevation_down world0)) = None.
Proof.
  destruct (proj2 (main_elevation_loads_all_or_nothing sample_str env_elevation_down
                     world0 timeout)
              sample_cities
              (snd (get_city_data env_elevation_down world0))
              (snd (main_elevation_loop sample_str env_elevation_down sample_cities []
                      (snd (get_city_data env_elevation_down world0))))
              ltac:(vm_compute; reflexivity) ltac:(vm_compute; reflexivity))
    as (Hrun & _ & _ & Htable).
  rewrite Hrun. split; [reflexivity | exact Htable].
Defined.

Lemma get_recent_games_stops_at_first_failure_witness :
  fst (get_recent_games sample_str env_schedule_down [133; 134; 135]%Z
         "2022-02-01" "2024-11-30" world0)
  = Raise timeout
  /\ fst (get_recent_games sample_str env_listing_without_id [133; 134; 135]%Z
            "2022-02-01" "2024-11-30" world0)
     = Raise KeyError.
Proof.
  change [133; 134; 135]%Z with ([133] ++ 134 :: [135])%Z.
  split.
  - rewrite (proj1 (get_recent_games_stops_at_first_failure sample_str
                      env_schedule_down [133]%Z [135]%Z 134 "2022-02-01" "2024-11-30"
                      world0
                      (snd (get_recent_games_loop sample_str env_schedule_down [133]%Z
                              "2022-02-01" "2024-11-30" [] world0))
                      ["1"; "2"] ltac:(vm_compute; reflexivity))
               timeout eq_refl).
    reflexivity.
  - rewrite (proj2 (get_recent_games_stops_at_first_failure sample_str
                      env_listing_without_id [133]%Z [135]%Z 134 "2022-02-01"
                      "2024-11-30" world0
                      (snd (get_recent_games_loop sample_str env_listing_without_id
                              [133]%Z "2022-02-01" "2024-11-30" [] world0))
                      ["1"; "2"] ltac:(vm_compute; reflexivity))
               [game_listing 2] [] [] eq_refl eq_refl eq_refl).
    reflexivity.
Defined.

Lemma get_recent_games_lists_every_game_witness :
  exists ids w',
    get_recent_games sample_str env_up [133; 134]%Z "2022-02-01" "2024-11-30" world0
    = (Ok ids, w')
    /\ NoDup ids
    /\ "2" ∈ ids.
Proof.
  destruct (get_recent_games_lists_every_game sample_str env_up [133; 134]%Z
              "2022-02-01" "2024-11-30"
              (fun t => if (t =? 133)%Z then ["1"; "2"] else ["2"; "3"]) world0)
    as (ids & w' & Hrun & Hnodup & Hmem).
  - intros t Ht. apply list_elem_of_In in Ht. simpl in Ht.
    destruct Ht as [<- | [<- | []]]; eexists; split; reflexivity.
  - exists ids, w'. split; [exact Hrun | split; [exact Hnodup |]].
    apply Hmem. exists 133%Z. split; [left | right; left].
Defined.

Lemma mlb_simple_flow_loads_nothing_if_a_fetch_fails_witness :
  fst (mlb_simple_flow decimal_of_str decimal_float_of_str sample_str env_one_down
         [133; 134]%Z "2022-02-01" "2024-11-30" "dev-day-connector" world0)
  = Raise timeout
  /\ GAME_SCORES
       (snd (mlb_simple_flow decimal_of_str decimal_float_of_str sample_str env_one_down
               [133; 134]%Z "2022-02-01" "2024-11-30" "dev-day-connector" world0))
     = Some [].
Proof.
  pose (w2 := snd (get_recent_games sample_str env_one_down [133; 134]%Z "2022-02-01"
                     "2024-11-30"
                     (snd (setup_tables env_one_down "dev-day-connector" world0)))).
  destruct (proj1 (mlb_simple_flow_loads_nothing_if_a_fetch_fails decimal_of_str
                     decimal_float_of_str sample_str env_one_down [133; 134]%Z
                     "2022-02-01" "2024-11-30" "dev-day-connector" world0 w2
                     ["3"; "1"; "2"] timeout eq_refl eq_refl eq_refl
                     ltac:(vm_compute; reflexivity))
              (snd (get_game_scores decimal_of_str env_one_down ["3"; "1"; "2"] w2))
              ltac:(vm_compute; reflexivity))
    as (Hrun & Hs & _).
  rewrite Hrun. split; [reflexivity | exact Hs].
Defined.

Lemma mlb_simple_flow_without_games_witness :
  fst (mlb_simple_flow decimal_of_str decimal_float_of_str sample_str
         (env_refusing InsertGameScores)
         [999]%Z "2022-02-01" "2024-11-30" "dev-day-connector" world_with_tables)
  = Ok tt
  /\ GAME_SCORES
       (snd (mlb_simple_flow decimal_of_str decimal_float_of_str sample_str
               (env_refusing InsertGameScores)
               [999]%Z "2022-02-01" "2024-11-30" "dev-day-connector" world_with_tables))
     = Some [score_5_3 9].
Proof.
  destruct (mlb_simple_flow_without_games decimal_of_str decimal_float_of_str sample_str
              (env_refusing InsertGameScores) [999]%Z "2022-02-01" "2024-11-30"
              "dev-day-connector" world_with_tables
              (snd (get_recent_games sample_str (env_refusing InsertGameScores) [999]%Z
                      "2022-02-01" "2024-11-30"
                      (snd (setup_tables (env_refusing InsertGameScores)
                              "dev-day-connector" world_with_tables))))
              eq_refl eq_refl eq_refl ltac:(vm_compute; reflexivity))
    as (Hr & _ & Hs & _).
  split; [exact Hr | exact Hs].
Defined.
